(** * feeder: analysis, clustering and brief composition

    A shallow embedding of [feeder/analyzer.py], [feeder/clustering.py] and
    [feeder/news_brief.py], with the properties of the engine stated and
    proved over it.

    Conventions of the embedding:
    - Python text is a list of Unicode code points ([str]); literals are
      written [lit "..."].
    - A Python value whose type is only known at run time (the result of
      [json.loads]) is a [pyval].
    - Code that can raise returns [exc A]; the handlers of the source are
      written out as matches on the raised exception.
    - The record store behind the SQLAlchemy session is a [Store], threaded
      explicitly.
    - Calls that leave the repository (the generative-language service, the
      embedding service, [json.loads], DBSCAN, ...) are Section variables:
      every theorem holds for any behaviour of theirs. *)

From Stdlib Require Import List ZArith NArith QArith Bool Lia.
From Stdlib Require String Ascii SpecFloat.
Import ListNotations String.StringSyntax.

Set Warnings "-register-all,-abstract-large-number".
Delimit Scope string_scope with string.

Close Scope Q_scope.
Local Open Scope nat_scope.
Local Open Scope list_scope.

(* ===================================================================== *)
(** * Python values, text and exceptions *)
(* ===================================================================== *)

Module Py.

(** Text: a sequence of code points. *)
Definition str := list N.

Definition lit (s : String.string) : str :=
  map Ascii.N_of_ascii (String.list_ascii_of_string s).
Arguments lit s%_string.

Fixpoint str_eqb (a b : str) : bool :=
  match a, b with
  | [], [] => true
  | x :: a', y :: b' => (x =? y)%N && str_eqb a' b'
  | _, _ => false
  end.

(** The exceptions the source distinguishes in its handlers.
    [JSONDecodeError] is a subclass of [ValueError]. *)
Inductive exn :=
| JSONDecodeError
| ValueError
| TypeError
| AttributeError
| IndexError
| OverflowError
| ServiceError.

Definition is_ValueError (e : exn) : bool :=
  match e with JSONDecodeError | ValueError => true | _ => false end.

Definition is_TypeError (e : exn) : bool :=
  match e with TypeError => true | _ => false end.

Definition is_JSONDecodeError (e : exn) : bool :=
  match e with JSONDecodeError => true | _ => false end.

Inductive exc (A : Type) :=
| Ok (a : A)
| Raise (e : exn).
Arguments Ok {A} a.
Arguments Raise {A} e.

Definition bind {A B} (c : exc A) (k : A -> exc B) : exc B :=
  match c with Ok a => k a | Raise e => Raise e end.

Fixpoint mapM {A B} (f : A -> exc B) (l : list A) : exc (list B) :=
  match l with
  | [] => Ok []
  | a :: l' => bind (f a) (fun b => bind (mapM f l') (fun bs => Ok (b :: bs)))
  end.

(** A value of run-time type: what [json.loads] returns, and what the
    analysis dictionaries hold. A float value is carried as the rational
    it stands for (every finite binary64 value is one), so infinities
    and NaN do not occur as values of this type; where floats are
    computed with, the operations are those of binary64, see the end of
    this module. A dictionary keeps its insertion order. *)
Inductive pyval :=
| PyNone
| PyBool (b : bool)
| PyInt (z : Z)
| PyFloat (q : Q)
| PyStr (s : str)
| PyList (l : list pyval)
| PyDict (d : list (str * pyval)).

Definition is_str (v : pyval) : Prop :=
  match v with PyStr _ => True | _ => False end.

Definition is_float (v : pyval) : Prop :=
  match v with PyFloat _ => True | _ => False end.

(** [d.get(key, default)] *)
Fixpoint dict_get (d : list (str * pyval)) (key : str) (default : pyval) : pyval :=
  match d with
  | [] => default
  | (k, v) :: d' => if str_eqb k key then v else dict_get d' key default
  end.

(** [v.get(key, default)]: only a dict has the method. *)
Definition get (v : pyval) (key : str) (default : pyval) : exc pyval :=
  match v with
  | PyDict d => Ok (dict_get d key default)
  | _ => Raise AttributeError
  end.

(** Truth value of an object, as [if v:] / [not v] test it. *)
Definition truthy (v : pyval) : bool :=
  match v with
  | PyNone => false
  | PyBool b => b
  | PyInt z => negb (z =? 0)%Z
  | PyFloat q => negb (Qeq_bool q 0)
  | PyStr s => negb (Nat.eqb (length s) 0)
  | PyList l => negb (Nat.eqb (length l) 0)
  | PyDict d => negb (Nat.eqb (length d) 0)
  end.

(** [len(v)] *)
Definition len (v : pyval) : exc nat :=
  match v with
  | PyStr s => Ok (length s)
  | PyList l => Ok (length l)
  | PyDict d => Ok (length d)
  | _ => Raise TypeError
  end.

(** ** Text methods *)

(** [str.isspace] on one code point (the Unicode White_Space set together
    with the four ASCII separators 0x1c-0x1f). *)
Definition isspace (c : N) : bool :=
  ((9 <=? c) && (c <=? 13) || (28 <=? c) && (c <=? 32)
   || (c =? 133) || (c =? 160) || (c =? 5760)
   || (8192 <=? c) && (c <=? 8202)
   || (c =? 8232) || (c =? 8233) || (c =? 8239) || (c =? 8287)
   || (c =? 12288))%N.

Fixpoint lstrip_by (p : N -> bool) (s : str) : str :=
  match s with
  | c :: s' => if p c then lstrip_by p s' else s
  | [] => []
  end.

Definition rstrip_by (p : N -> bool) (s : str) : str :=
  rev (lstrip_by p (rev s)).

Definition strip_by (p : N -> bool) (s : str) : str :=
  rstrip_by p (lstrip_by p s).

(** [s.strip()] *)
Definition strip (s : str) : str := strip_by isspace s.

Definition mem_char (chars : str) (c : N) : bool :=
  existsb (N.eqb c) chars.

(** [s.strip(chars)] *)
Definition strip_chars (chars : str) (s : str) : str :=
  strip_by (mem_char chars) s.

(** [s.startswith(prefix)] *)
Fixpoint startswith (s prefix : str) : bool :=
  match prefix, s with
  | [], _ => true
  | p :: prefix', c :: s' => (p =? c)%N && startswith s' prefix'
  | _ :: _, [] => false
  end.

(** [s.startswith((p1, p2, ...))] *)
Definition startswith_any (s : str) (prefixes : list str) : bool :=
  existsb (startswith s) prefixes.

(** [s.endswith(suffix)] *)
Definition endswith (s suffix : str) : bool :=
  startswith (rev s) (rev suffix).

(** [s.split(sep)] for a non-empty separator: scanning left to right, cut
    at every occurrence of [sep]. [cur] is the piece being read, reversed. *)
Fixpoint split_aux (sep : str) (cur : str) (s : str) (skip : nat) : list str :=
  match s with
  | [] => [rev cur]
  | c :: s' =>
      match skip with
      | S n => split_aux sep cur s' n
      | O =>
          if startswith s sep
          then rev cur :: split_aux sep [] s' (length sep - 1)
          else split_aux sep (c :: cur) s' 0
      end
  end.

Definition split (s sep : str) : list str := split_aux sep [] s 0.

(** [sep.join(parts)] *)
Fixpoint join (sep : str) (parts : list str) : str :=
  match parts with
  | [] => []
  | [p] => p
  | p :: rest => p ++ sep ++ join sep rest
  end.

(** [sorted(l, key=key, reverse=True)]: descending by key, and stable:
    elements of equal key keep their order. *)
Fixpoint insert_desc {A} (key : A -> Q) (x : A) (l : list A) : list A :=
  match l with
  | [] => [x]
  | y :: l' =>
      if Qle_bool (key x) (key y) then y :: insert_desc key x l' else x :: l
  end.

Definition sorted_desc {A} (key : A -> Q) (l : list A) : list A :=
  fold_left (fun acc x => insert_desc key x acc) l [].

(** Decimal rendering of a natural number and of an integer. *)
Fixpoint digits_aux (fuel : nat) (n : N) (acc : str) : str :=
  match fuel with
  | O => acc
  | S fuel' =>
      let acc' := (48 + n mod 10)%N :: acc in
      if (n <? 10)%N then acc' else digits_aux fuel' (n / 10)%N acc'
  end.

Definition str_of_N (n : N) : str := digits_aux (S (N.to_nat (N.log2 n))) n [].

Definition str_of_nat (n : nat) : str := str_of_N (N.of_nat n).

Definition str_of_Z (z : Z) : str :=
  if (z <? 0)%Z then 45%N :: str_of_N (Z.to_N (- z)) else str_of_N (Z.to_N z).

(** ** Floating-point numbers

    Python floats are binary64 numbers, and every operation on them is
    rounded to the nearest value, ties to even. Where the rounding
    matters a float is a [spec_float] of the standard library, whose
    operations are taken at precision 53 and exponent bound 1024; a
    finite float is also the rational it stands for. *)

Definition float : Type := SpecFloat.spec_float.

Definition prec : Z := 53.
Definition emax : Z := 1024.

(** [float(n)] for an integer. *)
Definition float_of_Z (z : Z) : float := SpecFloat.binary_normalize prec emax z 0 false.

(** The binary64 value nearest to a rational: the quotient is taken with
    more than a thousand binary places and a last place that records
    whether anything was cut off, and is then rounded once. A stored
    score is a binary64 value already and is left as it is. *)
Definition float_of_Q (q : Q) : float :=
  let d := Zpos (Qden q) in
  let s := (Z.log2_up d + 1100)%Z in
  let n := Z.shiftl (Z.abs (Qnum q)) s in
  let m := (2 * (n / d) + (if (n mod d =? 0)%Z then 0 else 1))%Z in
  SpecFloat.binary_normalize prec emax
    (if (Qnum q <? 0)%Z then (- m)%Z else m) (- s - 1) false.

(** [x + y], [x / y] and [x < y] on floats. *)
Definition float_add : float -> float -> float := SpecFloat.SFadd prec emax.
Definition float_div : float -> float -> float := SpecFloat.SFdiv prec emax.
Definition float_lt : float -> float -> bool := SpecFloat.SFltb.

Definition float_zero : float := SpecFloat.S754_zero false.

(** The rational a finite float stands for. *)
Definition Q_of_float (x : float) : Q :=
  match x with
  | SpecFloat.S754_finite s m e =>
      let n := if s then Zneg m else Zpos m in
      match e with
      | Zneg k => n # Pos.shiftl 1 (Npos k)
      | _ => inject_Z (n * 2 ^ e)
      end
  | _ => 0
  end.

End Py.

Import Py.
Notation "x <- c ;; k" := (Py.bind c (fun x => k))
  (at level 61, c at next level, right associativity).

(* ===================================================================== *)
(** * Regular expressions, as [re.search] runs them *)
(* ===================================================================== *)

(** The patterns of [analyzer.py] use literals, [.], [\s], [\d],
    alternation, [?], greedy and lazy [*], and capturing groups. The
    matcher backtracks like Python's: alternatives left to right, a greedy
    star longest first, a lazy star shortest first. [re.MULTILINE] only
    changes [^] and [$], which no pattern here uses. *)

Module Re.

Inductive re :=
| Eps
| Chr (c : N)                 (* a literal character *)
| Any                         (* .  *)
| Space                       (* \s *)
| Digit                       (* \d *)
| Seq (r1 r2 : re)
| Alt (r1 r2 : re)
| Opt (r : re)                (* r?  *)
| Star (r : re)               (* r*  *)
| LazyStar (r : re)           (* r*? *)
| Group (i : nat) (r : re).   (* the i-th capturing group *)

Record flags := { ignorecase : bool; dotall : bool }.

Definition captures := list (nat * str).

Fixpoint group (cs : captures) (i : nat) : option str :=
  match cs with
  | [] => None
  | (j, s) :: cs' => if Nat.eqb i j then Some s else group cs' i
  end.

(** ASCII lower-casing, and the code points outside ASCII that
    [re.IGNORECASE] folds onto an ASCII letter: U+0130 and U+0131 onto i,
    U+017F onto s, U+212A onto k. *)
Definition lower (c : N) : N :=
  if ((65 <=? c) && (c <=? 90))%N then (c + 32)%N
  else if ((c =? 304) || (c =? 305))%N then 105%N
  else if (c =? 383)%N then 115%N
  else if (c =? 8490)%N then 107%N
  else c.

Definition chr_matches (fl : flags) (c x : N) : bool :=
  if ignorecase fl then (lower c =? lower x)%N else (c =? x)%N.

(** [\d] on text: the decimal digits of every script, each a run of ten
    code points (the runs of the Unicode version of Python 3.11; the
    last but four holds the five mathematical styles). *)
Definition digit_runs : list (N * N) :=
  [(48, 57); (1632, 1641); (1776, 1785); (1984, 1993); (2406, 2415);
   (2534, 2543); (2662, 2671); (2790, 2799); (2918, 2927); (3046, 3055);
   (3174, 3183); (3302, 3311); (3430, 3439); (3558, 3567); (3664, 3673);
   (3792, 3801); (3872, 3881); (4160, 4169); (4240, 4249); (6112, 6121);
   (6160, 6169); (6470, 6479); (6608, 6617); (6784, 6793); (6800, 6809);
   (6992, 7001); (7088, 7097); (7232, 7241); (7248, 7257); (42528, 42537);
   (43216, 43225); (43264, 43273); (43472, 43481); (43504, 43513);
   (43600, 43609); (44016, 44025); (65296, 65305); (66720, 66729);
   (68912, 68921); (69734, 69743); (69872, 69881); (69942, 69951);
   (70096, 70105); (70384, 70393); (70736, 70745); (70864, 70873);
   (71248, 71257); (71360, 71369); (71472, 71481); (71904, 71913);
   (72016, 72025); (72784, 72793); (73040, 73049); (73120, 73129);
   (92768, 92777); (92864, 92873); (93008, 93017); (120782, 120831);
   (123200, 123209); (123632, 123641); (125264, 125273); (130032, 130041)]%N.

Definition isdigit (c : N) : bool :=
  existsb (fun run => (fst run <=? c) && (c <=? snd run))%N digit_runs.

Section Engine.
Variable fl : flags.
Context {X : Type}.

Definition one (p : N -> bool) (s : str) (cs : captures)
           (k : str -> captures -> option X) : option X :=
  match s with
  | x :: s' => if p x then k s' cs else None
  | [] => None
  end.

Definition orelse (a : option X) (b : unit -> option X) : option X :=
  match a with Some x => Some x | None => b tt end.

(** [run r s cs k]: match [r] at the front of [s], then hand the rest
    of the text and the groups to [k]; [None] asks for backtracking. A
    star body must consume text to be iterated, which bounds the
    iterations by the length of the text. *)
Fixpoint run (r : re) (s : str) (cs : captures)
         (k : str -> captures -> option X) {struct r} : option X :=
  match r with
  | Eps => k s cs
  | Chr c => one (chr_matches fl c) s cs k
  | Any => one (fun x => dotall fl || negb (x =? 10)%N) s cs k
  | Space => one isspace s cs k
  | Digit => one isdigit s cs k
  | Seq r1 r2 => run r1 s cs (fun s' cs' => run r2 s' cs' k)
  | Alt r1 r2 => orelse (run r1 s cs k) (fun _ => run r2 s cs k)
  | Opt r1 => orelse (run r1 s cs k) (fun _ => k s cs)
  | Star r1 =>
      (fix loop (n : nat) (s : str) (cs : captures) : option X :=
         match n with
         | O => k s cs
         | S n' =>
             orelse
               (run r1 s cs (fun s' cs' =>
                  if length s' <? length s then loop n' s' cs' else None))
               (fun _ => k s cs)
         end) (length s) s cs
  | LazyStar r1 =>
      (fix loop (n : nat) (s : str) (cs : captures) : option X :=
         orelse (k s cs)
           (fun _ =>
              match n with
              | O => None
              | S n' =>
                  run r1 s cs (fun s' cs' =>
                    if length s' <? length s then loop n' s' cs' else None)
              end)) (length s) s cs
  | Group i r1 =>
      run r1 s cs (fun s' cs' =>
        k s' ((i, firstn (length s - length s') s) :: cs'))
  end.
End Engine.

(** [re.search(pattern, text, flags)]: the leftmost position where the
    pattern matches; the result holds the captured groups. *)
Fixpoint search_from (fl : flags) (r : re) (s : str) : option captures :=
  match run fl r s [] (fun _ cs => Some cs) with
  | Some cs => Some cs
  | None => match s with
            | [] => None
            | _ :: s' => search_from fl r s'
            end
  end.

Definition search (r : re) (s : str) (fl : flags) : option captures :=
  search_from fl r s.

(** A literal word, character by character. *)
Fixpoint word (w : str) : re :=
  match w with
  | [] => Eps
  | [c] => Chr c
  | c :: w' => Seq (Chr c) (word w')
  end.

Definition seq (rs : list re) : re := fold_right Seq Eps rs.

Fixpoint alt (rs : list re) : re :=
  match rs with
  | [] => Eps
  | [r] => r
  | r :: rs' => Alt r (alt rs')
  end.

End Re.

(* ===================================================================== *)
(** * The record store ([feeder/models.py]) *)
(* ===================================================================== *)

Module Models.

(** A row of [articles]; [art_feed_name] is [article.feed.name] when the
    article has a feed. Timestamps are seconds on some fixed clock. *)
Record Article := {
  art_id : Z;
  art_title : str;
  art_summary : option str;
  art_content : option str;
  art_published_at : option Z;
  art_analyzed : bool;
  art_feed_name : option str
}.

(** A row of [article_analyses]. The three text columns hold whatever was
    written to them; [embedding] is documented as a JSON string. *)
Record ArticleAnalysis := {
  an_id : Z;
  an_article_id : Z;
  an_sentiment_score : option Q;
  an_topics : option str;
  an_key_entities : option str;
  an_summary : option str;
  an_embedding : option str
}.

Record Cluster := {
  cl_id : Z;
  cl_name : option str;
  cl_description : option str;
  cl_run_id : str
}.

Record ClusterMembership := {
  cm_id : Z;
  cm_cluster_id : Z;
  cm_article_id : Z;
  cm_similarity_score : option Q
}.

Record NewsBrief := {
  nb_filename : str;
  nb_content : str;
  nb_article_count : nat;
  nb_cluster_count : nat
}.

(** What a session reads and writes, each table in row order. *)
Record Store := {
  articles : list Article;
  analyses : list ArticleAnalysis;
  clusters : list Cluster;
  memberships : list ClusterMembership;
  briefs : list NewsBrief
}.

(** The primary key given to a new row: one more than the largest in use. *)
Definition fresh_id (ids : list Z) : Z :=
  (1 + fold_right Z.max 0 ids)%Z.

(** [session.query(ArticleAnalysis).filter(ArticleAnalysis.article_id == id).first()] *)
Definition analysis_of (st : Store) (id : Z) : option ArticleAnalysis :=
  find (fun a => (an_article_id a =? id)%Z) (analyses st).

(** [session.query(Article).filter(Article.id == id).first()] *)
Definition article_by_id (st : Store) (id : Z) : option Article :=
  find (fun a => (art_id a =? id)%Z) (articles st).

(** [session.add(analysis)] of a new row. *)
Definition add_analysis (st : Store) (a : ArticleAnalysis) : Store :=
  {| articles := articles st;
     analyses := analyses st ++ [a];
     clusters := clusters st;
     memberships := memberships st;
     briefs := briefs st |}.

(** [session.add(article)] of a row that was changed in memory: the row of
    that id is replaced, or the article is inserted if it has none. *)
Definition put_article (st : Store) (a : Article) : Store :=
  {| articles :=
       if existsb (fun x => (art_id x =? art_id a)%Z) (articles st)
       then map (fun x => if (art_id x =? art_id a)%Z then a else x) (articles st)
       else articles st ++ [a];
     analyses := analyses st;
     clusters := clusters st;
     memberships := memberships st;
     briefs := briefs st |}.

Definition add_cluster (st : Store) (c : Cluster) : Store :=
  {| articles := articles st;
     analyses := analyses st;
     clusters := clusters st ++ [c];
     memberships := memberships st;
     briefs := briefs st |}.

Definition add_membership (st : Store) (m : ClusterMembership) : Store :=
  {| articles := articles st;
     analyses := analyses st;
     clusters := clusters st;
     memberships := memberships st ++ [m];
     briefs := briefs st |}.

(** Assigning [cluster.name] and [cluster.description] on a persistent row. *)
Definition rename_cluster (st : Store) (id : Z) (name description : str) : Store :=
  {| articles := articles st;
     analyses := analyses st;
     clusters :=
       map (fun c => if (cl_id c =? id)%Z
                     then {| cl_id := cl_id c; cl_name := Some name;
                             cl_description := Some description;
                             cl_run_id := cl_run_id c |}
                     else c) (clusters st);
     memberships := memberships st;
     briefs := briefs st |}.

Definition add_brief (st : Store) (b : NewsBrief) : Store :=
  {| articles := articles st;
     analyses := analyses st;
     clusters := clusters st;
     memberships := memberships st;
     briefs := briefs st ++ [b] |}.

End Models.

Import Models.

(* ===================================================================== *)
(** * [feeder/analyzer.py] *)
(* ===================================================================== *)

Module Analyzer.

(** [cast_type] of [extract_field]: the three types it is written for. *)
Inductive cast := CastStr | CastFloat | CastList.

(** The flags of the fallback patterns ([re.IGNORECASE | re.MULTILINE])
    and of the JSON-block pattern ([re.DOTALL | re.IGNORECASE]). *)
Definition IM : Re.flags := {| Re.ignorecase := true; Re.dotall := false |}.
Definition SI : Re.flags := {| Re.ignorecase := true; Re.dotall := true |}.
Definition S_ : Re.flags := {| Re.ignorecase := false; Re.dotall := true |}.

(** The shape of the four fallback patterns: one of the field names, then
    [\s*:\s*], then the value as group 1. *)
Definition field_pattern (names : list str) (value : Re.re) : Re.re :=
  Re.seq [Re.alt (map Re.word names); Re.Star Re.Space; Re.Chr 58;
          Re.Star Re.Space; Re.Group 1 value].

(** [(?:summary|Summary)\s*:\s*] and the rest of the line, [.*], as group 1. *)
Definition summary_pattern : Re.re :=
  field_pattern [lit "summary"; lit "Summary"] (Re.Star Re.Any).

(** [(?:sentiment_score|Sentiment Score)\s*:\s*] and a number,
    [-?\d+\.?\d*], as group 1. *)
Definition sentiment_pattern : Re.re :=
  field_pattern [lit "sentiment_score"; lit "Sentiment Score"]
    (Re.seq [Re.Opt (Re.Chr 45); Re.Digit; Re.Star Re.Digit;
             Re.Opt (Re.Chr 46); Re.Star Re.Digit]).

(** [(?:topics|Topics)\s*:\s*] and the rest of the line, [.*], as group 1. *)
Definition topics_pattern : Re.re :=
  field_pattern [lit "topics"; lit "Topics"] (Re.Star Re.Any).

(** [(?:entities|Entities|Key Entities)\s*:\s*] and the rest of the line,
    [.*], as group 1. *)
Definition entities_pattern : Re.re :=
  field_pattern [lit "entities"; lit "Entities"; lit "Key Entities"]
    (Re.Star Re.Any).

(** An opening brace, [.*?], a closing brace, captured as group [i]. *)
Definition object_group (i : nat) : Re.re :=
  Re.Group i (Re.seq [Re.Chr 123; Re.LazyStar Re.Any; Re.Chr 125]).

(** Three backticks, an optional [json] (group 1), [\s*], the object
    (group 2), [\s*], three backticks. *)
Definition fenced_pattern : Re.re :=
  Re.seq [Re.word (lit "```"); Re.Opt (Re.Group 1 (Re.word (lit "json")));
          Re.Star Re.Space; object_group 2; Re.Star Re.Space;
          Re.word (lit "```")].

(** The bullet markers of [extract_list_field]: [-], [*] and U+2022. *)
Definition bullets : list str := [[45%N]; [42%N]; [8226%N]].

(** The characters stripped around an item (the single and the double
    quote) and around a bracketed list. *)
Definition quotes : str := [39%N; 34%N].
Definition brackets : str := [91%N; 93%N].

Definition nonempty (s : str) : bool := negb (Nat.eqb (length s) 0).

Definition nonempty_list {A} (l : list A) : bool :=
  match l with [] => false | _ => true end.

(** The comma split of the source: the items of [s.split(',')] that are
    not blank, each stripped of blanks and then of quotes. *)
Definition comma_items (s : str) : list str :=
  map (fun item => strip_chars quotes (strip item))
      (filter (fun item => nonempty (strip item)) (split s (lit ","))).

(** The bullet loop of [extract_list_field]: every item is stripped; a
    bullet item is appended without its marker; after the first bullet, a
    non-empty item that is no bullet ends the loop. *)
Fixpoint bullet_loop (potential_items : list str) (list_items : list str)
         (found_bullets : bool) : list str * bool :=
  match potential_items with
  | [] => (list_items, found_bullets)
  | item :: rest =>
      let item := strip item in
      if startswith_any item bullets
      then bullet_loop rest (list_items ++ [strip (skipn 1 item)]) true
      else if found_bullets && nonempty item
           then (list_items, found_bullets)
           else bullet_loop rest list_items found_bullets
  end.

Section Services.

(** [repr] of a float, a list or a dict (what [str()] and [json.dumps]
    print for them). *)
Variable repr : pyval -> str.
(** [float(s)] on text: [None] is [ValueError]. *)
Variable float_of_str : str -> option Q.
(** [json.loads] *)
Variable json_loads : str -> exc pyval.
(** [model.generate_content(prompt).text] for the analysis prompt filled
    with a title and a content. *)
Variable generate_content : str -> str -> exc str.
(** [genai.embed_content(...)]: [Ok (Some v)] is a result that is truthy
    and has an attribute [embedding] holding [v]; [Ok None] any other
    result. *)
Variable embed_content : str -> exc (option pyval).
(** [np.random.normal(0, 1, n)] *)
Variable random_normal : nat -> list Q.

(** [str(v)] *)
Definition py_str (v : pyval) : str :=
  match v with
  | PyStr s => s
  | PyNone => lit "None"
  | PyBool true => lit "True"
  | PyBool false => lit "False"
  | PyInt z => str_of_Z z
  | _ => repr v
  end.

(** [float(v)]; an integer is rounded to the nearest float, and one too
    large for a float raises [OverflowError]. *)
Definition py_float (v : pyval) : exc Q :=
  match v with
  | PyFloat q => Ok q
  | PyInt z => match float_of_Z z with
               | SpecFloat.S754_infinity _ => Raise OverflowError
               | x => Ok (Q_of_float x)
               end
  | PyBool b => Ok (if b then 1%Q else 0%Q)
  | PyStr s => match float_of_str s with
               | Some q => Ok q
               | None => Raise ValueError
               end
  | PyNone | PyList _ | PyDict _ => Raise TypeError
  end.

(** ** The fallback extractors *)

(** [extract_field]: the stripped value of group 1, cast; a failed cast
    gives the default. For a list, a bracketed value is decoded as JSON,
    and split on commas when that fails or when it is not bracketed. *)
Definition extract_field (text : str) (pattern : Re.re)
           (default_value : pyval) (cast_type : cast) : exc pyval :=
  match Re.search pattern text IM with
  | Some m =>
      match Re.group m 1 with
      | None => Raise AttributeError
      | Some g =>
          let value := strip g in
          match cast_type with
          | CastList =>
              let by_comma := PyList (map PyStr (comma_items value)) in
              if startswith value (lit "[") && endswith value (lit "]")
              then match json_loads value with
                   | Ok v => Ok v
                   | Raise _ => Ok by_comma
                   end
              else Ok by_comma
          | CastStr => Ok (PyStr value)
          | CastFloat =>
              match float_of_str value with
              | Some q => Ok (PyFloat q)
              | None => Ok default_value
              end
          end
      end
  | None => Ok default_value
  end.

(** [extract_list_field]: bullets first, then a bracketed JSON list,
    then commas; at most five items, the default when there is none. The
    separator of the bullet split is written ['\\n'] in the source: the
    two characters backslash and [n], which is what [lit] holds here. *)
Definition extract_list_field (text : str) (pattern : Re.re)
           (default_value : list str) : exc (list str) :=
  list_items <-
    match Re.search pattern text IM with
    | Some m =>
        match Re.group m 1 with
        | None => Raise AttributeError
        | Some g =>
            let value_str := strip g in
            let potential_items := split value_str (lit "\n") in
            let '(list_items, found_bullets) :=
              bullet_loop potential_items [] false in
            if negb found_bullets && nonempty value_str
            then
              if startswith value_str (lit "[") && endswith value_str (lit "]")
              then match json_loads value_str with
                   | Ok (PyList parsed_list) => Ok (map py_str parsed_list)
                   | Ok _ => Ok list_items
                   | Raise JSONDecodeError =>
                       Ok (map (fun item => strip_chars quotes (strip item))
                             (filter (fun item => nonempty (strip item))
                                (split (strip_chars brackets value_str) (lit ","))))
                   | Raise e => Raise e
                   end
              else Ok (comma_items value_str)
            else Ok list_items
        end
    | None => Ok []
    end ;;
  Ok (if nonempty_list list_items then firstn 5 list_items else default_value).

(** ** The structured stage *)

(** Lines 183-203: the dictionary built from the parsed response.
    [summary] is stringified and stripped, [sentiment_score] goes through
    [float()], [topics] and [entities] are reset to the empty list unless
    they are lists, else stringified element by element, [topics] cut to
    its first five. *)
Definition validate (analysis_result : pyval) : exc pyval :=
  summary <- get analysis_result (lit "summary") (PyStr (lit "")) ;;
  score <- get analysis_result (lit "sentiment_score") (PyFloat 0) ;;
  sentiment_score <- py_float score ;;
  topics <- get analysis_result (lit "topics") (PyList []) ;;
  entities <- get analysis_result (lit "entities") (PyList []) ;;
  let topics :=
    match topics with
    | PyList l => PyList (firstn 5 (map (fun t => PyStr (py_str t)) l))
    | _ => PyList []
    end in
  let entities :=
    match entities with
    | PyList l => PyList (map (fun e => PyStr (py_str e)) l)
    | _ => PyList []
    end in
  Ok (PyDict [(lit "summary", PyStr (strip (py_str summary)));
              (lit "sentiment_score", PyFloat sentiment_score);
              (lit "topics", topics);
              (lit "entities", entities)]).

(** Lines 165-177: the text handed to [json.loads]. *)
Definition json_block (result_text : str) : exc str :=
  match Re.search fenced_pattern result_text SI with
  | Some m =>
      match Re.group m 2 with
      | Some json_str => Ok json_str
      | None => Raise AttributeError
      end
  | None =>
      match Re.search (object_group 1) result_text S_ with
      | Some m =>
          match Re.group m 1 with
          | Some json_str => Ok json_str
          | None => Raise AttributeError
          end
      | None => Ok result_text
      end
  end.

(** Lines 163-203, the body of the inner [try]. *)
Definition structured_stage (result_text : str) : exc pyval :=
  json_str <- json_block result_text ;;
  analysis_result <- json_loads json_str ;;
  validate analysis_result.

(** Lines 209-224, the handler of [json.JSONDecodeError]. *)
Definition fallback_stage (result_text : str) : exc pyval :=
  summary <- extract_field result_text summary_pattern (PyStr (lit "")) CastStr ;;
  sentiment_score <-
    extract_field result_text sentiment_pattern (PyFloat 0) CastFloat ;;
  topics <- extract_list_field result_text topics_pattern [] ;;
  entities <- extract_list_field result_text entities_pattern [] ;;
  Ok (PyDict [(lit "summary", summary);
              (lit "sentiment_score", sentiment_score);
              (lit "topics", PyList (map PyStr topics));
              (lit "entities", PyList (map PyStr entities))]).

(** [analyze_content]: [None] is the [None] of the source. The handler of
    [json.JSONDecodeError] runs the fallback stage; every other exception,
    of the service call, of the validation or of the fallback stage,
    reaches [except Exception] and gives [None]. *)
Definition analyze_content (title content : str) : option pyval :=
  match generate_content title content with
  | Raise _ => None
  | Ok result_text =>
      match structured_stage result_text with
      | Ok validated_result => Some validated_result
      | Raise JSONDecodeError =>
          match fallback_stage result_text with
          | Ok fallback_result => Some fallback_result
          | Raise _ => None
          end
      | Raise _ => None
      end
  end.

(** [get_embedding]: the text is cut to 10000 characters; the attribute
    [embedding] of the service's result is returned when there is one, a
    random vector of 768 samples otherwise and when the call raises. *)
Definition get_embedding (text : str) : pyval :=
  let max_chars := 10000 in
  let text := if max_chars <? length text then firstn max_chars text else text in
  match embed_content text with
  | Ok (Some embedding) => embedding
  | Ok None => PyList (map PyFloat (random_normal 768))
  | Raise _ => PyList (map PyFloat (random_normal 768))
  end.

(** ** [json.dumps], with its default [ensure_ascii=True] *)

Definition hex_digit (n : N) : N :=
  if (n <? 10)%N then (48 + n)%N else (87 + n)%N.

(** The escape [\uXXXX] of a code unit below 0x10000. *)
Definition u_escape (c : N) : str :=
  [92; 117; hex_digit (c / 4096 mod 16); hex_digit (c / 256 mod 16);
   hex_digit (c / 16 mod 16); hex_digit (c mod 16)]%N.

Definition json_char (c : N) : str :=
  if (c =? 34)%N then [92; 34]%N
  else if (c =? 92)%N then [92; 92]%N
  else if (c =? 10)%N then [92; 110]%N
  else if (c =? 13)%N then [92; 114]%N
  else if (c =? 9)%N then [92; 116]%N
  else if (c =? 8)%N then [92; 98]%N
  else if (c =? 12)%N then [92; 102]%N
  else if ((32 <=? c) && (c <=? 126))%N then [c]
  else if (c <? 65536)%N then u_escape c
  else let v := (c - 65536)%N in
       u_escape (55296 + v / 1024)%N ++ u_escape (56320 + v mod 1024)%N.

Definition json_string (s : str) : str :=
  [34%N] ++ flat_map json_char s ++ [34%N].

Fixpoint json_dumps (v : pyval) : str :=
  match v with
  | PyNone => lit "null"
  | PyBool true => lit "true"
  | PyBool false => lit "false"
  | PyInt z => str_of_Z z
  | PyFloat q => repr (PyFloat q)
  | PyStr s => json_string s
  | PyList l => lit "[" ++ join (lit ", ") (map json_dumps l) ++ lit "]"
  | PyDict d =>
      lit "{"
      ++ join (lit ", ")
           (map (fun kv => match kv with
                           | (k, x) => json_string k ++ lit ": " ++ json_dumps x
                           end) d)
      ++ lit "}"
  end.

(** ** [analyze_article] *)

(** The value bound to a text column and to the float column. The
    analysis dictionaries of [analyze_content] hold a string under
    [summary] and a float under [sentiment_score]; any other value is
    refused by the driver. *)
Definition text_column (v : pyval) : exc (option str) :=
  match v with
  | PyStr s => Ok (Some s)
  | PyNone => Ok None
  | _ => Raise TypeError
  end.

Definition float_column (v : pyval) : exc (option Q) :=
  match v with
  | PyFloat q => Ok (Some q)
  | PyNone => Ok None
  | _ => Raise TypeError
  end.

(** Lines 79-95: the new row, the flag on the article, the commit. *)
Definition store_analysis (article : Article) (analysis_result embedding : pyval)
           (st : Store) : exc Store :=
  summary <- get analysis_result (lit "summary") (PyStr (lit "")) ;;
  sentiment_score <- get analysis_result (lit "sentiment_score") (PyFloat 0) ;;
  topics <- get analysis_result (lit "topics") (PyList []) ;;
  entities <- get analysis_result (lit "entities") (PyList []) ;;
  summary <- text_column summary ;;
  sentiment_score <- float_column sentiment_score ;;
  let article_analysis :=
    {| an_id := fresh_id (map an_id (analyses st));
       an_article_id := art_id article;
       an_summary := summary;
       an_sentiment_score := sentiment_score;
       an_topics := Some (json_dumps topics);
       an_key_entities := Some (json_dumps entities);
       an_embedding := Some (json_dumps embedding) |} in
  let article :=
    {| art_id := art_id article;
       art_title := art_title article;
       art_summary := art_summary article;
       art_content := art_content article;
       art_published_at := art_published_at article;
       art_analyzed := true;
       art_feed_name := art_feed_name article |} in
  Ok (put_article (add_analysis st article_analysis) article).

(** [article.content if article.content else article.summary if
    article.summary else ''] *)
Definition usable_text (article : Article) : str :=
  match art_content article with
  | Some c => if nonempty c then c else
                match art_summary article with
                | Some s => if nonempty s then s else []
                | None => []
                end
  | None => match art_summary article with
            | Some s => if nonempty s then s else []
            | None => []
            end
  end.

(** [analyze_article(article, session)] returns its boolean and the store
    the session is left with. An exception leaves the store as it was. *)
Definition analyze_article (article : Article) (st : Store) : bool * Store :=
  match analysis_of st (art_id article) with
  | Some existing_analysis => (true, st)
  | None =>
      let content := usable_text article in
      if negb (nonempty content) then (false, st)
      else
        match analyze_content (art_title article) content with
        | None => (false, st)
        | Some analysis_result =>
            if negb (truthy analysis_result) then (false, st)
            else
              match get_embedding content with
              | PyNone => (false, st)
              | embedding =>
                  match store_analysis article analysis_result embedding st with
                  | Ok st' => (true, st')
                  | Raise _ => (false, st)
                  end
              end
        end
  end.

End Services.
End Analyzer.

(* ===================================================================== *)
(** * [feeder/clustering.py] *)
(* ===================================================================== *)

Module Clustering.

(** [sorted(set(labels))]: the distinct labels in ascending order. *)
Fixpoint insert_sorted (x : Z) (l : list Z) : list Z :=
  match l with
  | [] => [x]
  | y :: l' =>
      if (x <? y)%Z then x :: l
      else if (x =? y)%Z then l
      else y :: insert_sorted x l'
  end.

Definition sorted_set (labels : list Z) : list Z :=
  fold_right insert_sorted [] labels.

(** [set(labels)] as a loop runs over it. Python leaves the order of a
    set open; the model takes the labels in order of first occurrence,
    and no property below depends on that choice. *)
Fixpoint distinct (labels : list Z) : list Z :=
  match labels with
  | [] => []
  | x :: rest => x :: filter (fun y => negb (y =? x)%Z) (distinct rest)
  end.

(** [max(labels)] *)
Definition py_max (labels : list Z) : exc Z :=
  match labels with
  | [] => Raise ValueError
  | x :: rest => Ok (fold_left Z.max rest x)
  end.

(** [[i for i, c in enumerate(labels) if c == cluster_id]], counting
    from [i]. *)
Fixpoint indices_of (cluster_id : Z) (labels : list Z) (i : nat) : list nat :=
  match labels with
  | [] => []
  | c :: rest =>
      if (c =? cluster_id)%Z
      then i :: indices_of cluster_id rest (S i)
      else indices_of cluster_id rest (S i)
  end.

(** [l[i]] *)
Definition index {A} (l : list A) (i : nat) : exc A :=
  match nth_error l i with
  | Some a => Ok a
  | None => Raise IndexError
  end.

(** The handlers [except (json.JSONDecodeError, TypeError)]. *)
Definition handled (e : exn) : bool :=
  is_JSONDecodeError e || is_TypeError e.

(** ** Topic counting of [name_clusters] *)

(** [topic_counts[topic] = topic_counts.get(topic, 0) + 1] on a dict that
    keeps insertion order. *)
Fixpoint bump (topic : str) (topic_counts : list (str * nat)) : list (str * nat) :=
  match topic_counts with
  | [] => [(topic, 1)]
  | (t, n) :: rest =>
      if str_eqb t topic then (t, S n) :: rest else (t, n) :: bump topic rest
  end.

Definition count_topics (all_topics : list str) : list (str * nat) :=
  fold_left (fun topic_counts topic =>
               if Analyzer.nonempty topic then bump topic topic_counts
               else topic_counts)
            all_topics [].

(** [sorted(topic_counts.items(), key=lambda x: x[1], reverse=True)] *)
Definition sort_desc (items : list (str * nat)) : list (str * nat) :=
  sorted_desc (fun x => inject_Z (Z.of_nat (snd x))) items.

(** A cluster of the view mode: the dict with keys [id] and [articles]. *)
Record ViewCluster := { vc_id : Z; vc_articles : list Article }.

Section Libraries.

(** [json.loads] *)
Variable json_loads : str -> exc pyval.
(** numpy arrays, and [np.array(v)] on one parsed embedding. *)
Variable ndarray : Type.
Variable np_array : pyval -> exc ndarray.
(** [DBSCAN(eps=eps, min_samples=min_samples).fit(np.array(embeddings)).labels_] *)
Variable dbscan : Q -> Z -> list ndarray -> exc (list Z).
(** [str(uuid.uuid4())] *)
Variable uuid4 : str.
(** [str(e)] of a caught exception. *)
Variable exn_str : exn -> str.
(** Lines 300-319 of the view mode: the labels DBSCAN (eps 0.3,
    min_samples 1, precomputed metric) gives to the clipped cosine
    distance matrix of the validated embeddings. *)
Variable view_labels : list (list pyval) -> exc (list Z).

(** The body of the [try] in [get_article_embeddings], for one article
    whose analysis has a non-empty embedding text. *)
Definition load_embedding (text : str) : exc (option ndarray) :=
  embedding <- json_loads text ;;
  if truthy embedding
  then n <- len embedding ;;
       if 0 <? n then a <- np_array embedding ;; Ok (Some a) else Ok None
  else Ok None.

Definition article_embedding (st : Store) (article : Article) : exc (option ndarray) :=
  match analysis_of st (art_id article) with
  | Some analysis =>
      match an_embedding analysis with
      | Some text =>
          if Analyzer.nonempty text
          then match load_embedding text with
               | Raise e => if handled e then Ok None else Raise e
               | r => r
               end
          else Ok None
      | None => Ok None
      end
  | None => Ok None
  end.

Fixpoint get_article_embeddings (st : Store) (articles : list Article)
  : exc (list ndarray * list Z) :=
  match articles with
  | [] => Ok ([], [])
  | article :: rest =>
      e <- article_embedding st article ;;
      r <- get_article_embeddings st rest ;;
      match e with
      | Some a => Ok (a :: fst r, art_id article :: snd r)
      | None => Ok r
      end
  end.

(** ** [name_clusters] *)

(** Lines 197-202: the topics of the analyses, split on commas. *)
Definition collect_topics (rows : list ArticleAnalysis) : list str :=
  flat_map (fun analysis =>
              match an_topics analysis with
              | Some topics =>
                  if Analyzer.nonempty topics
                  then map strip (split topics (lit ","))
                  else []
              | None => []
              end) rows.

Definition name_cluster (st : Store) (label : Z) (cluster_id : Z) : Store :=
  let memberships := filter (fun m => (cm_cluster_id m =? cluster_id)%Z) (memberships st) in
  let article_ids := map cm_article_id memberships in
  let rows := filter (fun a => existsb (Z.eqb (an_article_id a)) article_ids) (analyses st) in
  let all_topics := collect_topics rows in
  let topic_counts := count_topics all_topics in
  let sorted_topics := sort_desc topic_counts in
  match sorted_topics with
  | _ :: _ =>
      let top_topics := map fst (firstn 3 sorted_topics) in
      rename_cluster st cluster_id
        (join (lit " / ") top_topics)
        (if Nat.eqb (length memberships) 1
         then lit "Single article on " ++ hd [] top_topics
         else lit "Group of " ++ str_of_nat (length memberships)
              ++ lit " articles about " ++ join (lit ", ") top_topics)
  | [] =>
      rename_cluster st cluster_id
        (lit "Cluster " ++ str_of_Z label)
        (lit "Group of " ++ str_of_nat (length memberships) ++ lit " articles")
  end.

(** [cluster_map] maps a label to the id of its [Cluster] row, in
    insertion order. *)
Definition name_clusters (cluster_map : list (Z * Z)) (st : Store) : Store :=
  fold_left (fun st lc => name_cluster st (fst lc) (snd lc)) cluster_map st.

(** ** [cluster_articles] *)

(** Lines 68-70: the articles flagged as analyzed that have an analysis. *)
Definition analyzed_articles (st : Store) : list Article :=
  filter (fun a => art_analyzed a
                   && existsb (fun an => (an_article_id an =? art_id a)%Z) (analyses st))
         (articles st).

(** Lines 112-125: one [Cluster] row for each label but the noise label. *)
Fixpoint create_clusters (labels : list Z) (run_id : str) (st : Store)
         (cluster_map : list (Z * Z)) : Store * list (Z * Z) :=
  match labels with
  | [] => (st, cluster_map)
  | label :: rest =>
      if (label =? -1)%Z then create_clusters rest run_id st cluster_map
      else
        let id := fresh_id (map cl_id (clusters st)) in
        let cluster := {| cl_id := id;
                          cl_name := Some (lit "Cluster " ++ str_of_Z label);
                          cl_description := Some (lit "");
                          cl_run_id := run_id |} in
        create_clusters rest run_id (add_cluster st cluster)
                        (cluster_map ++ [(label, id)])
  end.

Definition lookup (cluster_map : list (Z * Z)) (label : Z) : exc Z :=
  match find (fun lc => (fst lc =? label)%Z) cluster_map with
  | Some lc => Ok (snd lc)
  | None => Raise IndexError
  end.

(** Lines 128-145: one [ClusterMembership] row for each labelled point
    but the noise points; [i] is the position of the first label. *)
Fixpoint create_memberships (labels : list Z) (i : nat) (article_ids : list Z)
         (cluster_map : list (Z * Z)) (st : Store) : exc Store :=
  match labels with
  | [] => Ok st
  | label :: rest =>
      if (label =? -1)%Z
      then create_memberships rest (S i) article_ids cluster_map st
      else
        article_id <- index article_ids i ;;
        cluster_id <- lookup cluster_map label ;;
        let similarity_score := 1%Q in
        let membership := {| cm_id := fresh_id (map cm_id (memberships st));
                             cm_cluster_id := cluster_id;
                             cm_article_id := article_id;
                             cm_similarity_score := Some similarity_score |} in
        create_memberships rest (S i) article_ids cluster_map
                           (add_membership st membership)
  end.

Definition status_of (s : String.string) : str * pyval :=
  (lit "status", PyStr (lit s)).
Arguments status_of s%_string.

Definition py_nat (n : nat) : pyval := PyInt (Z.of_nat n).

(** The body of the [try] of [cluster_articles]: the returned dict and
    the store after the commit. *)
Definition cluster_articles_body (min_articles : Z) (eps : Q) (min_samples : Z)
           (st : Store) : exc (pyval * Store) :=
  let articles := analyzed_articles st in
  if (Z.of_nat (length articles) <? min_articles)%Z
  then Ok (PyDict [status_of "insufficient_data";
                   (lit "article_count", py_nat (length articles));
                   (lit "cluster_count", PyInt 0)], st)
  else
    r <- get_article_embeddings st articles ;;
    let '(embeddings, article_ids) := r in
    if (Z.of_nat (length embeddings) <? min_articles)%Z
    then Ok (PyDict [status_of "insufficient_embeddings";
                     (lit "article_count", py_nat (length articles));
                     (lit "valid_embeddings", py_nat (length embeddings));
                     (lit "cluster_count", PyInt 0)], st)
    else
      labels <- dbscan eps min_samples embeddings ;;
      let n_clusters :=
        length (distinct labels) - (if existsb (Z.eqb (-1)) labels then 1 else 0) in
      let run_id := uuid4 in
      let '(st1, cluster_map) := create_clusters (distinct labels) run_id st [] in
      st2 <- create_memberships labels 0 article_ids cluster_map st1 ;;
      let st3 := name_clusters cluster_map st2 in
      Ok (PyDict [status_of "success";
                  (lit "run_id", PyStr run_id);
                  (lit "article_count", py_nat (length articles));
                  (lit "valid_embeddings", py_nat (length embeddings));
                  (lit "cluster_count", py_nat n_clusters);
                  (lit "noise_count", py_nat (count_occ Z.eq_dec labels (-1)%Z))],
          st3).

(** [cluster_articles]: an exception rolls the session back (the store at
    entry is what was committed) and is reported in the returned dict. *)
Definition cluster_articles (min_articles : Z) (eps : Q) (min_samples : Z)
           (st : Store) : pyval * Store :=
  match cluster_articles_body min_articles eps min_samples st with
  | Ok r => r
  | Raise e => (PyDict [status_of "error"; (lit "error", PyStr (exn_str e))], st)
  end.

(** ** [get_clusters] *)

(** The loop of lines 256-290, one analysis at a time: the state is
    [articles_data], [valid_embeddings] and [expected_dim]. *)
Definition view_state : Type := list Article * list (list pyval) * option nat.

Definition view_step (st : Store) (s : view_state) (analysis : ArticleAnalysis)
  : exc view_state :=
  let '(articles_data, valid_embeddings, expected_dim) := s in
  match article_by_id st (an_article_id analysis) with
  | None => Ok s
  | Some article =>
      match an_embedding analysis with
      | None => Ok s
      | Some text =>
          if negb (Analyzer.nonempty text) then Ok s
          else
            match json_loads text with
            | Raise e => if handled e then Ok s else Raise e
            | Ok (PyList embedding) =>
                match embedding with
                | [] => Ok s
                | _ :: _ =>
                    let current_dim := length embedding in
                    match expected_dim with
                    | None =>
                        Ok (articles_data ++ [article],
                            valid_embeddings ++ [embedding],
                            Some current_dim)
                    | Some d =>
                        if negb (Nat.eqb current_dim d) then Ok s
                        else Ok (articles_data ++ [article],
                                 valid_embeddings ++ [embedding],
                                 expected_dim)
                    end
                end
            | Ok _ => Ok s
            end
      end
  end.

Fixpoint view_loop (st : Store) (rows : list ArticleAnalysis) (s : view_state)
  : exc view_state :=
  match rows with
  | [] => Ok s
  | analysis :: rest => s' <- view_step st s analysis ;; view_loop st rest s'
  end.

(** Lines 330-345: one cluster for each label but the noise label. *)
Fixpoint build_clusters (ids : list Z) (labels : list Z)
         (articles_data : list Article) : exc (list ViewCluster) :=
  match ids with
  | [] => Ok []
  | cluster_id :: rest =>
      if (cluster_id =? -1)%Z then build_clusters rest labels articles_data
      else
        let cluster_indices := indices_of cluster_id labels 0 in
        cluster_articles <- mapM (index articles_data) cluster_indices ;;
        result <- build_clusters rest labels articles_data ;;
        Ok ({| vc_id := cluster_id; vc_articles := cluster_articles |} :: result)
  end.

(** Lines 292-348: the clusters of the validated embeddings. When
    every label is negative, all points get the label 0. *)
Definition cluster_view (articles_data : list Article)
           (valid_embeddings : list (list pyval)) : exc (list ViewCluster) :=
  match valid_embeddings with
  | [] => Ok []
  | _ :: _ =>
      labels <- view_labels valid_embeddings ;;
      m <- py_max labels ;;
      let labels :=
        if (m <? 0)%Z then repeat 0%Z (length valid_embeddings) else labels in
      build_clusters (sorted_set labels) labels articles_data
  end.

(** [get_clusters]: nothing is caught here, an exception reaches the
    caller. *)
Definition get_clusters (st : Store) : exc (list ViewCluster) :=
  match analyses st with
  | [] => Ok []
  | rows =>
      s <- view_loop st rows ([], [], None) ;;
      let '(articles_data, valid_embeddings, expected_dim) := s in
      cluster_view articles_data valid_embeddings
  end.

End Libraries.
End Clustering.

(* ===================================================================== *)
(** * [feeder/news_brief.py] *)
(* ===================================================================== *)

Module NewsBrief.

Import Clustering.

(** One entry of [cluster_info], the digest handed to the service. *)
Record ClusterInfo := {
  ci_title : str;
  ci_summary : option str;
  ci_sentiment : float;
  ci_topics : list pyval;
  ci_sources : list str;
  ci_article_count : nat
}.

(** The literal [0.3] of the thresholds: the float nearest to 3/10. *)
Definition threshold : float := float_of_Q (3 # 10).

(** Lines 118-122 and 268-272: [avg > 0.3], then [avg < -0.3]. *)
Definition describe_sentiment (avg : float) : str :=
  if float_lt threshold avg then lit "positive"
  else if float_lt avg (SpecFloat.SFopp threshold) then lit "negative"
  else lit "neutral".

(** [sum(xs)]: the additions are made from the left, starting from 0,
    each of them rounded, as the loop of CPython 3.11 makes them. *)
Definition float_sum (xs : list float) : float := fold_left float_add xs float_zero.

(** [sum(xs) / len(xs) if xs else 0] *)
Definition average (xs : list float) : float :=
  match xs with
  | [] => float_zero
  | _ => float_div (float_sum xs) (float_of_Z (Z.of_nat (length xs)))
  end.

(** Equality of two hashable values, as a [Counter] compares its keys:
    booleans, integers and floats by their number. *)
Definition num_of (v : pyval) : option Q :=
  match v with
  | PyBool b => Some (if b then 1%Q else 0%Q)
  | PyInt z => Some (inject_Z z)
  | PyFloat q => Some q
  | _ => None
  end.

Definition py_eqb (a b : pyval) : bool :=
  match num_of a, num_of b with
  | Some x, Some y => Qeq_bool x y
  | None, None =>
      match a, b with
      | PyNone, PyNone => true
      | PyStr s, PyStr t => str_eqb s t
      | _, _ => false
      end
  | _, _ => false
  end.

Definition hashable (v : pyval) : bool :=
  match v with PyList _ | PyDict _ => false | _ => true end.

Fixpoint counter_bump (x : pyval) (counts : list (pyval * nat)) : list (pyval * nat) :=
  match counts with
  | [] => [(x, 1)]
  | (k, n) :: rest =>
      if py_eqb k x then (k, S n) :: rest else (k, n) :: counter_bump x rest
  end.

(** [Counter(all_topics)] *)
Definition Counter (all_topics : list pyval) : exc (list (pyval * nat)) :=
  if forallb hashable all_topics
  then Ok (fold_left (fun counts x => counter_bump x counts) all_topics [])
  else Raise TypeError.

(** [[topic for topic, count in counter.most_common(n)]] *)
Definition most_common (n : nat) (counts : list (pyval * nat)) : list pyval :=
  map fst (firstn n (sorted_desc (fun x => inject_Z (Z.of_nat (snd x))) counts)).

(** [all_topics.extend(v)] *)
Definition extend (all_topics : list pyval) (v : pyval) : exc (list pyval) :=
  match v with
  | PyList l => Ok (all_topics ++ l)
  | PyStr s => Ok (all_topics ++ map (fun c => PyStr [c]) s)
  | PyDict d => Ok (all_topics ++ map (fun kv => PyStr (fst kv)) d)
  | _ => Raise TypeError
  end.

(** [', '.join(parts)] on values: every part must be a string. *)
Definition join_values (sep : str) (parts : list pyval) : exc str :=
  strs <- mapM (fun v => match v with
                         | PyStr s => Ok s
                         | _ => Raise TypeError
                         end) parts ;;
  Ok (join sep strs).

(** The distinct names in order of first occurrence (the order of a set
    is left open by Python; nothing below depends on it). *)
Fixpoint distinct_names (names : list str) : list str :=
  match names with
  | [] => []
  | x :: rest => x :: filter (fun y => negb (str_eqb y x)) (distinct_names rest)
  end.

(** [s.capitalize()] on ASCII text. *)
Definition capitalize (s : str) : str :=
  match s with
  | [] => []
  | c :: rest =>
      (if ((97 <=? c) && (c <=? 122))%N then (c - 32)%N else c)
      :: map (fun x => if ((65 <=? x) && (x <=? 90))%N then (x + 32)%N else x) rest
  end.

Definition nl : str := [10%N].

(** Timestamps count seconds from [datetime.datetime.min]. *)
Definition datetime_min : Z := 0.

(** The three sentences of lines 333-337. *)
Definition fallback_insights (sentiment_description : str) : list str :=
  [ lit "Today's news coverage shows a mix of domestic and international stories.";
    lit "The overall tone of today's coverage is " ++ sentiment_description ++ lit ".";
    lit "Multiple sources are covering the same major events, indicating widespread interest." ].

(** The prefixes stripped from a line of the response. *)
Definition markers : list str :=
  [lit "- "; [8226; 32]%N; lit "* "; lit "1. "; lit "2. "; lit "3. "; lit "4. "; lit "5. "].

(** Lines 308-328: the insights read from the text of the response. *)
Definition parse_insights (insights_text : str) : list str :=
  let insights :=
    flat_map (fun line =>
                let line := strip line in
                if negb (Analyzer.nonempty line) then []
                else
                  let line := if startswith_any line markers
                              then strip (skipn 2 line) else line in
                  if Analyzer.nonempty line then [line] else [])
             (split insights_text nl) in
  let insights :=
    match insights with
    | [] => map (fun i => strip i ++ lit ".")
              (filter (fun i => 20 <? length (strip i)) (split insights_text (lit ".")))
    | _ => insights
    end in
  firstn 5 insights.

Section Services.

(** [json.loads] *)
Variable json_loads : str -> exc pyval.
(** The view-mode labels, see [Clustering.get_clusters]. *)
Variable view_labels : list (list pyval) -> exc (list Z).
(** [model.generate_content(prompt).text] for the insights prompt, which
    is built from the overall sentiment label and [cluster_info]. *)
Variable generate_content : str -> list ClusterInfo -> exc str.
(** [now.strftime('%Y-%m-%d')] *)
Variable date_str : str.
(** Writing the brief to the output file. *)
Variable write_file : str -> str -> exc unit.
(** [os.getenv('OUTPUT_FILE')], [None] when the variable is not set. *)
Variable getenv_output_file : option str.

(** Lines 103-112 and 209-218: the scores of the articles that have an
    analysis with a score, each read with [float]. *)
Definition sentiment_scores (st : Store) (articles : list Article) : list float :=
  flat_map (fun article =>
              match analysis_of st (art_id article) with
              | Some analysis =>
                  match an_sentiment_score analysis with
                  | Some q => [float_of_Q q]
                  | None => []
                  end
              | None => []
              end) articles.

(** Lines 125-137 and 223-235: the topics of the articles, the stored
    text read as JSON, or split on commas when it is not JSON. *)
Fixpoint collect_topics (st : Store) (articles : list Article)
         (all_topics : list pyval) : exc (list pyval) :=
  match articles with
  | [] => Ok all_topics
  | article :: rest =>
      match analysis_of st (art_id article) with
      | None => collect_topics st rest all_topics
      | Some analysis =>
          match an_topics analysis with
          | None => Raise TypeError
          | Some text =>
              match json_loads text with
              | Ok topics =>
                  all_topics <- extend all_topics topics ;;
                  collect_topics st rest all_topics
              | Raise JSONDecodeError =>
                  collect_topics st rest
                    (all_topics
                     ++ map (fun t => PyStr (strip t))
                          (filter (fun t => Analyzer.nonempty (strip t))
                             (split text (lit ","))))
              | Raise e => Raise e
              end
          end
      end
  end.

Definition top_topics (st : Store) (articles : list Article) : exc (list pyval) :=
  all_topics <- collect_topics st articles [] ;;
  topic_counter <- Counter all_topics ;;
  Ok (most_common 3 topic_counter).

(** [set(article.feed.name for article in articles if article.feed and
    article.feed.name)] *)
Definition sources (articles : list Article) : list str :=
  distinct_names
    (flat_map (fun article =>
                 match art_feed_name article with
                 | Some name => if Analyzer.nonempty name then [name] else []
                 | None => []
                 end) articles).

(** Lines 203-262: the entry of one cluster, [None] for an empty one. *)
Definition cluster_info_of (st : Store) (cluster : ViewCluster) : exc (option ClusterInfo) :=
  match vc_articles cluster with
  | [] => Ok None
  | main_article :: _ =>
      let articles := vc_articles cluster in
      let avg_sentiment := average (sentiment_scores st articles) in
      topics <- top_topics st articles ;;
      let summary :=
        match analysis_of st (art_id main_article) with
        | Some main_analysis => an_summary main_analysis
        | None => Some (lit "")
        end in
      Ok (Some {| ci_title := art_title main_article;
                  ci_summary := summary;
                  ci_sentiment := avg_sentiment;
                  ci_topics := topics;
                  ci_sources := sources articles;
                  ci_article_count := length articles |})
  end.

Fixpoint collect_info (st : Store) (clusters : list ViewCluster) : exc (list ClusterInfo) :=
  match clusters with
  | [] => Ok []
  | cluster :: rest =>
      info <- cluster_info_of st cluster ;;
      infos <- collect_info st rest ;;
      Ok (match info with Some i => i :: infos | None => infos end)
  end.

(** Lines 264-272. *)
Definition overall_sentiment (cluster_info : list ClusterInfo) : str :=
  describe_sentiment (average (map ci_sentiment cluster_info)).

(** [generate_insights]: an exception before the service call gives the
    empty list; an exception of the service call gives the three fixed
    sentences. *)
Definition generate_insights (clusters : list ViewCluster) (st : Store) : list str :=
  match clusters with
  | [] => []
  | _ :: _ =>
      match collect_info st clusters with
      | Raise _ => []
      | Ok cluster_info =>
          let sentiment_description := overall_sentiment cluster_info in
          match generate_content sentiment_description cluster_info with
          | Ok insights_text => parse_insights insights_text
          | Raise _ => fallback_insights sentiment_description
          end
      end
  end.

(** Lines 69-73: the block of insights. *)
Definition insights_block (insights : list str) : str :=
  match insights with
  | [] => []
  | _ :: _ =>
      lit "## Key Insights" ++ nl ++ nl
      ++ flat_map (fun insight => lit "- " ++ insight ++ nl) insights
      ++ nl
  end.

(** [str(v)] inside an f-string, for a nullable text column. *)
Definition show_text (v : option str) : str :=
  match v with Some s => s | None => lit "None" end.

(** Lines 78-155: the section of the cluster at position [i] of [n]; an
    empty cluster and one whose newest article has no analysis add
    nothing. *)
Definition cluster_section (st : Store) (n i : nat) (cluster : ViewCluster) : exc str :=
  match vc_articles cluster with
  | [] => Ok []
  | _ :: _ =>
      let articles := vc_articles cluster in
      let sorted_articles :=
        sorted_desc (fun x => inject_Z (match art_published_at x with
                                        | Some t => t
                                        | None => datetime_min
                                        end)) articles in
      match sorted_articles with
      | [] => Raise IndexError
      | main_article :: _ =>
          match analysis_of st (art_id main_article) with
          | None => Ok []
          | Some main_analysis =>
              let summary := an_summary main_analysis in
              let avg_sentiment := average (sentiment_scores st articles) in
              let sentiment_description := describe_sentiment avg_sentiment in
              topics <- top_topics st articles ;;
              topic_line <-
                match topics with
                | [] => Ok (lit "No topics identified")
                | _ :: _ => join_values (lit ", ") topics
                end ;;
              let names := sources articles in
              Ok (lit "### " ++ art_title main_article ++ nl ++ nl
                  ++ lit "*" ++ capitalize sentiment_description
                  ++ lit " sentiment " ++ [8226%N] ++ lit " " ++ topic_line
                  ++ lit "*" ++ nl ++ nl
                  ++ show_text summary ++ nl ++ nl
                  ++ match names with
                     | [] => []
                     | _ :: _ => lit "*Sources: " ++ join (lit ", ") names
                                 ++ lit "*" ++ nl ++ nl
                     end
                  ++ (if S i <? n then lit "---" ++ nl ++ nl else []))
          end
      end
  end.

Fixpoint sections (st : Store) (n i : nat) (clusters : list ViewCluster) : exc str :=
  match clusters with
  | [] => Ok []
  | cluster :: rest =>
      text <- cluster_section st n i cluster ;;
      more <- sections st n (S i) rest ;;
      Ok (text ++ more)
  end.

(** The text of the brief, lines 58-155. *)
Definition brief_text (clusters : list ViewCluster) (st : Store) : exc str :=
  let heading := lit "# Daily News Brief" ++ nl ++ nl
                 ++ lit "**" ++ date_str ++ lit "**" ++ nl ++ nl in
  let insights := generate_insights clusters st in
  stories <- sections st (length clusters) 0 clusters ;;
  Ok (heading ++ insights_block insights
      ++ lit "## Top Stories" ++ nl ++ nl ++ stories).

(** Lines 52-54: the path given, or when none or an empty one is given
    the value of the environment variable, or [news_brief.md]. *)
Definition resolve_output_file (output_file : option str) : str :=
  match output_file with
  | Some path => if Analyzer.nonempty path then path else
                   match getenv_output_file with
                   | Some value => value
                   | None => lit "news_brief.md"
                   end
  | None => match getenv_output_file with
            | Some value => value
            | None => lit "news_brief.md"
            end
  end.

(** [generate_news_brief]: the path written, or the exception raised
    again to the caller, and the store the call leaves. The record is
    committed (lines 158-165) before the file is written (lines
    168-169), so it stays when the write raises; nothing is added
    before the text is complete. *)
Definition generate_news_brief (output_file : option str) (st : Store)
  : exc str * Store :=
  let output_file := resolve_output_file output_file in
  match (clusters <- get_clusters json_loads view_labels st ;;
         text <- brief_text clusters st ;;
         Ok (clusters, text)) with
  | Raise e => (Raise e, st)
  | Ok (clusters, text) =>
      let news_brief :=
        {| nb_filename := output_file;
           nb_content := text;
           nb_article_count :=
             fold_right Nat.add 0 (map (fun c => length (vc_articles c)) clusters);
           nb_cluster_count := length clusters |} in
      let st' := add_brief st news_brief in
      match write_file output_file text with
      | Ok _ => (Ok output_file, st')
      | Raise e => (Raise e, st')
      end
  end.

End Services.
End NewsBrief.

(* ===================================================================== *)
(** * The batch entry points and the label helper *)
(* ===================================================================== *)

(** [analyze_unprocessed_articles] and [analyze_batch] of [analyzer.py],
    and [cluster_embeddings] of [clustering.py]. *)

Module Batch.

Section Services.

Variable repr : pyval -> str.
Variable float_of_str : str -> option Q.
Variable json_loads : str -> exc pyval.
Variable generate_content : str -> str -> exc str.
Variable embed_content : str -> exc (option pyval).
Variable random_normal : nat -> list Q.
(** [order_by(Article.published_at.desc())]: the order in which the
    database returns the selected rows (the place of rows without a
    date and of rows of equal date depends on the database). *)
Variable order_by_published_desc : list Article -> list Article.

(** [Article.content != None] and the id not among the article ids of
    the analyses. *)
Definition unprocessed (st : Store) : list Article :=
  filter (fun a => match art_content a with Some _ => true | None => false end
                   && negb (existsb (fun an => (an_article_id an =? art_id a)%Z)
                                    (analyses st)))
         (articles st).

(** The rows of the query: ordered, and cut to [limit] rows when a limit
    is given and is not 0. *)
Definition selected (limit : option nat) (st : Store) : list Article :=
  let rows := order_by_published_desc (unprocessed st) in
  match limit with
  | Some (S n) => firstn (S n) rows
  | _ => rows
  end.

(** The loop over the articles: every article is analyzed in the store
    the previous ones left, and the successes are counted. *)
Fixpoint analyze_each (articles : list Article) (st : Store) (count : nat)
  : nat * Store :=
  match articles with
  | [] => (count, st)
  | article :: rest =>
      let '(ok, st') :=
        Analyzer.analyze_article repr float_of_str json_loads generate_content
          embed_content random_normal article st in
      analyze_each rest st' (if ok then S count else count)
  end.

Definition analyze_unprocessed_articles (limit : option nat) (st : Store)
  : nat * Store :=
  analyze_each (selected limit st) st 0.

(** [analyze_batch] on a given session runs the same query and loop; its
    handler, which returns 0, is for exceptions of the query and the
    loop, and neither raises here. Without a session it calls
    [analyze_unprocessed_articles]. *)
Definition analyze_batch (limit : option nat) (st : Store) : nat * Store :=
  analyze_each (selected limit st) st 0.

End Services.

Section Labels.

(** The labels of lines 370-386, as in [Clustering.get_clusters]. *)
Variable view_labels : list (list pyval) -> exc (list Z).

(** [cluster_embeddings]: fewer than three embeddings go to one cluster
    without clustering; labels that are all negative are replaced by
    zeros. *)
Definition cluster_embeddings (embeddings : list (list pyval)) : exc (list Z) :=
  if length embeddings <? 3 then Ok (repeat 0%Z (length embeddings))
  else
    labels <- view_labels embeddings ;;
    m <- Clustering.py_max labels ;;
    if (m <? 0)%Z then Ok (repeat 0%Z (length embeddings)) else Ok labels.

End Labels.

End Batch.

(* ===================================================================== *)
(** * Properties *)
(* ===================================================================== *)

(** ** Basic facts *)

Module PyFacts.

Lemma str_eqb_eq (a b : str) : str_eqb a b = true <-> a = b.
Proof.
  revert b. induction a as [|x a IH]; intros [|y b]; simpl;
    try (split; [discriminate | congruence]); try tauto.
  rewrite andb_true_iff, N.eqb_eq, IH. split.
  - intros [-> ->]. reflexivity.
  - intros H. injection H as -> ->. auto.
Qed.

Lemma Ok_inj {A} (x y : A) : Ok x = Ok y -> x = y.
Proof. congruence. Qed.

End PyFacts.

Import PyFacts.

(** ** Text, patterns and counting on small inputs *)

Module Checks.

Example split_comma :
  split (lit "a,b,,c") (lit ",") = [lit "a"; lit "b"; lit ""; lit "c"].
Proof. reflexivity. Qed.

Example split_backslash_n :
  split (lit "x\ny\nz") (lit "\n") = [lit "x"; lit "y"; lit "z"].
Proof. reflexivity. Qed.

Example split_empty : split (lit "") (lit ",") = [lit ""].
Proof. reflexivity. Qed.

Example strip_blanks : strip (lit "  a b ") = lit "a b".
Proof. reflexivity. Qed.

Example decimal :
  str_of_Z (-1203) = lit "-1203" /\ str_of_nat 0 = lit "0"
  /\ str_of_nat 12 = lit "12".
Proof. repeat split; reflexivity. Qed.

Example lazy_object :
  Re.search (Analyzer.object_group 1) (lit "x {a} {b}") Analyzer.S_
  = Some [(1, lit "{a}")].
Proof. reflexivity. Qed.

Example fenced_object :
  option_map (fun m => Re.group m 2)
    (Re.search Analyzer.fenced_pattern (lit "so: ```JSON {a} ``` end") Analyzer.SI)
  = Some (Some (lit "{a}")).
Proof. reflexivity. Qed.

Example field_value :
  option_map (fun m => Re.group m 1)
    (Re.search Analyzer.topics_pattern (lit "x TOPICS  :  a, b") Analyzer.IM)
  = Some (Some (lit "a, b")).
Proof. reflexivity. Qed.

Example stable_sort :
  Clustering.sort_desc [(lit "a", 1); (lit "b", 2); (lit "c", 1); (lit "d", 2)]
  = [(lit "b", 2); (lit "d", 2); (lit "a", 1); (lit "c", 1)].
Proof. reflexivity. Qed.

Example sorted_labels :
  Clustering.sorted_set [2; -1; 0; 2; 0]%Z = [-1; 0; 2]%Z.
Proof. reflexivity. Qed.

Example insights_lines :
  NewsBrief.parse_insights
    (lit "1. First point." ++ NewsBrief.nl ++ NewsBrief.nl ++ lit "- Second.")
  = [lit "First point."; lit "Second."].
Proof. reflexivity. Qed.

End Checks.

(** ** The analyzer *)

Module AnalyzerProps.

Import Analyzer.

(** The value a dictionary holds under a key. *)
Definition field (r : pyval) (key : String.string) : pyval :=
  match r with
  | PyDict d => dict_get d (lit key) PyNone
  | _ => PyNone
  end.
Arguments field r key%_string.

(** The shape of a validated result: at most five topics, topics and
    entities all strings, the sentiment score a float. *)
Definition well_shaped (r : pyval) : Prop :=
  (exists topics, field r "topics" = PyList topics
                  /\ length topics <= 5 /\ Forall is_str topics)
  /\ (exists entities, field r "entities" = PyList entities
                       /\ Forall is_str entities)
  /\ is_float (field r "sentiment_score").

Lemma Forall_is_str_map (f : pyval -> str) (l : list pyval) :
  Forall is_str (map (fun x => PyStr (f x)) l).
Proof. induction l; simpl; constructor; simpl; auto. Qed.

Lemma Forall_firstn {A} (P : A -> Prop) (n : nat) (l : list A) :
  Forall P l -> Forall P (firstn n l).
Proof.
  intros H. revert n. induction H; intros [|n]; simpl; constructor; auto.
Qed.

(** The four keys of an analysis dictionary are read back as written. *)
Lemma field_topics (a b c d : pyval) :
  field (PyDict [(lit "summary", a); (lit "sentiment_score", b);
                 (lit "topics", c); (lit "entities", d)]) "topics" = c.
Proof. reflexivity. Qed.

Lemma field_entities (a b c d : pyval) :
  field (PyDict [(lit "summary", a); (lit "sentiment_score", b);
                 (lit "topics", c); (lit "entities", d)]) "entities" = d.
Proof. reflexivity. Qed.

Lemma field_sentiment_score (a b c d : pyval) :
  field (PyDict [(lit "summary", a); (lit "sentiment_score", b);
                 (lit "topics", c); (lit "entities", d)]) "sentiment_score" = b.
Proof. reflexivity. Qed.

Section Services.

Variable repr : pyval -> str.
Variable float_of_str : str -> option Q.
Variable json_loads : str -> exc pyval.
Variable generate_content : str -> str -> exc str.
Variable embed_content : str -> exc (option pyval).
Variable random_normal : nat -> list Q.

Local Abbreviation validate := (Analyzer.validate repr float_of_str).
Local Abbreviation py_float := (Analyzer.py_float float_of_str).
Local Abbreviation structured_stage :=
  (Analyzer.structured_stage repr float_of_str json_loads).
Local Abbreviation analyze_content :=
  (Analyzer.analyze_content repr float_of_str json_loads generate_content).
Local Abbreviation analyze_article :=
  (Analyzer.analyze_article repr float_of_str json_loads generate_content
     embed_content random_normal).
Local Abbreviation extract_list_field :=
  (Analyzer.extract_list_field repr json_loads).

(** Whatever [validate] returns is well shaped. *)
Lemma validate_well_shaped (v r : pyval) :
  validate v = Ok r -> well_shaped r.
Proof.
  unfold Analyzer.validate, Py.get.
  destruct v; cbn [Py.bind]; try discriminate.
  destruct (py_float _) as [q|e]; cbn [Py.bind]; try discriminate.
  intros H.
  match type of H with Ok ?x = Ok _ => assert (E : x = r) by congruence end.
  rewrite <- E. clear H E.
  unfold well_shaped.
  rewrite field_topics, field_entities, field_sentiment_score.
  repeat split.
  - destruct (dict_get d (lit "topics") (PyList [])) as [| | | | |l|];
      eexists; (split; [reflexivity|]);
      try (split; [simpl; lia | constructor]).
    split.
    + rewrite length_firstn. lia.
    + apply Forall_firstn, Forall_is_str_map.
  - destruct (dict_get d (lit "entities") (PyList [])) as [| | | | |l|];
      eexists; (split; [reflexivity|]); try constructor.
    apply Forall_is_str_map.
Qed.

(** [validate] fails exactly as [float()] fails on the sentiment score. *)
Lemma validate_cast_failure (d : list (str * pyval)) (e : exn) :
  py_float (dict_get d (lit "sentiment_score") (PyFloat 0)) = Raise e ->
  validate (PyDict d) = Raise e.
Proof.
  intros H. unfold Analyzer.validate. simpl. rewrite H. reflexivity.
Qed.

Lemma py_float_not_decode_error (v : pyval) :
  py_float v <> Raise JSONDecodeError.
Proof.
  destruct v as [| b | z | q | s | l | d]; cbn [Analyzer.py_float]; try discriminate.
  - destruct (float_of_Z z); discriminate.
  - destruct (float_of_str s); discriminate.
Qed.

(** C1. Analyzing an article that already has an analysis record returns
    [True] and leaves the store, and with it the set of analysis records,
    as it was. *)
Theorem analyze_article_existing_noop (article : Article) (st : Store) :
  (exists a, In a (analyses st) /\ an_article_id a = art_id article) ->
  analyze_article article st = (true, st)
  /\ analyses (snd (analyze_article article st)) = analyses st.
Proof.
  intros [a [Hin Hid]].
  assert (H : analyze_article article st = (true, st)).
  { unfold Analyzer.analyze_article, analysis_of.
    destruct (find _ (analyses st)) eqn:Hfind; [reflexivity|].
    exfalso. apply (find_none _ _ Hfind) in Hin.
    rewrite Hid, Z.eqb_refl in Hin. discriminate. }
  rewrite H. split; reflexivity.
Qed.

(** C2. When the structured stage accepts the response, its result is
    what [analyze_content] returns, and it has at most five topics, only
    strings among its topics and entities, and a float as sentiment
    score. *)
Theorem structured_result_well_shaped (title content result_text : str) (r : pyval) :
  generate_content title content = Ok result_text ->
  structured_stage result_text = Ok r ->
  analyze_content title content = Some r /\ well_shaped r.
Proof.
  intros Hgen Hst. split.
  - unfold Analyzer.analyze_content. rewrite Hgen, Hst. reflexivity.
  - unfold Analyzer.structured_stage in Hst.
    destruct (json_block result_text) as [json_str|]; simpl in Hst; try discriminate.
    destruct (json_loads json_str) as [v|]; simpl in Hst; try discriminate.
    eapply validate_well_shaped; eassumption.
Qed.

(** C7, as the code behaves: when the response parses to a dictionary
    whose sentiment score [float()] rejects, [analyze_content] returns
    [None], and [analyze_article] reports failure and writes nothing. No
    default is substituted. *)
Theorem uncastable_sentiment_fails_analysis
        (title content result_text json_str : str)
        (d : list (str * pyval)) (e : exn) :
  generate_content title content = Ok result_text ->
  json_block result_text = Ok json_str ->
  json_loads json_str = Ok (PyDict d) ->
  py_float (dict_get d (lit "sentiment_score") (PyFloat 0)) = Raise e ->
  analyze_content title content = None
  /\ forall (article : Article) (st : Store),
       art_title article = title ->
       usable_text article = content ->
       nonempty content = true ->
       analysis_of st (art_id article) = None ->
       analyze_article article st = (false, st).
Proof.
  intros Hgen Hblock Hloads Hcast.
  assert (Hnone : analyze_content title content = None).
  { unfold Analyzer.analyze_content, Analyzer.structured_stage.
    rewrite Hgen, Hblock. simpl. rewrite Hloads. simpl.
    rewrite (validate_cast_failure _ _ Hcast).
    destruct e; try reflexivity.
    exfalso. exact (py_float_not_decode_error _ Hcast). }
  split; [exact Hnone|].
  intros article st Ht Hu Hne Hno.
  unfold Analyzer.analyze_article.
  rewrite Hno, Hu, Hne, Ht, Hnone. reflexivity.
Qed.

(** C9, as the code behaves: on the text with real line breaks only the
    first bullet is read. The pattern's value stops at the end of the
    line, and the items are split on a backslash followed by [n], not on
    the line break. *)
Theorem extract_list_field_line_breaks :
  extract_list_field
    (lit "Topics: - AI" ++ [10%N] ++ lit "- Policy" ++ [10%N] ++ lit "- Markets")
    topics_pattern []
  = Ok [lit "AI"].
Proof. vm_compute. reflexivity. Qed.

(** The three items are read when the text holds the two characters
    backslash and [n] where the line breaks would be. *)
Lemma extract_list_field_backslash_n :
  extract_list_field (lit "Topics: - AI\n- Policy\n- Markets") topics_pattern []
  = Ok [lit "AI"; lit "Policy"; lit "Markets"].
Proof. vm_compute. reflexivity. Qed.

End Services.

End AnalyzerProps.

(** ** Clustering *)

Module ClusteringProps.

Import Clustering.

(** The value of the key [status] in a returned dictionary. *)
Definition status (r : pyval) : pyval := AnalyzerProps.field r "status".

Section Libraries.

Variable json_loads : str -> exc pyval.
Variable ndarray : Type.
Variable np_array : pyval -> exc ndarray.
Variable dbscan : Q -> Z -> list ndarray -> exc (list Z).
Variable uuid4 : str.
Variable exn_str : exn -> str.
Variable view_labels : list (list pyval) -> exc (list Z).

Local Abbreviation get_article_embeddings :=
  (Clustering.get_article_embeddings json_loads ndarray np_array).
Local Abbreviation cluster_articles_body :=
  (Clustering.cluster_articles_body json_loads ndarray np_array dbscan uuid4).
Local Abbreviation cluster_articles :=
  (Clustering.cluster_articles json_loads ndarray np_array dbscan uuid4 exn_str).

(** *** Rows written by a run *)

Lemma create_clusters_memberships (labels : list Z) (run_id : str) (st : Store)
      (cluster_map : list (Z * Z)) :
  memberships (fst (create_clusters labels run_id st cluster_map)) = memberships st.
Proof.
  revert st cluster_map.
  induction labels as [|label rest IH]; intros st cluster_map; simpl.
  - reflexivity.
  - destruct (label =? -1)%Z.
    + apply IH.
    + rewrite IH. reflexivity.
Qed.

Lemma name_cluster_memberships (st : Store) (label cluster_id : Z) :
  memberships (name_cluster st label cluster_id) = memberships st.
Proof.
  unfold name_cluster. destruct (sort_desc _); reflexivity.
Qed.

Lemma name_clusters_memberships (cluster_map : list (Z * Z)) (st : Store) :
  memberships (name_clusters cluster_map st) = memberships st.
Proof.
  unfold name_clusters. revert st.
  induction cluster_map as [|lc rest IH]; intros st; simpl.
  - reflexivity.
  - rewrite IH. apply name_cluster_memberships.
Qed.

(** A membership row is new with score 1.0, or it was there before. *)
Definition old_or_one (st : Store) (m : ClusterMembership) : Prop :=
  In m (memberships st) \/ cm_similarity_score m = Some 1%Q.

Lemma create_memberships_scores (labels : list Z) :
  forall (i : nat) (article_ids : list Z) (cluster_map : list (Z * Z))
         (st st' : Store),
    create_memberships labels i article_ids cluster_map st = Ok st' ->
    forall m, In m (memberships st') -> old_or_one st m.
Proof.
  induction labels as [|label rest IH]; intros i article_ids cluster_map st st' H m Hin;
    simpl in H.
  - injection H as <-. left. exact Hin.
  - destruct (label =? -1)%Z.
    + eapply IH; eassumption.
    + destruct (index article_ids i) as [article_id|]; simpl in H; try discriminate.
      destruct (lookup cluster_map label) as [cluster_id|]; simpl in H; try discriminate.
      destruct (IH _ _ _ _ _ H m Hin) as [Hold|Hone].
      * simpl in Hold. apply in_app_or in Hold. destruct Hold as [Hold|[<-|[]]].
        -- left. exact Hold.
        -- right. reflexivity.
      * right. exact Hone.
Qed.

(** C10. Every membership row a persisting run adds to the store has
    similarity score 1.0, whatever the embeddings and the labels are:
    after [cluster_articles], a row is either one that was in the store
    before, or its score is the constant 1.0. *)
Theorem membership_scores_constant (min_articles : Z) (eps : Q) (min_samples : Z)
        (st : Store) (m : ClusterMembership) :
  In m (memberships (snd (cluster_articles min_articles eps min_samples st))) ->
  In m (memberships st) \/ cm_similarity_score m = Some 1%Q.
Proof.
  unfold Clustering.cluster_articles, Clustering.cluster_articles_body.
  destruct (Z.of_nat (length (analyzed_articles st)) <? min_articles)%Z;
    [simpl; auto|].
  destruct (get_article_embeddings st (analyzed_articles st)) as [[embeddings article_ids]|];
    cbn [Py.bind snd]; [|auto].
  destruct (Z.of_nat (length embeddings) <? min_articles)%Z; [simpl; auto|].
  destruct (dbscan eps min_samples embeddings) as [labels|]; cbn [Py.bind snd]; [|auto].
  pose proof (create_clusters_memberships (distinct labels) uuid4 st []) as Hcl.
  destruct (create_clusters (distinct labels) uuid4 st []) as [st1 cluster_map].
  simpl in Hcl.
  destruct (create_memberships labels 0 article_ids cluster_map st1) as [st2|] eqn:Hm;
    cbn [Py.bind snd]; [|auto].
  rewrite name_clusters_memberships. intros Hin.
  destruct (create_memberships_scores _ _ _ _ _ _ Hm m Hin) as [Hold|Hone].
  - left. rewrite <- Hcl. exact Hold.
  - right. exact Hone.
Qed.

(** C3. With fewer than [min_articles] analyzed articles the run returns
    the status [insufficient_data]; with enough articles but fewer than
    [min_articles] loaded embeddings it returns [insufficient_embeddings].
    In both cases a dictionary is returned (the function is total: it has
    no exceptional result) and the store is the one it was given, so no
    [Cluster] and no [ClusterMembership] row is written. *)
Theorem insufficient_input_statuses (min_articles : Z) (eps : Q) (min_samples : Z)
        (st : Store) :
  ((Z.of_nat (length (analyzed_articles st)) < min_articles)%Z ->
   status (fst (cluster_articles min_articles eps min_samples st))
   = PyStr (lit "insufficient_data")
   /\ snd (cluster_articles min_articles eps min_samples st) = st)
  /\ (forall (embeddings : list ndarray) (article_ids : list Z),
        (min_articles <= Z.of_nat (length (analyzed_articles st)))%Z ->
        get_article_embeddings st (analyzed_articles st) = Ok (embeddings, article_ids) ->
        (Z.of_nat (length embeddings) < min_articles)%Z ->
        status (fst (cluster_articles min_articles eps min_samples st))
        = PyStr (lit "insufficient_embeddings")
        /\ snd (cluster_articles min_articles eps min_samples st) = st).
Proof.
  unfold Clustering.cluster_articles, Clustering.cluster_articles_body.
  split.
  - intros Hlt. apply Z.ltb_lt in Hlt. rewrite Hlt. split; reflexivity.
  - intros embeddings article_ids Hge Hemb Hlt.
    apply Z.ltb_ge in Hge. rewrite Hge, Hemb. cbn [Py.bind].
    apply Z.ltb_lt in Hlt. rewrite Hlt. split; reflexivity.
Qed.

End Libraries.

(** *** The view mode: which embeddings are clustered *)

Section View.

Variable json_loads : str -> exc pyval.
Variable view_labels : list (list pyval) -> exc (list Z).

Local Abbreviation view_step := (Clustering.view_step json_loads).
Local Abbreviation view_loop := (Clustering.view_loop json_loads).
Local Abbreviation cluster_view := (Clustering.cluster_view view_labels).
Local Abbreviation get_clusters := (Clustering.get_clusters json_loads view_labels).

(** A record is a candidate when its article exists and its embedding
    text loads as a non-empty list. *)
Definition candidate (st : Store) (analysis : ArticleAnalysis)
  : option (Article * list pyval) :=
  match article_by_id st (an_article_id analysis) with
  | Some article =>
      match an_embedding analysis with
      | Some text =>
          if Analyzer.nonempty text
          then match json_loads text with
               | Ok (PyList (x :: l)) => Some (article, x :: l)
               | _ => None
               end
          else None
      | None => None
      end
  | None => None
  end.

Definition candidates (st : Store) (rows : list ArticleAnalysis)
  : list (Article * list pyval) :=
  flat_map (fun r => match candidate st r with Some p => [p] | None => [] end) rows.

Definition has_dim (d : nat) (p : Article * list pyval) : bool :=
  Nat.eqb (length (snd p)) d.

(** One step of the loop, in terms of the candidate. *)
Lemma view_step_spec (st : Store) (ad : list Article) (ve : list (list pyval))
      (dim : option nat) (r : ArticleAnalysis) (s' : view_state) :
  view_step st (ad, ve, dim) r = Ok s' ->
  s' = match candidate st r with
       | None => (ad, ve, dim)
       | Some (a, e) =>
           match dim with
           | None => (ad ++ [a], ve ++ [e], Some (length e))
           | Some d => if has_dim d (a, e) then (ad ++ [a], ve ++ [e], dim)
                       else (ad, ve, dim)
           end
       end.
Proof.
  unfold Clustering.view_step, candidate, has_dim.
  destruct (article_by_id st (an_article_id r)) as [a|]; [|congruence].
  destruct (an_embedding r) as [text|]; [|congruence].
  destruct (Analyzer.nonempty text); cbn [negb]; [|congruence].
  destruct (json_loads text) as [v|e].
  - destruct v as [| | | | |l|]; try congruence.
    destruct l as [|x l]; [congruence|].
    destruct dim as [d|]; [|congruence].
    cbn [snd]. destruct (Nat.eqb (length (x :: l)) d); cbn [negb]; congruence.
  - destruct (handled e); congruence.
Qed.

(** Once the dimension is set, the loop appends the candidates of that
    dimension and nothing else. *)
Lemma view_loop_fixed_dim (st : Store) (rows : list ArticleAnalysis) :
  forall (d : nat) (ad : list Article) (ve : list (list pyval)) (s' : view_state),
    view_loop st rows (ad, ve, Some d) = Ok s' ->
    s' = (ad ++ map fst (filter (has_dim d) (candidates st rows)),
          ve ++ map snd (filter (has_dim d) (candidates st rows)),
          Some d).
Proof.
  induction rows as [|r rest IH]; intros d ad ve s' H;
    cbn [Clustering.view_loop] in H.
  - injection H as <-. simpl. rewrite !app_nil_r. reflexivity.
  - destruct (view_step st (ad, ve, Some d) r) as [s1|] eqn:Hstep;
      cbn [Py.bind] in H; [|discriminate].
    apply view_step_spec in Hstep. subst s1.
    unfold candidates. cbn [flat_map]. fold (candidates st rest).
    destruct (candidate st r) as [[a e]|].
    + cbn [app filter]. destruct (has_dim d (a, e)).
      * apply IH in H. subst s'. cbn [map fst snd].
        rewrite <- !app_assoc. reflexivity.
      * apply IH in H. exact H.
    + cbn [app]. apply IH in H. exact H.
Qed.

(** From the empty state, the first candidate sets the dimension. *)
Lemma view_loop_from_start (st : Store) (rows : list ArticleAnalysis)
      (s' : view_state) :
  view_loop st rows ([], [], None) = Ok s' ->
  s' = match candidates st rows with
       | [] => ([], [], None)
       | (_, first) :: _ =>
           (map fst (filter (has_dim (length first)) (candidates st rows)),
            map snd (filter (has_dim (length first)) (candidates st rows)),
            Some (length first))
       end.
Proof.
  revert s'.
  induction rows as [|r rest IH]; intros s' H; cbn [Clustering.view_loop] in H.
  - injection H as <-. reflexivity.
  - destruct (view_step st ([], [], None) r) as [s1|] eqn:Hstep;
      cbn [Py.bind] in H; [|discriminate].
    apply view_step_spec in Hstep. subst s1.
    unfold candidates. cbn [flat_map]. fold (candidates st rest).
    destruct (candidate st r) as [[a e]|].
    + cbn [app filter]. apply view_loop_fixed_dim in H. subst s'.
      assert (Hd : has_dim (length e) (a, e) = true)
        by (unfold has_dim; cbn [snd]; apply Nat.eqb_refl).
      rewrite Hd. reflexivity.
    + cbn [app]. apply IH. exact H.
Qed.

Lemma filter_has_dim_Forall (d : nat) (l : list (Article * list pyval)) :
  Forall (fun e => length e = d) (map snd (filter (has_dim d) l)).
Proof.
  induction l as [|p l IH]; simpl.
  - constructor.
  - destruct (has_dim d p) eqn:Hd; [|exact IH].
    simpl. constructor; [|exact IH]. apply Nat.eqb_eq. exact Hd.
Qed.

(** After the loop, [get_clusters] clusters what the loop kept. *)
Lemma get_clusters_after_loop (st : Store) (articles_data : list Article)
      (valid_embeddings : list (list pyval)) (expected_dim : option nat) :
  view_loop st (analyses st) ([], [], None)
  = Ok (articles_data, valid_embeddings, expected_dim) ->
  get_clusters st = cluster_view articles_data valid_embeddings.
Proof.
  intros H. unfold Clustering.get_clusters.
  destruct (analyses st) as [|r rows] eqn:Hrows.
  - cbn [Clustering.view_loop] in H. apply Ok_inj in H.
    replace articles_data with (@nil Article) by congruence.
    replace valid_embeddings with (@nil (list pyval)) by congruence.
    reflexivity.
  - rewrite H. reflexivity.
Qed.

(** C5. The embeddings the view mode clusters are the candidates whose
    dimension is that of the first candidate, in encounter order: every
    record of another dimension is skipped, all clustered embeddings
    have one dimension, and [get_clusters] clusters exactly them. *)
Theorem view_dimension_consistency (st : Store) (articles_data : list Article)
        (valid_embeddings : list (list pyval)) (expected_dim : option nat) :
  view_loop st (analyses st) ([], [], None)
  = Ok (articles_data, valid_embeddings, expected_dim) ->
  match candidates st (analyses st) with
  | [] => valid_embeddings = []
  | (_, first) :: _ =>
      valid_embeddings
      = map snd (filter (has_dim (length first)) (candidates st (analyses st)))
      /\ articles_data
         = map fst (filter (has_dim (length first)) (candidates st (analyses st)))
      /\ Forall (fun e => length e = length first) valid_embeddings
  end
  /\ get_clusters st = cluster_view articles_data valid_embeddings.
Proof.
  intros H. split.
  - apply view_loop_from_start in H.
    destruct (candidates st (analyses st)) as [|[a first] rest].
    + congruence.
    + repeat split; try congruence.
      replace valid_embeddings
        with (map snd (filter (has_dim (length first)) ((a, first) :: rest)))
        by congruence.
      apply filter_has_dim_Forall.
  - apply get_clusters_after_loop with (expected_dim := expected_dim). exact H.
Qed.

(** *** The view mode: at least one cluster *)

Lemma insert_sorted_In (x y : Z) (l : list Z) :
  In y (insert_sorted x l) <-> y = x \/ In y l.
Proof.
  induction l as [|z l IH]; simpl.
  - intuition.
  - destruct (x <? z)%Z; [simpl; intuition|].
    destruct (x =? z)%Z eqn:E.
    + apply Z.eqb_eq in E. subst z. simpl. intuition.
    + simpl. rewrite IH. intuition.
Qed.

Lemma sorted_set_In (x : Z) (labels : list Z) :
  In x (sorted_set labels) <-> In x labels.
Proof.
  unfold sorted_set. induction labels as [|y l IH]; simpl.
  - tauto.
  - rewrite insert_sorted_In, IH. intuition.
Qed.

Lemma fold_max_In (rest : list Z) :
  forall x, In (fold_left Z.max rest x) (x :: rest).
Proof.
  induction rest as [|y rest IH]; intros x; simpl.
  - auto.
  - destruct (IH (Z.max x y)) as [H|H].
    + rewrite <- H.
      destruct (Z.max_spec x y) as [[_ E]|[_ E]]; rewrite E; auto.
    + auto.
Qed.

Lemma fold_max_ge (rest : list Z) :
  forall x y, In y (x :: rest) -> (y <= fold_left Z.max rest x)%Z.
Proof.
  induction rest as [|z rest IH]; intros x y Hin; simpl.
  - destruct Hin as [<-|[]]. lia.
  - destruct Hin as [<-|[<-|Hin]].
    + etransitivity; [|apply IH; left; reflexivity]. lia.
    + etransitivity; [|apply IH; left; reflexivity]. lia.
    + apply IH. right. exact Hin.
Qed.

Lemma py_max_spec (labels : list Z) (m : Z) :
  py_max labels = Ok m ->
  In m labels /\ forall y, In y labels -> (y <= m)%Z.
Proof.
  destruct labels as [|x rest]; simpl; [discriminate|].
  intros H. injection H as <-. split.
  - apply fold_max_In.
  - intros y. apply fold_max_ge.
Qed.

Lemma indices_of_bound (cluster_id : Z) (labels : list Z) :
  forall i, Forall (fun j => j < i + length labels) (indices_of cluster_id labels i).
Proof.
  induction labels as [|c rest IH]; intros i; simpl.
  - constructor.
  - assert (Hrest : Forall (fun j => j < i + S (length rest))
                           (indices_of cluster_id rest (S i))).
    { eapply Forall_impl; [|apply IH]. simpl. intros j Hj. lia. }
    destruct (c =? cluster_id)%Z; [constructor; [lia|]|]; exact Hrest.
Qed.

Lemma mapM_index_total {A} (l : list A) (idxs : list nat) :
  Forall (fun j => j < length l) idxs ->
  exists r, mapM (index l) idxs = Ok r.
Proof.
  induction 1 as [|j idxs Hj _ [r IH]]; simpl.
  - eexists; reflexivity.
  - unfold index at 1. apply nth_error_Some in Hj.
    destruct (nth_error l j) as [a|]; [|congruence].
    cbn [Py.bind]. rewrite IH. eexists; reflexivity.
Qed.

(** With one label for each article, every cluster finds its articles;
    the result has one cluster for each id but the noise label. *)
Lemma build_clusters_total (labels : list Z) (articles_data : list Article)
      (ids : list Z) :
  length labels = length articles_data ->
  exists result, build_clusters ids labels articles_data = Ok result
                 /\ map vc_id result = filter (fun c => negb (c =? -1)%Z) ids.
Proof.
  intros Hlen. induction ids as [|cluster_id rest [result [IH Hids]]]; simpl.
  - eexists; split; reflexivity.
  - destruct (cluster_id =? -1)%Z; cbn [negb].
    + eexists; split; eassumption.
    + destruct (mapM_index_total articles_data (indices_of cluster_id labels 0))
        as [arts Harts].
      { rewrite <- Hlen. apply (indices_of_bound cluster_id labels 0). }
      rewrite Harts. cbn [Py.bind]. rewrite IH. cbn [Py.bind].
      eexists; split; [reflexivity|]. simpl. rewrite Hids. reflexivity.
Qed.

Lemma view_loop_lengths (st : Store) (ad : list Article) (ve : list (list pyval))
      (dim : option nat) :
  view_loop st (analyses st) ([], [], None) = Ok (ad, ve, dim) ->
  length ad = length ve.
Proof.
  intros H. apply view_loop_from_start in H.
  destruct (candidates st (analyses st)) as [|[a first] rest].
  - injection H as -> -> ->. reflexivity.
  - assert (E1 : ad = map fst (filter (has_dim (length first)) ((a, first) :: rest)))
      by congruence.
    assert (E2 : ve = map snd (filter (has_dim (length first)) ((a, first) :: rest)))
      by congruence.
    rewrite E1, E2, !length_map. reflexivity.
Qed.

Lemma sorted_set_repeat_zero (n : nat) :
  sorted_set (repeat 0%Z (S n)) = [0%Z].
Proof.
  induction n as [|n IH].
  - reflexivity.
  - change (repeat 0%Z (S (S n))) with (0%Z :: repeat 0%Z (S n)).
    unfold sorted_set in *. cbn [fold_right]. rewrite IH. reflexivity.
Qed.

Lemma indices_of_repeat_zero (n : nat) :
  forall i, indices_of 0 (repeat 0%Z n) i = seq i n.
Proof.
  induction n as [|n IH]; intros i; simpl.
  - reflexivity.
  - rewrite IH. reflexivity.
Qed.

Lemma mapM_index_seq {A} (l : list A) :
  forall pre, mapM (index (pre ++ l)) (seq (length pre) (length l)) = Ok l.
Proof.
  induction l as [|a l IH]; intros pre; simpl.
  - reflexivity.
  - unfold index at 1. rewrite nth_error_app2, Nat.sub_diag by lia. simpl.
    specialize (IH (pre ++ [a])). rewrite <- app_assoc, length_app in IH.
    simpl in IH. rewrite Nat.add_1_r in IH. rewrite IH. reflexivity.
Qed.

(** When every label is negative, the clusters are the single cluster 0
    that holds every article. *)
Lemma cluster_view_all_noise (articles_data : list Article)
      (valid_embeddings : list (list pyval)) (labels : list Z) :
  valid_embeddings <> [] ->
  length articles_data = length valid_embeddings ->
  view_labels valid_embeddings = Ok labels ->
  labels <> [] ->
  Forall (fun l => (l < 0)%Z) labels ->
  cluster_view articles_data valid_embeddings
  = Ok [{| vc_id := 0; vc_articles := articles_data |}].
Proof.
  intros Hne Hlen Hlab Hlne Hneg.
  unfold Clustering.cluster_view.
  destruct valid_embeddings as [|e ve]; [congruence|].
  rewrite Hlab. cbn [Py.bind].
  destruct (py_max labels) as [m|] eqn:Hmax;
    [|destruct labels; [congruence|discriminate]].
  cbn [Py.bind].
  apply py_max_spec in Hmax. destruct Hmax as [Hin _].
  rewrite Forall_forall in Hneg. apply Hneg in Hin.
  apply Z.ltb_lt in Hin. rewrite Hin.
  cbn [length]. rewrite sorted_set_repeat_zero.
  cbn [build_clusters Z.eqb]. rewrite indices_of_repeat_zero.
  change (length (e :: ve)) with (S (length ve)) in Hlen.
  rewrite <- Hlen.
  pose proof (mapM_index_seq articles_data []) as Hall.
  cbn [app length] in Hall. rewrite Hall. reflexivity.
Qed.

(** C4. When the loop of [get_clusters] keeps at least one embedding and
    the clustering library returns one label for each of them,
    [get_clusters] returns at least one cluster; and when every label is
    negative (all points are noise), it returns the single cluster 0
    holding all the articles. *)
Theorem view_always_nonempty (st : Store) (articles_data : list Article)
        (valid_embeddings : list (list pyval)) (expected_dim : option nat)
        (labels : list Z) :
  view_loop st (analyses st) ([], [], None)
  = Ok (articles_data, valid_embeddings, expected_dim) ->
  valid_embeddings <> [] ->
  view_labels valid_embeddings = Ok labels ->
  length labels = length valid_embeddings ->
  (exists c cs, get_clusters st = Ok (c :: cs))
  /\ (Forall (fun l => (l < 0)%Z) labels ->
      get_clusters st = Ok [{| vc_id := 0; vc_articles := articles_data |}]).
Proof.
  intros Hloop Hne Hlab Hlen.
  pose proof (view_loop_lengths _ _ _ _ Hloop) as Hads.
  rewrite (get_clusters_after_loop _ _ _ _ Hloop).
  assert (Hlne : labels <> []).
  { destruct labels; [|discriminate].
    destruct valid_embeddings; [congruence|discriminate]. }
  assert (Hnoise : Forall (fun l => (l < 0)%Z) labels ->
                   cluster_view articles_data valid_embeddings
                   = Ok [{| vc_id := 0; vc_articles := articles_data |}]).
  { intros Hneg. eapply cluster_view_all_noise; eassumption. }
  split; [|exact Hnoise].
  destruct (py_max labels) as [m|] eqn:Hmax;
    [|destruct labels; [congruence|discriminate]].
  destruct (m <? 0)%Z eqn:Hm.
  - (* all noise *)
    rewrite Hnoise; [eexists; eexists; reflexivity|].
    apply py_max_spec in Hmax. destruct Hmax as [_ Hle].
    apply Z.ltb_lt in Hm. apply Forall_forall. intros y Hy.
    specialize (Hle y Hy). lia.
  - unfold Clustering.cluster_view.
    destruct valid_embeddings as [|e ve]; [congruence|].
    rewrite Hlab. cbn [Py.bind]. rewrite Hmax. cbn [Py.bind]. rewrite Hm.
    destruct (build_clusters_total labels articles_data (sorted_set labels))
      as [result [Hres Hids]]; [congruence|].
    rewrite Hres.
    apply py_max_spec in Hmax. destruct Hmax as [Hin _].
    apply Z.ltb_ge in Hm.
    assert (Hf : In m (filter (fun c => negb (c =? -1)%Z) (sorted_set labels))).
    { apply filter_In. split; [apply sorted_set_In; exact Hin|].
      destruct (m =? -1)%Z eqn:E; [apply Z.eqb_eq in E; lia|reflexivity]. }
    rewrite <- Hids in Hf.
    destruct result as [|c cs]; [destruct Hf|]. eexists; eexists; reflexivity.
Qed.

End View.

End ClusteringProps.

(** *** Naming, on topics as the analyzer stores them *)

Module NamingProps.

Import Clustering.

Definition dq : str := [34%N].

(** One article in one cluster, its analysis row holding [topics] as
    [analyze_article] writes them: the JSON text of the list. *)
Definition one_member_store (topics : str) : Store :=
  {| articles := [ {| art_id := 1; art_title := lit "Chip export rules";
                      art_summary := None; art_content := Some (lit "text");
                      art_published_at := None; art_analyzed := true;
                      art_feed_name := None |} ];
     analyses := [ {| an_id := 1; an_article_id := 1;
                      an_sentiment_score := Some 0%Q;
                      an_topics := Some topics;
                      an_key_entities := Some (lit "[]");
                      an_summary := Some (lit "s");
                      an_embedding := Some (lit "[1.0]") |} ];
     clusters := [ {| cl_id := 1; cl_name := Some (lit "Cluster 0");
                      cl_description := Some (lit ""); cl_run_id := lit "run" |} ];
     memberships := [ {| cm_id := 1; cm_cluster_id := 1; cm_article_id := 1;
                         cm_similarity_score := Some 1%Q |} ];
     briefs := [] |}.

Definition named (st : Store) : list (option str * option str) :=
  map (fun c => (cl_name c, cl_description c)) (clusters st).

(** What [analyze_article] stores for a list of topics. *)
Lemma stored_topics_json (repr : pyval -> str) :
  Analyzer.json_dumps repr (PyList [PyStr (lit "AI"); PyStr (lit "Policy")])
  = lit "[" ++ dq ++ lit "AI" ++ dq ++ lit ", " ++ dq ++ lit "Policy" ++ dq ++ lit "]"
  /\ Analyzer.json_dumps repr (PyList []) = lit "[]".
Proof. split; reflexivity. Qed.

(** The row [analyze_article] adds holds the JSON text of the topics. *)
Lemma store_analysis_topics (repr : pyval -> str) (article : Article)
      (analysis_result embedding : pyval) (st st' : Store) :
  Analyzer.store_analysis repr article analysis_result embedding st = Ok st' ->
  exists row rows d,
    analyses st' = rows ++ [row]
    /\ analysis_result = PyDict d
    /\ an_article_id row = art_id article
    /\ an_topics row
       = Some (Analyzer.json_dumps repr (dict_get d (lit "topics") (PyList []))).
Proof.
  unfold Analyzer.store_analysis, Py.get.
  destruct analysis_result as [| | | | | |d]; cbn [Py.bind]; try discriminate.
  destruct (Analyzer.text_column _); cbn [Py.bind]; try discriminate.
  destruct (Analyzer.float_column _); cbn [Py.bind]; try discriminate.
  intros H. injection H as <-.
  eexists; exists (analyses st); exists d. repeat split; reflexivity.
Qed.

(** C8, as the code behaves: [name_clusters] splits the stored text on
    commas and does not decode it. For a single member whose topics were
    stored as the list AI, Policy, the name and the description keep the
    brackets and quotes of the JSON text; for a member stored with the
    empty list, the name is the text of the empty list, not the default
    [Cluster <label>]. *)
Theorem name_clusters_keeps_json_syntax (repr : pyval -> str) :
  named (name_clusters [(0%Z, 1%Z)]
           (one_member_store
              (Analyzer.json_dumps repr
                 (PyList [PyStr (lit "AI"); PyStr (lit "Policy")]))))
  = [(Some (lit "[" ++ dq ++ lit "AI" ++ dq ++ lit " / " ++ dq ++ lit "Policy" ++ dq ++ lit "]"),
      Some (lit "Single article on [" ++ dq ++ lit "AI" ++ dq))]
  /\ named (name_clusters [(0%Z, 1%Z)]
              (one_member_store (Analyzer.json_dumps repr (PyList []))))
     = [(Some (lit "[]"), Some (lit "Single article on []"))].
Proof. split; vm_compute; reflexivity. Qed.

(** On topics stored as plain comma-separated text, the column format
    [models.py] documents, the same pass gives the names the
    specification describes. *)
Lemma name_clusters_comma_separated :
  named (name_clusters [(0%Z, 1%Z)] (one_member_store (lit "AI, Policy")))
  = [(Some (lit "AI / Policy"), Some (lit "Single article on AI"))].
Proof. vm_compute. reflexivity. Qed.

End NamingProps.

(** ** The brief *)

Module NewsBriefProps.

Import Clustering NewsBrief.





(** Binary64 at the threshold: the literal 0.3 is a float just below
    3/10; 0.1 and 0.5 add up to a float whose half is that same float,
    while -0.9 and 0.3 add up to one whose half is below its opposite;
    a sum beyond the largest float is infinite. *)
Example floats_at_the_threshold :
  threshold = SpecFloat.S754_finite false 5404319552844595 (-54)
  /\ Qle_bool (3 # 10) (Q_of_float threshold) = false
  /\ average [float_of_Q (1 # 10); float_of_Q (5 # 10)] = threshold
  /\ float_lt (average [float_of_Q (-9 # 10); float_of_Q (3 # 10)])
               (SpecFloat.SFopp threshold) = true
  /\ float_sum [float_of_Z (2 ^ 1023); float_of_Z (2 ^ 1023)]
     = SpecFloat.S754_infinity false.
Proof. vm_compute. repeat split; reflexivity. Qed.


Section Services.

Variable json_loads : str -> exc pyval.
Variable view_labels : list (list pyval) -> exc (list Z).
Variable generate_content : str -> list ClusterInfo -> exc str.
Variable date_str : str.
Variable write_file : str -> str -> exc unit.
Variable getenv_output_file : option str.

Local Abbreviation collect_info := (NewsBrief.collect_info json_loads).
Local Abbreviation generate_insights :=
  (NewsBrief.generate_insights json_loads generate_content).
Local Abbreviation brief_text :=
  (NewsBrief.brief_text json_loads generate_content date_str).
Local Abbreviation generate_news_brief :=
  (NewsBrief.generate_news_brief json_loads view_labels generate_content
     date_str write_file getenv_output_file).
Local Abbreviation get_clusters := (Clustering.get_clusters json_loads view_labels).




End Services.

End NewsBriefProps.

(** ** Scenarios *)

(** Concrete runs: the services and libraries are fixed to small tables,
    each table entry being what the real call returns on that input. *)

Module Scenarios.

Import Clustering NewsBrief.

Definition dq : str := NamingProps.dq.

(** [repr] of the floats that occur below. *)
Definition sample_repr (v : pyval) : str :=
  match v with
  | PyFloat q => if Qeq_bool q (1 # 2) then lit "0.5"
                 else if Qeq_bool q 1 then lit "1.0" else lit "0.0"
  | _ => []
  end.

Definition sample_float_of_str (s : str) : option Q :=
  if str_eqb s (lit "0.5") then Some (1 # 2)%Q else None.

(** [json.loads] on the texts of a table, each paired with the value it
    decodes to; any other text is taken as undecodable. *)
Fixpoint loads_table (table : list (str * pyval)) (text : str) : exc pyval :=
  match table with
  | [] => Raise JSONDecodeError
  | (t, v) :: rest => if str_eqb t text then Ok v else loads_table rest text
  end.

Definition json_of (v : pyval) : str := Analyzer.json_dumps sample_repr v.

(** A well-formed response with six topics, and one whose sentiment
    score is [null]. *)
Definition good_result : pyval :=
  PyDict [(lit "summary", PyStr (lit " Export rules tighten. "));
          (lit "sentiment_score", PyFloat (1 # 2));
          (lit "topics", PyList (map (fun s => PyStr s)
                                   [lit "chips"; lit "trade"; lit "policy";
                                    lit "export"; lit "asia"; lit "markets"]));
          (lit "entities", PyList [PyStr (lit "Acme"); PyInt 7])].

Definition null_score_result : pyval :=
  PyDict [(lit "summary", PyStr (lit "Export rules tighten."));
          (lit "sentiment_score", PyNone);
          (lit "topics", PyList [PyStr (lit "chips")]);
          (lit "entities", PyList [])].

Definition sample_loads : str -> exc pyval :=
  loads_table [(json_of good_result, good_result);
               (json_of null_score_result, null_score_result);
               (lit "[1, 0]", PyList [PyInt 1; PyInt 0]);
               (lit "[0, 1]", PyList [PyInt 0; PyInt 1]);
               (json_of (PyList [PyStr (lit "AI")]), PyList [PyStr (lit "AI")])].

(** The service answers the title [null] with the second response. *)
Definition sample_generate (title content : str) : exc str :=
  if str_eqb title (lit "null") then Ok (json_of null_score_result)
  else Ok (json_of good_result).

Definition sample_embed (text : str) : exc (option pyval) :=
  Ok (Some (PyList [PyInt 1; PyInt 0])).

Definition sample_random (n : nat) : list Q := repeat 0%Q n.

Definition article (id : Z) (title : String.string) : Article :=
  {| art_id := id; art_title := lit title; art_summary := None;
     art_content := Some (lit "Some text."); art_published_at := Some id;
     art_analyzed := true; art_feed_name := Some (lit "Wire") |}.
Arguments article id%_Z title%_string.

Definition analysis (id : Z) (embedding : str) : ArticleAnalysis :=
  {| an_id := id; an_article_id := id; an_sentiment_score := Some 0%Q;
     an_topics := Some (json_of (PyList [PyStr (lit "AI")]));
     an_key_entities := Some (lit "[]");
     an_summary := Some (lit "A summary.");
     an_embedding := Some embedding |}.

Definition store_of (arts : list Article) (rows : list ArticleAnalysis) : Store :=
  {| articles := arts; analyses := rows; clusters := [];
     memberships := []; briefs := [] |}.

(** Two analyzed articles with embeddings of dimension 2. *)
Definition two_articles : Store :=
  store_of [article 1 "First"; article 2 "Second"]
           [analysis 1 (lit "[1, 0]"); analysis 2 (lit "[0, 1]")].

Definition sample_analyze :=
  Analyzer.analyze_article sample_repr sample_float_of_str sample_loads
    sample_generate sample_embed sample_random.

Definition sample_analyze_content :=
  Analyzer.analyze_content sample_repr sample_float_of_str sample_loads
    sample_generate.

(** The texts of the two responses. *)
Example response_text :
  json_of null_score_result
  = lit "{" ++ dq ++ lit "summary" ++ dq ++ lit ": " ++ dq
    ++ lit "Export rules tighten." ++ dq ++ lit ", " ++ dq
    ++ lit "sentiment_score" ++ dq ++ lit ": null, " ++ dq ++ lit "topics" ++ dq
    ++ lit ": [" ++ dq ++ lit "chips" ++ dq ++ lit "], " ++ dq ++ lit "entities"
    ++ dq ++ lit ": []}".
Proof. reflexivity. Qed.

(** A fresh article is analyzed and its row written; the row keeps the
    first five topics, as JSON text. *)
Example analyze_fresh :
  let st := store_of [article 1 "First"] [] in
  fst (sample_analyze (article 1 "First") st) = true
  /\ map an_article_id (analyses (snd (sample_analyze (article 1 "First") st))) = [1%Z]
  /\ map an_topics (analyses (snd (sample_analyze (article 1 "First") st)))
     = [Some (json_of (PyList (map (fun s => PyStr s)
                                 [lit "chips"; lit "trade"; lit "policy";
                                  lit "export"; lit "asia"])))].
Proof. vm_compute. repeat split; reflexivity. Qed.

(** Witness of C1: the second call on the same article is a no-op. *)
Lemma analyze_article_existing_noop_witness :
  sample_analyze (article 1 "First") two_articles = (true, two_articles)
  /\ analyses (snd (sample_analyze (article 1 "First") two_articles))
     = analyses two_articles.
Proof.
  apply (AnalyzerProps.analyze_article_existing_noop
           sample_repr sample_float_of_str sample_loads sample_generate
           sample_embed sample_random (article 1 "First") two_articles).
  exists (analysis 1 (lit "[1, 0]")). split; [left; reflexivity | reflexivity].
Defined.

(** Witness of C2: the first response is accepted by the structured
    stage, and its six topics are cut to five. *)
Lemma structured_result_well_shaped_witness :
  exists r,
    sample_analyze_content (lit "First") (lit "Some text.") = Some r
    /\ AnalyzerProps.well_shaped r.
Proof.
  eexists.
  apply (AnalyzerProps.structured_result_well_shaped
           sample_repr sample_float_of_str sample_loads sample_generate
           (lit "First") (lit "Some text.") (json_of good_result)).
  - reflexivity.
  - vm_compute. reflexivity.
Defined.

(** Witness of C7: the response with a [null] score is decoded by the
    structured stage, [float(None)] raises [TypeError], and the article
    is left without analysis. *)
Lemma uncastable_sentiment_witness :
  sample_analyze_content (lit "null") (lit "Some text.") = None
  /\ sample_analyze (article 3 "null") two_articles = (false, two_articles).
Proof.
  destruct (AnalyzerProps.uncastable_sentiment_fails_analysis
              sample_repr sample_float_of_str sample_loads sample_generate
              sample_embed sample_random
              (lit "null") (lit "Some text.") (json_of null_score_result)
              (json_of null_score_result)
              [(lit "summary", PyStr (lit "Export rules tighten."));
               (lit "sentiment_score", PyNone);
               (lit "topics", PyList [PyStr (lit "chips")]);
               (lit "entities", PyList [])]
              TypeError) as [Hnone Hfail].
  - reflexivity.
  - vm_compute. reflexivity.
  - vm_compute. reflexivity.
  - reflexivity.
  - split; [exact Hnone|]. apply Hfail; reflexivity.
Defined.

(** The same response with the score 0.5 in place of [null] is accepted:
    the failure above is due to the score alone. *)
Example castable_sentiment_accepted :
  option_map (fun r => AnalyzerProps.field r "sentiment_score")
    (sample_analyze_content (lit "First") (lit "Some text."))
  = Some (PyFloat (1 # 2)).
Proof. vm_compute. reflexivity. Qed.

(** *** Clustering runs *)

(** The numeric libraries, fixed: an array is the decoded list itself,
    and DBSCAN puts every point in cluster 0. *)
Definition sample_np_array (v : pyval) : exc pyval := Ok v.

Definition sample_dbscan (eps : Q) (min_samples : Z) (X : list pyval) : exc (list Z) :=
  Ok (repeat 0%Z (length X)).

Definition sample_exn_str (e : exn) : str := lit "error".

Definition sample_cluster_articles (min_articles : Z) (st : Store) : pyval * Store :=
  cluster_articles sample_loads pyval sample_np_array sample_dbscan
    (lit "run-1") sample_exn_str min_articles (2 # 10) 3 st.

(** Two analyzed articles, the second with an embedding text that does
    not decode. *)
Definition one_loadable : Store :=
  store_of [article 1 "First"; article 2 "Second"]
           [analysis 1 (lit "[1, 0]"); analysis 2 (lit "[0, 1")].

(** A successful run: one cluster, two memberships, both with score 1.0;
    the cluster is named after the comma pieces of the stored JSON. *)
Example persisting_run :
  ClusteringProps.status (fst (sample_cluster_articles 2 two_articles))
  = PyStr (lit "success")
  /\ map cm_similarity_score (memberships (snd (sample_cluster_articles 2 two_articles)))
     = [Some 1%Q; Some 1%Q]
  /\ map cl_name (clusters (snd (sample_cluster_articles 2 two_articles)))
     = [Some (lit "[" ++ dq ++ lit "AI" ++ dq ++ lit "]")].
Proof. vm_compute. repeat split; reflexivity. Qed.

(** Witness of C3: ten articles are asked for and two exist; two are
    asked for and one embedding loads. *)
Lemma insufficient_input_statuses_witness :
  (ClusteringProps.status (fst (sample_cluster_articles 10 two_articles))
   = PyStr (lit "insufficient_data")
   /\ snd (sample_cluster_articles 10 two_articles) = two_articles)
  /\ (ClusteringProps.status (fst (sample_cluster_articles 2 one_loadable))
      = PyStr (lit "insufficient_embeddings")
      /\ snd (sample_cluster_articles 2 one_loadable) = one_loadable).
Proof.
  split.
  - apply (proj1 (ClusteringProps.insufficient_input_statuses
                    sample_loads pyval sample_np_array sample_dbscan
                    (lit "run-1") sample_exn_str 10 (2 # 10) 3 two_articles)).
    reflexivity.
  - apply (proj2 (ClusteringProps.insufficient_input_statuses
                    sample_loads pyval sample_np_array sample_dbscan
                    (lit "run-1") sample_exn_str 2 (2 # 10) 3 one_loadable)
                 [PyList [PyInt 1; PyInt 0]] [1%Z]).
    + vm_compute. discriminate.
    + vm_compute. reflexivity.
    + reflexivity.
Defined.

(** Witness of C10: the first membership row of the successful run. *)
Lemma membership_scores_constant_witness :
  let m := {| cm_id := 1; cm_cluster_id := 1; cm_article_id := 1;
              cm_similarity_score := Some 1%Q |} in
  In m (memberships two_articles) \/ cm_similarity_score m = Some 1%Q.
Proof.
  intros m.
  apply (ClusteringProps.membership_scores_constant
           sample_loads pyval sample_np_array sample_dbscan
           (lit "run-1") sample_exn_str 2 (2 # 10) 3 two_articles m).
  vm_compute. left. reflexivity.
Defined.

(** *** The view mode *)

(** DBSCAN labelling every point as noise, and labelling every point 0. *)
Definition all_noise (X : list (list pyval)) : exc (list Z) :=
  Ok (repeat (-1)%Z (length X)).

Definition all_zero (X : list (list pyval)) : exc (list Z) :=
  Ok (repeat 0%Z (length X)).

(** Witness of C4: two embeddings, both labelled noise, end in the one
    cluster 0. *)
Lemma view_always_nonempty_witness :
  get_clusters sample_loads all_noise two_articles
  = Ok [{| vc_id := 0;
           vc_articles := [article 1 "First"; article 2 "Second"] |}].
Proof.
  apply (proj2 (ClusteringProps.view_always_nonempty
                  sample_loads all_noise two_articles
                  [article 1 "First"; article 2 "Second"]
                  [[PyInt 1; PyInt 0]; [PyInt 0; PyInt 1]] (Some 2)
                  [(-1)%Z; (-1)%Z]
                  eq_refl ltac:(discriminate) eq_refl eq_refl)).
  repeat constructor.
Defined.

(** Embeddings of dimensions 768, 768 and 512, in that order. *)
Definition vector (x : Z) (n : nat) : list pyval := repeat (PyInt x) n.

Definition three_dimensions : Store :=
  store_of [article 1 "First"; article 2 "Second"; article 3 "Third"]
           [analysis 1 (json_of (PyList (vector 0 768)));
            analysis 2 (json_of (PyList (vector 1 768)));
            analysis 3 (json_of (PyList (vector 2 512)))].

Definition vector_loads : str -> exc pyval :=
  loads_table [(json_of (PyList (vector 0 768)), PyList (vector 0 768));
               (json_of (PyList (vector 1 768)), PyList (vector 1 768));
               (json_of (PyList (vector 2 512)), PyList (vector 2 512))].

(** Witness of C5: of the dimensions 768, 768, 512 the two embeddings
    of dimension 768 are clustered, the third record is skipped. *)
Lemma view_dimension_consistency_witness :
  view_loop vector_loads three_dimensions (analyses three_dimensions) ([], [], None)
  = Ok ([article 1 "First"; article 2 "Second"],
        [vector 0 768; vector 1 768], Some 768)
  /\ get_clusters vector_loads all_zero three_dimensions
     = cluster_view all_zero [article 1 "First"; article 2 "Second"]
                    [vector 0 768; vector 1 768].
Proof.
  assert (H : view_loop vector_loads three_dimensions (analyses three_dimensions)
                        ([], [], None)
              = Ok ([article 1 "First"; article 2 "Second"],
                    [vector 0 768; vector 1 768], Some 768))
    by (vm_compute; reflexivity).
  split; [exact H|].
  exact (proj2 (ClusteringProps.view_dimension_consistency
                  vector_loads all_zero three_dimensions _ _ _ H)).
Defined.

(** *** The brief *)

Definition service_down (sentiment_description : str) (cluster_info : list ClusterInfo)
  : exc str := Raise ServiceError.

Definition disk (path text : str) : exc unit := Ok tt.

(** The brief as the scheduler asks for it: no path is given and the
    environment variable is not set. *)
Definition sample_brief (st : Store) : exc str * Store :=
  generate_news_brief sample_loads all_zero service_down (lit "2024-05-01") disk
    None None st.

Definition both_articles : list ViewCluster :=
  [{| vc_id := 0; vc_articles := [article 1 "First"; article 2 "Second"] |}].

(** Two analyzed articles with the given scores, and a view that puts
    each in a cluster of its own. *)
Definition scored (id : Z) (score : Q) (embedding : str) : ArticleAnalysis :=
  {| an_id := id; an_article_id := id; an_sentiment_score := Some score;
     an_topics := Some (json_of (PyList [PyStr (lit "AI")]));
     an_key_entities := Some (lit "[]");
     an_summary := Some (lit "A summary.");
     an_embedding := Some embedding |}.

Definition scores (first second : Q) : Store :=
  store_of [article 1 "First"; article 2 "Second"]
           [scored 1 first (lit "[1, 0]"); scored 2 second (lit "[0, 1]")].


Definition one_each : list ViewCluster :=
  [{| vc_id := 0; vc_articles := [article 1 "First"] |};
   {| vc_id := 1; vc_articles := [article 2 "Second"] |}].

Definition tone (label : String.string) : list str :=
  [ lit "Today's news coverage shows a mix of domestic and international stories.";
    lit "The overall tone of today's coverage is " ++ lit label ++ lit ".";
    lit "Multiple sources are covering the same major events, indicating widespread interest." ].
Arguments tone label%_string.


(** The label follows the scores, in binary64: 0.1 and 0.5 average to
    the float 0.3 itself, which is not above the threshold, while -0.9
    and 0.3 average to a float just below -0.3; the scores of one
    cluster are averaged before the clusters are. *)
Example labels_follow_scores :
  generate_insights sample_loads service_down one_each (scores (1 # 10) (5 # 10))
  = tone "neutral"
  /\ generate_insights sample_loads service_down one_each (scores (2 # 10) (5 # 10))
     = tone "positive"
  /\ generate_insights sample_loads service_down one_each (scores (-9 # 10) (2 # 10))
     = tone "negative"
  /\ generate_insights sample_loads service_down one_each (scores (-9 # 10) (3 # 10))
     = tone "negative"
  /\ generate_insights sample_loads service_down both_articles (scores (7 # 10) (-1 # 10))
     = tone "neutral"
  /\ generate_insights sample_loads service_down both_articles two_articles
     = tone "neutral".
Proof. vm_compute. repeat split; reflexivity. Qed.

(** The brief of that run is composed, and its text starts with the
    heading and the three bulleted sentences. *)
Example brief_with_fallback :
  exists st' rest,
    sample_brief two_articles = (Ok (lit "news_brief.md"), st')
    /\ map nb_content (briefs st')
       = [lit "# Daily News Brief" ++ nl ++ nl ++ lit "**2024-05-01**" ++ nl ++ nl
          ++ lit "## Key Insights" ++ nl ++ nl
          ++ lit "- Today's news coverage shows a mix of domestic and international stories." ++ nl
          ++ lit "- The overall tone of today's coverage is neutral." ++ nl
          ++ lit "- Multiple sources are covering the same major events, indicating widespread interest." ++ nl
          ++ nl ++ lit "## Top Stories" ++ nl ++ nl ++ rest].
Proof.
  eexists. eexists. split.
  - vm_compute. reflexivity.
  - vm_compute. reflexivity.
Qed.

(** With no cluster at all the service is not called and there is no
    insight, whatever the service would do. *)
Example no_clusters_no_insights :
  generate_insights sample_loads service_down [] two_articles = [].
Proof. reflexivity. Qed.

End Scenarios.

(* ===================================================================== *)
(** * Further properties of the analyzer *)
(* ===================================================================== *)

From Stdlib Require Import Permutation Sorted.

Module ReFacts.
Import Re.

Definition suffix (s' s : str) : Prop := exists pre, s = pre ++ s'.

Lemma suffix_refl (s : str) : suffix s s.
Proof. exists []. reflexivity. Qed.

Lemma suffix_trans (a b c : str) : suffix a b -> suffix b c -> suffix a c.
Proof.
  intros [p ->] [q ->]. exists (q ++ p). rewrite app_assoc. reflexivity.
Qed.

Lemma suffix_cons (x : N) (s : str) : suffix s (x :: s).
Proof. exists [x]. reflexivity. Qed.

Lemma suffix_In (c : N) (s' s : str) : suffix s' s -> In c s' -> In c s.
Proof. intros [p ->] H. apply in_or_app. right. exact H. Qed.

Section Engine.
Variable fl : flags.
Context {X : Type}.

(** A successful run hands a suffix of the text to its continuation. *)
Lemma run_suffix (r : re) :
  forall (s : str) (cs : captures) (k : str -> captures -> option X) (x : X),
    run fl r s cs k = Some x ->
    exists s' cs', suffix s' s /\ k s' cs' = Some x.
Proof.
  induction r as [| c | | | | r1 IH1 r2 IH2 | r1 IH1 r2 IH2 | r1 IH1 | r1 IH1 | r1 IH1 | i r1 IH1];
    intros s cs k x H; cbn [run] in H.
  - exists s, cs. split; [apply suffix_refl|exact H].
  - unfold one in H. destruct s as [|y s]; [discriminate|].
    destruct (chr_matches fl c y); [|discriminate].
    exists s, cs. split; [apply suffix_cons|exact H].
  - unfold one in H. destruct s as [|y s]; [discriminate|].
    destruct (dotall fl || negb (y =? 10)%N); [|discriminate].
    exists s, cs. split; [apply suffix_cons|exact H].
  - unfold one in H. destruct s as [|y s]; [discriminate|].
    destruct (isspace y); [|discriminate].
    exists s, cs. split; [apply suffix_cons|exact H].
  - unfold one in H. destruct s as [|y s]; [discriminate|].
    destruct (isdigit y); [|discriminate].
    exists s, cs. split; [apply suffix_cons|exact H].
  - apply IH1 in H. destruct H as [s1 [cs1 [Hs1 H]]].
    apply IH2 in H. destruct H as [s2 [cs2 [Hs2 H]]].
    exists s2, cs2. split; [eapply suffix_trans; eassumption|exact H].
  - unfold orelse in H.
    destruct (run fl r1 s cs k) eqn:E.
    + rewrite H in E. apply IH1 in E. exact E.
    + apply IH2 in H. exact H.
  - unfold orelse in H.
    destruct (run fl r1 s cs k) eqn:E.
    + rewrite H in E. apply IH1 in E. exact E.
    + exists s, cs. split; [apply suffix_refl|exact H].
  - revert H. generalize (length s) at 1. intros n. revert s cs.
    induction n as [|n IHn]; intros s cs H.
    + exists s, cs. split; [apply suffix_refl|exact H].
    + unfold orelse in H.
      match type of H with
      | match ?t with _ => _ end = _ => destruct t eqn:E
      end.
      * rewrite H in E. apply IH1 in E. destruct E as [s1 [cs1 [Hs1 E]]].
        destruct (length s1 <? length s); [|discriminate].
        apply IHn in E. destruct E as [s2 [cs2 [Hs2 E]]].
        exists s2, cs2. split; [eapply suffix_trans; eassumption|exact E].
      * exists s, cs. split; [apply suffix_refl|exact H].
  - revert H. generalize (length s) at 1. intros n. revert s cs.
    induction n as [|n IHn]; intros s cs H; unfold orelse in H.
    + destruct (k s cs) eqn:E; [|discriminate].
      exists s, cs. split; [apply suffix_refl|congruence].
    + destruct (k s cs) eqn:E.
      * exists s, cs. split; [apply suffix_refl|congruence].
      * apply IH1 in H. destruct H as [s1 [cs1 [Hs1 H]]].
        destruct (length s1 <? length s); [|discriminate].
        apply IHn in H. destruct H as [s2 [cs2 [Hs2 H]]].
        exists s2, cs2. split; [eapply suffix_trans; eassumption|exact H].
  - apply IH1 in H. destruct H as [s1 [cs1 [Hs1 H]]].
    eexists; eexists. split; [exact Hs1|exact H].
Qed.

End Engine.
End ReFacts.

Module AnalyzerMore.

Import Analyzer AnalyzerProps.

Lemma field_summary (a b c d : pyval) :
  field (PyDict [(lit "summary", a); (lit "sentiment_score", b);
                 (lit "topics", c); (lit "entities", d)]) "summary" = a.
Proof. reflexivity. Qed.

Lemma Forall_is_str_PyStr (l : list str) : Forall is_str (map PyStr l).
Proof. induction l; simpl; constructor; simpl; auto. Qed.

Lemma firstn_nonempty_bounds {A} (x : A) (l : list A) :
  0 < length (firstn 5 (x :: l)) <= 5.
Proof.
  split.
  - simpl. lia.
  - rewrite length_firstn. lia.
Qed.

Lemma find_app {A} (f : A -> bool) (l1 l2 : list A) :
  find f (l1 ++ l2) = match find f l1 with Some a => Some a | None => find f l2 end.
Proof.
  induction l1 as [|a l1 IH]; simpl; [reflexivity|].
  destruct (f a); [reflexivity|exact IH].
Qed.

Section Services.

Variable repr : pyval -> str.
Variable float_of_str : str -> option Q.
Variable json_loads : str -> exc pyval.
Variable generate_content : str -> str -> exc str.

Local Abbreviation extract_field := (Analyzer.extract_field float_of_str json_loads).
Local Abbreviation extract_list_field := (Analyzer.extract_list_field repr json_loads).
Local Abbreviation fallback_stage :=
  (Analyzer.fallback_stage repr float_of_str json_loads).
Local Abbreviation structured_stage :=
  (Analyzer.structured_stage repr float_of_str json_loads).
Local Abbreviation analyze_content :=
  (Analyzer.analyze_content repr float_of_str json_loads generate_content).

(** *** The fallback extractors *)

Lemma extract_list_field_bounds (text : str) (pattern : Re.re)
      (default_value items : list str) :
  extract_list_field text pattern default_value = Ok items ->
  items = default_value \/ 0 < length items <= 5.
Proof.
  unfold Analyzer.extract_list_field.
  match goal with |- Py.bind ?c _ = _ -> _ => destruct c as [l|e] end;
    cbn [Py.bind]; [|discriminate].
  intros H. apply Ok_inj in H. subst items.
  destruct l as [|x l]; cbn [nonempty_list].
  - left. reflexivity.
  - right. apply firstn_nonempty_bounds.
Qed.

(** X1. [extract_list_field] returns the default, or between one and
    five items: a list read from the text is never longer than five. *)
Theorem extract_list_field_at_most_five (text : str) (pattern : Re.re)
        (default_value items : list str) :
  extract_list_field text pattern default_value = Ok items ->
  items = default_value \/ 0 < length items <= 5.
Proof. apply extract_list_field_bounds. Qed.

Lemma extract_field_str (text : str) (pattern : Re.re) (default_value v : pyval) :
  is_str default_value ->
  extract_field text pattern default_value CastStr = Ok v -> is_str v.
Proof.
  intros Hd. unfold Analyzer.extract_field.
  destruct (Re.search pattern text IM) as [m|].
  - destruct (Re.group m 1); [|discriminate].
    intros H. apply Ok_inj in H. subst v. exact I.
  - intros H. apply Ok_inj in H. subst v. exact Hd.
Qed.

Lemma extract_field_float (text : str) (pattern : Re.re) (default_value v : pyval) :
  is_float default_value ->
  extract_field text pattern default_value CastFloat = Ok v -> is_float v.
Proof.
  intros Hd. unfold Analyzer.extract_field.
  destruct (Re.search pattern text IM) as [m|].
  - destruct (Re.group m 1); [|discriminate].
    destruct (float_of_str _); intros H; apply Ok_inj in H; subst v;
      [exact I|exact Hd].
  - intros H. apply Ok_inj in H. subst v. exact Hd.
Qed.

Lemma fallback_stage_shape (result_text : str) (r : pyval) :
  fallback_stage result_text = Ok r ->
  well_shaped r /\ is_str (field r "summary")
  /\ (exists entities, field r "entities" = PyList entities /\ length entities <= 5).
Proof.
  unfold Analyzer.fallback_stage.
  destruct (extract_field result_text summary_pattern _ CastStr) as [s|] eqn:Hs;
    cbn [Py.bind]; [|discriminate].
  destruct (extract_field result_text sentiment_pattern _ CastFloat) as [f|] eqn:Hf;
    cbn [Py.bind]; [|discriminate].
  destruct (extract_list_field result_text topics_pattern []) as [ts|] eqn:Ht;
    cbn [Py.bind]; [|discriminate].
  destruct (extract_list_field result_text entities_pattern []) as [es|] eqn:He;
    cbn [Py.bind]; [|discriminate].
  intros H. apply Ok_inj in H. subst r.
  apply extract_field_str in Hs; [|exact I].
  apply extract_field_float in Hf; [|exact I].
  apply extract_list_field_bounds in Ht, He.
  assert (Hts : length ts <= 5) by (destruct Ht as [->|]; simpl; lia).
  assert (Hes : length es <= 5) by (destruct He as [->|]; simpl; lia).
  unfold well_shaped.
  rewrite field_topics, field_entities, field_sentiment_score, field_summary.
  repeat split; try assumption.
  - exists (map PyStr ts). rewrite length_map.
    repeat split; [exact Hts|apply Forall_is_str_PyStr].
  - exists (map PyStr es). split; [reflexivity|apply Forall_is_str_PyStr].
  - exists (map PyStr es). rewrite length_map. split; [reflexivity|exact Hes].
Qed.

Lemma validate_summary_str (v r : pyval) :
  Analyzer.validate repr float_of_str v = Ok r -> is_str (field r "summary").
Proof.
  unfold Analyzer.validate, Py.get.
  destruct v; cbn [Py.bind]; try discriminate.
  destruct (Analyzer.py_float _ _); cbn [Py.bind]; try discriminate.
  intros H. apply Ok_inj in H. subst r. rewrite field_summary. exact I.
Qed.

Lemma analyze_content_shape (title content : str) (r : pyval) :
  analyze_content title content = Some r ->
  well_shaped r /\ is_str (field r "summary").
Proof.
  unfold Analyzer.analyze_content.
  destruct (generate_content title content) as [result_text|]; [|discriminate].
  destruct (structured_stage result_text) as [v|e] eqn:Hst.
  - intros H. injection H as <-.
    unfold Analyzer.structured_stage in Hst.
    destruct (json_block result_text); cbn [Py.bind] in Hst; [|discriminate].
    destruct (json_loads _) as [parsed|]; cbn [Py.bind] in Hst; [|discriminate].
    split; [eapply validate_well_shaped|eapply validate_summary_str]; eassumption.
  - destruct e; try discriminate.
    destruct (fallback_stage result_text) as [v|] eqn:Hfb; [|discriminate].
    intros H. injection H as <-.
    apply fallback_stage_shape in Hfb. tauto.
Qed.

(** X2. Whatever [analyze_content] returns, from the structured stage
    or from the fallback stage, has a string summary, a float sentiment
    score, at most five topics, and only strings among its topics and
    entities. *)
Theorem analyze_content_result_shape (title content : str) (r : pyval) :
  analyze_content title content = Some r ->
  well_shaped r /\ is_str (field r "summary").
Proof. apply analyze_content_shape. Qed.

(** *** A response without any field *)

Lemma lower_colon (y : N) : Re.lower 58 = Re.lower y -> y = 58%N.
Proof.
  change (Re.lower 58) with 58%N. unfold Re.lower.
  destruct ((65 <=? y) && (y <=? 90))%N eqn:E1.
  - apply andb_true_iff in E1. destruct E1 as [E1 _]. apply N.leb_le in E1.
    intros H. lia.
  - destruct ((y =? 304) || (y =? 305))%N; [intros H; discriminate|].
    destruct (y =? 383)%N; [intros H; discriminate|].
    destruct (y =? 8490)%N; [intros H; discriminate|].
    congruence.
Qed.

(** A field pattern only matches where the text has a colon. *)
Lemma field_pattern_run_colon {X} (names : list str) (value : Re.re) (s : str)
      (cs : Re.captures) (k : str -> Re.captures -> option X) (m : X) :
  Re.run IM (field_pattern names value) s cs k = Some m -> In 58%N s.
Proof.
  intros E. unfold field_pattern in E. cbn [Re.seq fold_right] in E.
  change (Re.run IM (Re.Seq ?a ?b) ?s ?cs ?k)
    with (Re.run IM a s cs (fun s' cs' => Re.run IM b s' cs' k)) in E.
  apply ReFacts.run_suffix in E. destruct E as [s1 [cs1 [H1 E]]].
  change (Re.run IM (Re.Seq ?a ?b) ?s ?cs ?k)
    with (Re.run IM a s cs (fun s' cs' => Re.run IM b s' cs' k)) in E.
  apply ReFacts.run_suffix in E. destruct E as [s2 [cs2 [H2 E]]].
  change (Re.run IM (Re.Seq ?a ?b) ?s ?cs ?k)
    with (Re.run IM a s cs (fun s' cs' => Re.run IM b s' cs' k)) in E.
  cbn [Re.run] in E. unfold Re.one at 1 in E.
  destruct s2 as [|y s2]; [discriminate|].
  destruct (Re.chr_matches IM 58 y) eqn:Hm; [|discriminate].
  unfold Re.chr_matches in Hm. cbn [Re.ignorecase IM] in Hm.
  apply N.eqb_eq, lower_colon in Hm. subst y.
  eapply ReFacts.suffix_In; [exact H1|].
  eapply ReFacts.suffix_In; [exact H2|]. left. reflexivity.
Qed.

Lemma field_pattern_needs_colon (names : list str) (value : Re.re) (text : str) :
  ~ In 58%N text ->
  Re.search (field_pattern names value) text IM = None.
Proof.
  unfold Re.search. induction text as [|c text IH]; intros Hno; cbn [Re.search_from].
  - destruct (Re.run IM (field_pattern names value) [] [] _) as [m|] eqn:E;
      [|reflexivity].
    apply field_pattern_run_colon in E. destruct E.
  - destruct (Re.run IM (field_pattern names value) (c :: text) [] _) as [m|] eqn:E.
    + apply field_pattern_run_colon in E. contradiction.
    + apply IH. intros Hin. apply Hno. right. exact Hin.
Qed.

(** The dictionary of a response in which no field was found. *)
Definition empty_result : pyval :=
  PyDict [(lit "summary", PyStr (lit ""));
          (lit "sentiment_score", PyFloat 0);
          (lit "topics", PyList []);
          (lit "entities", PyList [])].

Lemma fallback_stage_without_colon (result_text : str) :
  ~ In 58%N result_text -> fallback_stage result_text = Ok empty_result.
Proof.
  intros Hno.
  unfold Analyzer.fallback_stage, Analyzer.extract_field, Analyzer.extract_list_field.
  unfold summary_pattern, sentiment_pattern, topics_pattern, entities_pattern.
  rewrite !(field_pattern_needs_colon _ _ _ Hno). reflexivity.
Qed.

(** X3. A response that is not JSON and contains no colon is accepted
    with every field empty: [analyze_content] returns the dictionary
    with summary [''], score 0.0 and no topics or entities, rather than
    reporting a failure. *)
Theorem fieldless_response_gives_empty_analysis
        (title content result_text json_str : str) :
  generate_content title content = Ok result_text ->
  ~ In 58%N result_text ->
  json_block result_text = Ok json_str ->
  json_loads json_str = Raise JSONDecodeError ->
  analyze_content title content = Some empty_result.
Proof.
  intros Hgen Hno Hblock Hloads.
  unfold Analyzer.analyze_content, Analyzer.structured_stage.
  rewrite Hgen, Hblock. cbn [Py.bind]. rewrite Hloads. cbn [Py.bind].
  rewrite (fallback_stage_without_colon _ Hno). reflexivity.
Qed.

End Services.

End AnalyzerMore.

(** ** One article, and a batch of articles *)

Module ArticleProps.

Import Analyzer AnalyzerProps.

(** The article with its [analyzed] flag set. *)
Definition flagged (article : Article) : Article :=
  {| art_id := art_id article;
     art_title := art_title article;
     art_summary := art_summary article;
     art_content := art_content article;
     art_published_at := art_published_at article;
     art_analyzed := true;
     art_feed_name := art_feed_name article |}.

Definition analysis_ids (st : Store) : list Z := map an_article_id (analyses st).

Lemma analysis_of_none_notin (st : Store) (id : Z) :
  analysis_of st id = None -> ~ In id (analysis_ids st).
Proof.
  unfold analysis_of, analysis_ids. intros Hfind Hin.
  apply in_map_iff in Hin. destruct Hin as [a [Hid Hin]].
  apply (find_none _ _ Hfind) in Hin. rewrite Hid, Z.eqb_refl in Hin. discriminate.
Qed.

Lemma article_by_id_put (st : Store) (a : Article) :
  article_by_id (put_article st a) (art_id a) = Some a.
Proof.
  unfold article_by_id, put_article. cbn [articles].
  destruct (existsb _ (articles st)) eqn:E.
  - induction (articles st) as [|x l IH]; [discriminate|].
    cbn [existsb] in E. cbn [map find].
    destruct (art_id x =? art_id a)%Z eqn:Hx.
    + rewrite Z.eqb_refl. reflexivity.
    + rewrite Hx. apply IH. exact E.
  - rewrite AnalyzerMore.find_app.
    assert (Hnone : find (fun x => (art_id x =? art_id a)%Z) (articles st) = None).
    { induction (articles st) as [|x l IH]; [reflexivity|].
      cbn [existsb] in E. apply orb_false_iff in E. destruct E as [Hx E].
      cbn [find]. rewrite Hx. apply IH. exact E. }
    rewrite Hnone. cbn [find]. rewrite Z.eqb_refl. reflexivity.
Qed.

Section Services.

Variable repr : pyval -> str.
Variable float_of_str : str -> option Q.
Variable json_loads : str -> exc pyval.
Variable generate_content : str -> str -> exc str.
Variable embed_content : str -> exc (option pyval).
Variable random_normal : nat -> list Q.

Local Abbreviation analyze_content :=
  (Analyzer.analyze_content repr float_of_str json_loads generate_content).
Local Abbreviation get_embedding := (Analyzer.get_embedding embed_content random_normal).
Local Abbreviation store_analysis := (Analyzer.store_analysis repr).
Local Abbreviation json_dumps := (Analyzer.json_dumps repr).
Local Abbreviation analyze_article :=
  (Analyzer.analyze_article repr float_of_str json_loads generate_content
     embed_content random_normal).

(** What [store_analysis] writes. *)
Lemma store_analysis_spec (article : Article) (analysis_result embedding : pyval)
      (st st' : Store) :
  store_analysis article analysis_result embedding st = Ok st' ->
  exists row d,
    analysis_result = PyDict d
    /\ st' = put_article (add_analysis st row) (flagged article)
    /\ an_article_id row = art_id article
    /\ an_topics row = Some (json_dumps (dict_get d (lit "topics") (PyList [])))
    /\ an_embedding row = Some (json_dumps embedding).
Proof.
  unfold Analyzer.store_analysis, Py.get.
  destruct analysis_result as [| | | | | |d]; cbn [Py.bind]; try discriminate.
  destruct (Analyzer.text_column _); cbn [Py.bind]; try discriminate.
  destruct (Analyzer.float_column _); cbn [Py.bind]; try discriminate.
  intros H. apply Ok_inj in H. subst st'.
  eexists; exists d. repeat split; reflexivity.
Qed.

(** The three ways [analyze_article] ends. *)
Lemma analyze_article_cases (article : Article) (st : Store) :
  analyze_article article st = (false, st)
  \/ (analysis_of st (art_id article) <> None /\ analyze_article article st = (true, st))
  \/ (analysis_of st (art_id article) = None
      /\ nonempty (usable_text article) = true
      /\ exists analysis_result st',
           analyze_content (art_title article) (usable_text article)
           = Some analysis_result
           /\ store_analysis article analysis_result
                (get_embedding (usable_text article)) st = Ok st'
           /\ analyze_article article st = (true, st')).
Proof.
  unfold Analyzer.analyze_article.
  destruct (analysis_of st (art_id article)) as [existing|] eqn:Hex.
  - right. left. split; [discriminate|reflexivity].
  - destruct (nonempty (usable_text article)) eqn:Hne; cbn [negb]; [|left; reflexivity].
    destruct (analyze_content _ _) as [r|] eqn:Hc; [|left; reflexivity].
    destruct (truthy r); cbn [negb]; [|left; reflexivity].
    destruct (get_embedding (usable_text article)) eqn:Hemb; try (left; reflexivity);
      match goal with
      | |- context [store_analysis article r ?e st] =>
          destruct (store_analysis article r e st) as [st'|] eqn:Hs;
          [right; right; repeat split; try reflexivity;
           exists r, st'; repeat split; assumption
          |left; reflexivity]
      end.
Qed.

(** X4. An article without usable text (no content and no summary, or
    empty ones) and without an analysis is reported as failed and
    nothing is written, whatever the services would answer. *)
Theorem analyze_article_without_text (article : Article) (st : Store) :
  analysis_of st (art_id article) = None ->
  (art_content article = None \/ art_content article = Some []) ->
  (art_summary article = None \/ art_summary article = Some []) ->
  analyze_article article st = (false, st).
Proof.
  intros Hex Hc Hs. unfold Analyzer.analyze_article, usable_text.
  rewrite Hex. destruct Hc as [-> | ->], Hs as [-> | ->]; reflexivity.
Qed.

(** X5. Whenever [analyze_article] reports failure, the store is the
    one it was given: no record is written and the article is not
    flagged. In particular this holds when the service call raises. *)
Theorem analyze_article_failure_writes_nothing (article : Article) (st : Store) :
  fst (analyze_article article st) = false ->
  snd (analyze_article article st) = st.
Proof.
  destruct (analyze_article_cases article st) as [H|[[_ H]|[_ [_ [r [st' [_ [_ H]]]]]]]];
    rewrite H; cbn [fst snd]; [reflexivity|discriminate|discriminate].
Qed.

(** X6. A successful analysis of an article that had no record appends
    exactly one record, for that article, whose topics are the JSON text
    of at most five strings; it flags the article as analyzed and leaves
    clusters, memberships and briefs alone. *)
Theorem analyze_article_writes_one_record (article : Article) (st st' : Store) :
  analysis_of st (art_id article) = None ->
  analyze_article article st = (true, st') ->
  (exists row topics,
      analyses st' = analyses st ++ [row]
      /\ an_article_id row = art_id article
      /\ an_topics row = Some (json_dumps (PyList topics))
      /\ length topics <= 5 /\ Forall is_str topics)
  /\ (exists a, article_by_id st' (art_id article) = Some a
                /\ art_analyzed a = true)
  /\ clusters st' = clusters st
  /\ memberships st' = memberships st
  /\ briefs st' = briefs st.
Proof.
  intros Hex Hrun.
  destruct (analyze_article_cases article st) as [H|[[Hne _]|[_ [_ [r [st1 [Hc [Hs H]]]]]]]].
  - rewrite H in Hrun. discriminate.
  - congruence.
  - rewrite H in Hrun. assert (st1 = st') by congruence. subst st1.
    apply store_analysis_spec in Hs.
    destruct Hs as [row [d [Hr [Hst [Hid [Htop _]]]]]].
    apply AnalyzerMore.analyze_content_shape in Hc.
    destruct Hc as [[[topics [Ht [Hlen Hstr]]] _] _].
    subst r. unfold field in Ht.
    assert (Hd : dict_get d (lit "topics") (PyList []) = PyList topics).
    { (* the key is present, so the default is not used *)
      clear -Ht. induction d as [|[k v] d IH]; cbn [dict_get] in *; [discriminate|].
      destruct (str_eqb k (lit "topics")); [exact Ht|apply IH; exact Ht]. }
    subst st'. repeat split; try reflexivity.
    + exists row, topics. split; [reflexivity|]. split; [exact Hid|].
      split; [rewrite Htop, Hd; reflexivity|]. split; assumption.
    + exists (flagged article). split; [|reflexivity].
      apply (article_by_id_put (add_analysis st row) (flagged article)).
Qed.

Lemma analyze_article_ids (article : Article) (st : Store) :
  analysis_ids (snd (analyze_article article st)) = analysis_ids st
  \/ (~ In (art_id article) (analysis_ids st)
      /\ analysis_ids (snd (analyze_article article st))
         = analysis_ids st ++ [art_id article]
      /\ fst (analyze_article article st) = true).
Proof.
  destruct (analyze_article_cases article st) as [H|[[_ H]|[Hno [_ [r [st' [_ [Hs H]]]]]]]];
    rewrite H; cbn [fst snd]; try (left; reflexivity).
  right. apply store_analysis_spec in Hs.
  destruct Hs as [row [d [_ [-> [Hid _]]]]].
  split; [apply analysis_of_none_notin; exact Hno|].
  split; [|reflexivity].
  unfold analysis_ids. cbn [put_article add_analysis analyses].
  rewrite map_app. cbn [map]. rewrite Hid. reflexivity.
Qed.

(** X7. [analyze_article] keeps the invariant of at most one analysis
    record per article: if no two records of the store are for the same
    article, the same holds after the call. *)
Theorem analyze_article_keeps_one_record_per_article (article : Article) (st : Store) :
  NoDup (analysis_ids st) ->
  NoDup (analysis_ids (snd (analyze_article article st))).
Proof.
  intros Hnd.
  destruct (analyze_article_ids article st) as [->|[Hno [-> _]]]; [exact Hnd|].
  apply NoDup_app; [exact Hnd|repeat constructor; intros []|].
  intros a Ha [<-|[]]. contradiction.
Qed.

(** X8. [get_embedding] only looks at the first 10000 characters of the
    text, and it always returns a vector: when the service raises or its
    result has no embedding, the vector is the one drawn from the normal
    distribution, 768 floats long. *)
Theorem get_embedding_truncates_and_falls_back (text : str) :
  length (random_normal 768) = 768 ->
  get_embedding text = get_embedding (firstn 10000 text)
  /\ ((forall v, embed_content (firstn 10000 text) <> Ok (Some v)) ->
      exists vector, get_embedding text = PyList vector
                     /\ length vector = 768 /\ Forall is_float vector).
Proof.
  intros Hlen. unfold Analyzer.get_embedding.
  remember 10000 as max_chars eqn:Hmax. clear Hmax.
  assert (Hcut : (if max_chars <? length text then firstn max_chars text else text)
                 = firstn max_chars text).
  { destruct (max_chars <? length text) eqn:E; [reflexivity|].
    apply Nat.ltb_ge in E. symmetry. apply firstn_all2. exact E. }
  assert (Hidem : (if max_chars <? length (firstn max_chars text)
                   then firstn max_chars (firstn max_chars text)
                   else firstn max_chars text) = firstn max_chars text).
  { pose proof (firstn_le_length max_chars text) as Hle.
    apply Nat.ltb_ge in Hle. rewrite Hle. reflexivity. }
  cbv zeta. rewrite Hcut, Hidem. split; [reflexivity|].
  intros Hnot.
  assert (Hvec : exists vector,
             PyList (map PyFloat (random_normal 768)) = PyList vector
             /\ length vector = 768 /\ Forall is_float vector).
  { eexists. split; [reflexivity|]. rewrite length_map. split; [exact Hlen|].
    clear. induction (random_normal 768); simpl; constructor; simpl; auto. }
  destruct (embed_content (firstn max_chars text)) as [[v|]|e]; try exact Hvec.
  exfalso. exact (Hnot v eq_refl).
Qed.

End Services.

End ArticleProps.

Module BatchProps.

Import Analyzer ArticleProps Batch.

Lemma NoDup_map_filter {Row Key : Type} (key : Row -> Key) (keep : Row -> bool)
      (rows : list Row) (Hkeys : NoDup (map key rows)) :
  NoDup (map key (filter keep rows)).
Proof.
  induction rows as [|row rows IH]; [constructor|].
  cbn [map] in Hkeys. apply NoDup_cons_iff in Hkeys. destruct Hkeys as [Hnew Hrest].
  cbn [filter]. destruct (keep row); [|exact (IH Hrest)].
  cbn [map]. constructor; [|exact (IH Hrest)].
  rewrite in_map_iff. intros [other [Hsame Hin]].
  apply Hnew. rewrite in_map_iff. exists other.
  split; [exact Hsame|]. apply filter_In in Hin. apply Hin.
Qed.

Lemma NoDup_firstn {A} (n : nat) (l : list A) : NoDup l -> NoDup (firstn n l).
Proof.
  intros H. rewrite <- (firstn_skipn n l) in H.
  apply NoDup_app_remove_r in H. exact H.
Qed.

Lemma In_firstn {A} (n : nat) (l : list A) (x : A) : In x (firstn n l) -> In x l.
Proof.
  intros H. rewrite <- (firstn_skipn n l). apply in_or_app. left. exact H.
Qed.

Lemma analysis_of_some_in (st : Store) (id : Z) (a : ArticleAnalysis) :
  analysis_of st id = Some a -> In id (analysis_ids st).
Proof.
  unfold analysis_of, analysis_ids. intros H. apply find_some in H.
  destruct H as [Hin Hid]. apply Z.eqb_eq in Hid. subst id.
  apply in_map. exact Hin.
Qed.

Section Services.

Variable repr : pyval -> str.
Variable float_of_str : str -> option Q.
Variable json_loads : str -> exc pyval.
Variable generate_content : str -> str -> exc str.
Variable embed_content : str -> exc (option pyval).
Variable random_normal : nat -> list Q.
Variable order_by_published_desc : list Article -> list Article.

Local Abbreviation analyze_article :=
  (Analyzer.analyze_article repr float_of_str json_loads generate_content
     embed_content random_normal).
Local Abbreviation analyze_each :=
  (Batch.analyze_each repr float_of_str json_loads generate_content
     embed_content random_normal).
Local Abbreviation analyze_content :=
  (Analyzer.analyze_content repr float_of_str json_loads generate_content).
Local Abbreviation get_embedding := (Analyzer.get_embedding embed_content random_normal).
Local Abbreviation store_analysis := (Analyzer.store_analysis repr).
Local Abbreviation selected := (Batch.selected order_by_published_desc).
Local Abbreviation analyze_batch :=
  (Batch.analyze_batch repr float_of_str json_loads generate_content
     embed_content random_normal order_by_published_desc).
Local Abbreviation analyze_unprocessed_articles :=
  (Batch.analyze_unprocessed_articles repr float_of_str json_loads generate_content
     embed_content random_normal order_by_published_desc).

(** On an article without a record, a call either fails and changes
    nothing, or succeeds and adds the record of that article. *)
Lemma analyze_fresh_article (article : Article) (st : Store) :
  ~ In (art_id article) (analysis_ids st) ->
  (analyze_article article st = (false, st))
  \/ (fst (analyze_article article st) = true
      /\ analysis_ids (snd (analyze_article article st))
         = analysis_ids st ++ [art_id article]).
Proof.
  intros Hno.
  destruct (analyze_article_cases repr float_of_str json_loads generate_content
              embed_content random_normal article st)
    as [H|[[Hne _]|[_ [_ [r [st' [_ [Hs H]]]]]]]].
  - left. exact H.
  - exfalso. destruct (analysis_of st (art_id article)) as [a|] eqn:E; [|congruence].
    apply Hno. eapply analysis_of_some_in. exact E.
  - right. rewrite H. cbn [fst snd]. split; [reflexivity|].
    apply store_analysis_spec in Hs. destruct Hs as [row [d [_ [-> [Hid _]]]]].
    unfold analysis_ids. cbn [put_article add_analysis analyses].
    rewrite map_app. cbn [map]. rewrite Hid. reflexivity.
Qed.

(** Whether a row can be stored does not depend on the rows that are
    already there. *)
Lemma store_analysis_succeeds_alike (article : Article)
      (analysis_result embedding : pyval) (st other : Store) :
  (exists st', store_analysis article analysis_result embedding st = Ok st') ->
  exists st', store_analysis article analysis_result embedding other = Ok st'.
Proof.
  intros [st' H]. revert H. unfold Analyzer.store_analysis, Py.get.
  destruct analysis_result as [| | | | | |d]; cbn [Py.bind]; try discriminate.
  destruct (Analyzer.text_column _); cbn [Py.bind]; try discriminate.
  destruct (Analyzer.float_column _); cbn [Py.bind]; try discriminate.
  intros _. eexists. reflexivity.
Qed.

(** The verdict on an article without a record is the same in every
    store: it depends on the article and on the services only. *)
Lemma analyze_article_verdict (article : Article) (st other : Store) :
  analysis_of st (art_id article) = None ->
  analysis_of other (art_id article) = None ->
  fst (analyze_article article st) = fst (analyze_article article other).
Proof.
  intros H1 H2. unfold Analyzer.analyze_article. rewrite H1, H2.
  destruct (negb (nonempty (usable_text article))); [reflexivity|].
  destruct (analyze_content (art_title article) (usable_text article)) as [r|];
    [|reflexivity].
  destruct (negb (truthy r)); [reflexivity|].
  assert (Hsame : forall e,
             fst (match store_analysis article r e st with
                  | Ok st' => (true, st')
                  | Raise _ => (false, st)
                  end)
             = fst (match store_analysis article r e other with
                    | Ok st' => (true, st')
                    | Raise _ => (false, other)
                    end)).
  { intros e.
    destruct (store_analysis article r e st) as [s1|x1] eqn:E1;
      destruct (store_analysis article r e other) as [s2|x2] eqn:E2;
      try reflexivity; exfalso.
    - destruct (store_analysis_succeeds_alike article r e st other) as [s H];
        [eexists; exact E1|congruence].
    - destruct (store_analysis_succeeds_alike article r e other st) as [s H];
        [eexists; exact E2|congruence]. }
  destruct (get_embedding (usable_text article)); try reflexivity; apply Hsame.
Qed.

(** The loop, started in any store that has no record for the articles
    it is given, counts and records exactly the articles that a call on
    their own would analyze, in their order. *)
Lemma analyze_each_spec (origin : Store) (articles : list Article) :
  forall (st : Store) (count : nat),
    NoDup (map art_id articles) ->
    (forall a, In a articles -> ~ In (art_id a) (analysis_ids origin)) ->
    (forall a, In a articles -> ~ In (art_id a) (analysis_ids st)) ->
    fst (analyze_each articles st count)
    = count + length (filter (fun a => fst (analyze_article a origin)) articles)
    /\ analysis_ids (snd (analyze_each articles st count))
       = analysis_ids st
         ++ map art_id (filter (fun a => fst (analyze_article a origin)) articles).
Proof.
  induction articles as [|a rest IH]; intros st count Hnd Horigin Hfresh;
    cbn [Batch.analyze_each filter].
  - cbn [fst snd length map]. rewrite app_nil_r. split; [lia|reflexivity].
  - inversion Hnd as [|x xs Hnotin Hnd']; subst.
    assert (Hnone : forall s, ~ In (art_id a) (analysis_ids s) ->
                              analysis_of s (art_id a) = None).
    { intros s Hs. destruct (analysis_of s (art_id a)) as [row|] eqn:E; [|reflexivity].
      exfalso. apply Hs. eapply analysis_of_some_in. exact E. }
    rewrite <- (analyze_article_verdict a st origin
                  (Hnone st (Hfresh a (or_introl eq_refl)))
                  (Hnone origin (Horigin a (or_introl eq_refl)))).
    destruct (analyze_fresh_article a st (Hfresh a (or_introl eq_refl)))
      as [H|[Hok Hids]].
    + rewrite H. cbn [fst].
      apply IH; [exact Hnd'| |]; intros b Hb; [apply Horigin|apply Hfresh];
        right; exact Hb.
    + destruct (analyze_article a st) as [ok st'] eqn:E. cbn [fst snd] in Hok, Hids.
      subst ok. cbn [fst].
      destruct (IH st' (S count) Hnd') as [IH1 IH2].
      { intros b Hb. apply Horigin. right. exact Hb. }
      { intros b Hb Hin. rewrite Hids in Hin. apply in_app_or in Hin.
        destruct Hin as [Hin|[Heq|[]]].
        - exact (Hfresh b (or_intror Hb) Hin).
        - apply Hnotin. rewrite Heq. apply in_map. exact Hb. }
      rewrite IH1, IH2, Hids. cbn [length map]. rewrite <- app_assoc.
      split; [lia|reflexivity].
Qed.

(** X9. A batch analyzes every selected article that can be analyzed,
    whatever happens to the others: when article ids are unique and the
    database returns the selected rows in some order, the number
    [analyze_batch] returns is the number of selected articles that a
    call of [analyze_article] on their own analyzes, and the records it
    adds are those of exactly these articles, in the order of the
    selection. So a failing article does not stop the batch. The number
    is at most the number of unprocessed articles, and at most the limit
    when one is given. *)
Theorem analyze_batch_counts_records (limit : option nat) (st : Store) :
  NoDup (map art_id (articles st)) ->
  Permutation (order_by_published_desc (unprocessed st)) (unprocessed st) ->
  let analyzable :=
    filter (fun a => fst (analyze_article a st)) (selected limit st) in
  fst (analyze_batch limit st) = length analyzable
  /\ analysis_ids (snd (analyze_batch limit st))
     = analysis_ids st ++ map art_id analyzable
  /\ fst (analyze_batch limit st) <= length (unprocessed st)
  /\ (forall n, limit = Some (S n) -> fst (analyze_batch limit st) <= S n).
Proof.
  intros Hnd Hperm analyzable.
  assert (Hord : NoDup (map art_id (order_by_published_desc (unprocessed st)))).
  { eapply Permutation_NoDup.
    - apply Permutation_map, Permutation_sym, Hperm.
    - apply NoDup_map_filter. exact Hnd. }
  assert (Hsel_nd : NoDup (map art_id (selected limit st))).
  { unfold Batch.selected. destruct limit as [[|n]|]; try exact Hord.
    rewrite <- firstn_map. apply NoDup_firstn. exact Hord. }
  assert (Hsel_in : forall a, In a (selected limit st) -> In a (unprocessed st)).
  { intros a Ha. eapply Permutation_in; [exact Hperm|].
    unfold Batch.selected in Ha. destruct limit as [[|n]|]; try exact Ha.
    eapply In_firstn. exact Ha. }
  assert (Hsel_len : length (selected limit st) <= length (unprocessed st)).
  { rewrite <- (Permutation_length Hperm). unfold Batch.selected.
    destruct limit as [[|n]|]; try lia.
    rewrite length_firstn. lia. }
  assert (Hfresh : forall a, In a (selected limit st) ->
                             ~ In (art_id a) (analysis_ids st)).
  { intros a Ha Hin. apply Hsel_in in Ha. unfold unprocessed in Ha.
    apply filter_In in Ha. destruct Ha as [_ Ha].
    apply andb_true_iff in Ha. destruct Ha as [_ Ha].
    apply negb_true_iff in Ha.
    unfold analysis_ids in Hin. apply in_map_iff in Hin.
    destruct Hin as [an [Hid Hin]].
    assert (Hex : existsb (fun an => (an_article_id an =? art_id a)%Z) (analyses st) = true).
    { apply existsb_exists. exists an. split; [exact Hin|]. apply Z.eqb_eq. exact Hid. }
    congruence. }
  destruct (analyze_each_spec st (selected limit st) st 0 Hsel_nd Hfresh Hfresh)
    as [H1 H2].
  assert (Hle : length analyzable <= length (selected limit st))
    by apply filter_length_le.
  unfold Batch.analyze_batch. fold analyzable in H1, H2.
  rewrite H1, H2. cbn [Nat.add].
  repeat split; try lia.
  intros n ->. unfold Batch.selected in Hle.
  rewrite length_firstn in Hle. lia.
Qed.

End Services.

End BatchProps.

(* ===================================================================== *)
(** * Further properties of the persisting clustering run *)
(* ===================================================================== *)

Module RunProps.

Import Clustering.

Definition not_noise (label : Z) : bool := negb (label =? -1)%Z.

(** The article ids of the points that are not noise. *)
Definition clustered_ids (labels article_ids : list Z) : list Z :=
  map snd (filter (fun p => not_noise (fst p)) (combine labels article_ids)).

Lemma distinct_In (x : Z) (labels : list Z) : In x (distinct labels) <-> In x labels.
Proof.
  induction labels as [|y l IH]; simpl; [tauto|].
  rewrite filter_In, IH. split.
  - intros [H|[H _]]; auto.
  - intros [H|H]; [auto|].
    destruct (Z.eq_dec x y) as [->|Hne]; [auto|].
    right. split; [exact H|]. apply negb_true_iff, Z.eqb_neq. exact Hne.
Qed.

Lemma distinct_NoDup (labels : list Z) : NoDup (distinct labels).
Proof.
  induction labels as [|y l IH]; simpl; constructor.
  - rewrite filter_In. intros [_ H]. rewrite Z.eqb_refl in H. discriminate.
  - apply NoDup_filter. exact IH.
Qed.

Lemma fresh_id_above (ids : list Z) (x : Z) : In x ids -> (x < fresh_id ids)%Z.
Proof.
  unfold fresh_id. induction ids as [|y l IH]; cbn [fold_right In]; [tauto|].
  intros [->|H]; [lia|]. specialize (IH H). lia.
Qed.

Lemma filter_count_noise (labels : list Z) :
  length (filter not_noise labels) + count_occ Z.eq_dec labels (-1)%Z = length labels.
Proof.
  induction labels as [|x l IH]; cbn [filter count_occ length]; [reflexivity|].
  unfold not_noise at 1. destruct (Z.eq_dec x (-1)) as [->|Hne].
  - rewrite Z.eqb_refl. cbn [negb]. lia.
  - assert (E : (x =? -1)%Z = false) by (apply Z.eqb_neq; exact Hne).
    rewrite E. cbn [negb length]. lia.
Qed.

Lemma NoDup_filter_length (labels : list Z) :
  NoDup labels ->
  length labels - (if existsb (Z.eqb (-1)) labels then 1 else 0)
  = length (filter not_noise labels).
Proof.
  induction 1 as [|x l Hnotin Hnd IH]; cbn [existsb filter length]; [reflexivity|].
  unfold not_noise at 1.
  destruct (Z.eq_dec x (-1)) as [->|Hne].
  - rewrite Z.eqb_refl. cbn [orb negb].
    assert (E : existsb (Z.eqb (-1)) l = false).
    { destruct (existsb (Z.eqb (-1)) l) eqn:E; [|reflexivity].
      apply existsb_exists in E. destruct E as [y [Hy E]].
      apply Z.eqb_eq in E. subst y. contradiction. }
    rewrite E in IH. rewrite <- IH. lia.
  - assert (E1 : (-1 =? x)%Z = false) by (apply Z.eqb_neq; congruence).
    assert (E2 : (x =? -1)%Z = false) by (apply Z.eqb_neq; exact Hne).
    rewrite E1, E2. cbn [orb negb length]. rewrite <- IH.
    destruct (existsb (Z.eqb (-1)) l) eqn:E; [|lia].
    destruct l; [discriminate|cbn [length]; lia].
Qed.

Lemma nth_error_skipn_cons {A} (l : list A) :
  forall (i : nat) (x : A) (r : list A),
    skipn i l = x :: r -> nth_error l i = Some x /\ skipn (S i) l = r.
Proof.
  induction l as [|a l IH]; intros [|i] x r H; simpl in *; try discriminate.
  - injection H as -> ->. split; reflexivity.
  - apply IH. exact H.
Qed.

(** *** [create_clusters] *)

(** The tables a run never touches. *)
Definition same_content (st st' : Store) : Prop :=
  articles st' = articles st /\ analyses st' = analyses st /\ briefs st' = briefs st.

Lemma same_content_refl (st : Store) : same_content st st.
Proof. repeat split. Qed.

Lemma same_content_trans (a b c : Store) :
  same_content a b -> same_content b c -> same_content a c.
Proof. unfold same_content. intros [? [? ?]] [? [? ?]]. repeat split; congruence. Qed.

Lemma create_clusters_spec (labels : list Z) (run_id : str) :
  forall (st : Store) (cluster_map : list (Z * Z)),
  exists new_clusters,
    clusters (fst (create_clusters labels run_id st cluster_map))
    = clusters st ++ new_clusters
    /\ snd (create_clusters labels run_id st cluster_map)
       = cluster_map ++ combine (filter not_noise labels) (map cl_id new_clusters)
    /\ length new_clusters = length (filter not_noise labels)
    /\ Forall (fun c => cl_run_id c = run_id) new_clusters
    /\ Forall (fun c => forall o, In o (clusters st) -> (cl_id o < cl_id c)%Z)
              new_clusters
    /\ memberships (fst (create_clusters labels run_id st cluster_map)) = memberships st
    /\ same_content st (fst (create_clusters labels run_id st cluster_map)).
Proof.
  induction labels as [|label rest IH]; intros st cluster_map; cbn [create_clusters].
  - exists []. cbn [fst snd filter map combine]. rewrite !app_nil_r.
    repeat split; constructor.
  - assert (Hf : filter not_noise (label :: rest)
                 = if (label =? -1)%Z then filter not_noise rest
                   else label :: filter not_noise rest).
    { cbn [filter]. unfold not_noise at 1.
      destruct (label =? -1)%Z; reflexivity. }
    rewrite Hf. clear Hf.
    destruct (label =? -1)%Z; [apply IH|].
    set (cluster := {| cl_id := fresh_id (map cl_id (clusters st));
                       cl_name := Some (lit "Cluster " ++ str_of_Z label);
                       cl_description := Some (lit "");
                       cl_run_id := run_id |}).
    destruct (IH (add_cluster st cluster)
                 (cluster_map ++ [(label, fresh_id (map cl_id (clusters st)))]))
      as [news [Hcl [Hmap [Hlen [Hrun [Hfresh [Hmem Hsame]]]]]]].
    exists (cluster :: news). cbn [add_cluster clusters memberships] in *.
    rewrite Hcl, Hmap. rewrite <- !app_assoc. cbn [app map combine length cl_id].
    repeat split; try assumption.
    + congruence.
    + constructor; [reflexivity|exact Hrun].
    + constructor.
      * intros o Ho. cbn [cl_id cluster]. apply fresh_id_above, in_map, Ho.
      * eapply Forall_impl; [|exact Hfresh]. intros c Hc o Ho.
        apply Hc. apply in_or_app. left. exact Ho.
    + apply Hsame.
    + apply Hsame.
    + apply Hsame.
Qed.

(** *** [name_clusters] *)

(** [name_clusters] rewrites names and descriptions of the clusters of
    the map, and nothing else. *)
Definition renaming (ids : list Z) (f : Cluster -> Cluster) : Prop :=
  forall c, cl_id (f c) = cl_id c /\ cl_run_id (f c) = cl_run_id c
            /\ (~ In (cl_id c) ids -> f c = c).

Lemma rename_cluster_renaming (st : Store) (id : Z) (name description : str) :
  exists f, clusters (rename_cluster st id name description) = map f (clusters st)
            /\ renaming [id] f.
Proof.
  eexists. split; [reflexivity|]. intros c. cbn beta.
  destruct (cl_id c =? id)%Z eqn:E; cbn [cl_id cl_run_id]; repeat split.
  intros Hno. exfalso. apply Hno. left. apply Z.eqb_eq in E. congruence.
Qed.

Lemma name_cluster_renaming (st : Store) (label id : Z) :
  (exists f, clusters (name_cluster st label id) = map f (clusters st)
             /\ renaming [id] f)
  /\ same_content st (name_cluster st label id)
  /\ memberships (name_cluster st label id) = memberships st.
Proof.
  unfold name_cluster. destruct (sort_desc _);
    (split; [apply rename_cluster_renaming|split; [repeat split|reflexivity]]).
Qed.

Lemma name_clusters_renaming (cluster_map : list (Z * Z)) :
  forall st,
    (exists f, clusters (name_clusters cluster_map st) = map f (clusters st)
               /\ renaming (map snd cluster_map) f)
    /\ same_content st (name_clusters cluster_map st)
    /\ memberships (name_clusters cluster_map st) = memberships st.
Proof.
  unfold name_clusters.
  induction cluster_map as [|[label id] rest IH]; intros st; cbn [fold_left map snd fst].
  - split; [|split; [apply same_content_refl|reflexivity]].
    exists (fun c => c). split; [symmetry; apply map_id|].
    intros c. repeat split.
  - destruct (name_cluster_renaming st label id) as [[f [Hf Rf]] [Hs Hm]].
    destruct (IH (name_cluster st label id)) as [[g [Hg Rg]] [Hs' Hm']].
    split; [|split; [eapply same_content_trans; eassumption|congruence]].
    exists (fun c => g (f c)). split.
    + rewrite Hg, Hf, map_map. reflexivity.
    + intros c. destruct (Rf c) as [Hf1 [Hf2 Hf3]].
      destruct (Rg (f c)) as [Hg1 [Hg2 Hg3]].
      repeat split; try congruence.
      intros Hno. rewrite Hg3, Hf3; try reflexivity.
      * intros [H|[]]. apply Hno. left. exact H.
      * rewrite Hf1. intros H. apply Hno. right. exact H.
Qed.

(** *** [create_memberships] *)

Lemma skipn_nth_error {A} (l : list A) :
  forall (i : nat) (x : A),
    nth_error l i = Some x -> skipn i l = x :: skipn (S i) l.
Proof.
  induction l as [|a l IH]; intros [|i] x H; simpl in *; try discriminate.
  - injection H as ->. reflexivity.
  - apply IH. exact H.
Qed.

Lemma skipn_nil_S {A} (l : list A) :
  forall i, skipn i l = [] -> skipn (S i) l = [].
Proof.
  induction l as [|a l IH]; intros [|i] H; simpl in *; try discriminate;
    try reflexivity.
  apply IH. exact H.
Qed.

Lemma clustered_ids_noise (rest ids : list Z) (i : nat) :
  clustered_ids ((-1)%Z :: rest) (skipn i ids) = clustered_ids rest (skipn (S i) ids).
Proof.
  unfold clustered_ids. destruct (skipn i ids) as [|x r] eqn:E.
  - rewrite (skipn_nil_S _ _ E). destruct rest; reflexivity.
  - apply nth_error_skipn_cons in E. destruct E as [_ ->]. reflexivity.
Qed.

Lemma lookup_total (cluster_map : list (Z * Z)) (label : Z) :
  In label (map fst cluster_map) ->
  exists cluster_id, lookup cluster_map label = Ok cluster_id.
Proof.
  unfold lookup. intros Hin.
  destruct (find _ cluster_map) as [lc|] eqn:E; [eexists; reflexivity|].
  exfalso. apply in_map_iff in Hin. destruct Hin as [lc [Hl Hin]].
  apply (find_none _ _ E) in Hin. rewrite Hl, Z.eqb_refl in Hin. discriminate.
Qed.

Lemma lookup_in (cluster_map : list (Z * Z)) (label cluster_id : Z) :
  lookup cluster_map label = Ok cluster_id -> In cluster_id (map snd cluster_map).
Proof.
  unfold lookup. destruct (find _ cluster_map) as [lc|] eqn:E; [|discriminate].
  intros H. apply Ok_inj in H. subst cluster_id.
  apply find_some in E. apply in_map. tauto.
Qed.

(** When [create_memberships] returns, it has appended one row for each
    point that is not noise, in order, each in a cluster of the map. *)
Lemma create_memberships_appends (labels : list Z) :
  forall (i : nat) (article_ids : list Z) (cluster_map : list (Z * Z))
         (st st' : Store),
    create_memberships labels i article_ids cluster_map st = Ok st' ->
    clusters st' = clusters st /\ same_content st st'
    /\ exists new_rows,
         memberships st' = memberships st ++ new_rows
         /\ map cm_article_id new_rows = clustered_ids labels (skipn i article_ids)
         /\ Forall (fun m => In (cm_cluster_id m) (map snd cluster_map)) new_rows.
Proof.
  induction labels as [|label rest IH]; intros i article_ids cluster_map st st' H;
    cbn [create_memberships] in H.
  - apply Ok_inj in H. subst st'. split; [reflexivity|].
    split; [apply same_content_refl|].
    exists []. rewrite app_nil_r. repeat split. constructor.
  - destruct (label =? -1)%Z eqn:E.
    + apply Z.eqb_eq in E. subst label. rewrite clustered_ids_noise.
      apply IH. exact H.
    + unfold index in H.
      destruct (nth_error article_ids i) as [article_id|] eqn:Hn;
        cbn [Py.bind] in H; [|discriminate].
      destruct (lookup cluster_map label) as [cluster_id|] eqn:Hl;
        cbn [Py.bind] in H; [|discriminate].
      apply IH in H. destruct H as [Hc [Hs [new_rows [Hm [Hids Hin]]]]].
      cbn [add_membership clusters memberships] in *.
      split; [exact Hc|]. split; [exact Hs|].
      eexists (_ :: new_rows). rewrite Hm, <- app_assoc. split; [reflexivity|].
      split.
      * rewrite (skipn_nth_error _ _ _ Hn). unfold clustered_ids.
        cbn [combine filter fst]. unfold not_noise at 1. rewrite E.
        cbn [negb map snd cm_article_id]. f_equal. exact Hids.
      * constructor; [|exact Hin]. cbn [cm_cluster_id]. eapply lookup_in. exact Hl.
Qed.

(** With an article id for every label and a cluster for every label
    that is not noise, [create_memberships] returns. *)
Lemma create_memberships_total (labels : list Z) :
  forall (i : nat) (article_ids : list Z) (cluster_map : list (Z * Z)) (st : Store),
    i + length labels <= length article_ids ->
    (forall label, In label labels -> not_noise label = true ->
                   In label (map fst cluster_map)) ->
    exists st', create_memberships labels i article_ids cluster_map st = Ok st'.
Proof.
  induction labels as [|label rest IH]; intros i article_ids cluster_map st Hlen Hmap;
    cbn [create_memberships].
  - eexists; reflexivity.
  - cbn [length] in Hlen.
    assert (Hrest : forall l, In l rest -> not_noise l = true ->
                              In l (map fst cluster_map)).
    { intros l Hl. apply Hmap. right. exact Hl. }
    destruct (label =? -1)%Z eqn:E.
    + apply IH; [lia|exact Hrest].
    + unfold index. destruct (nth_error article_ids i) as [article_id|] eqn:Hn.
      * cbn [Py.bind].
        destruct (lookup_total cluster_map label) as [cluster_id Hl].
        { apply Hmap; [left; reflexivity|]. unfold not_noise. rewrite E. reflexivity. }
        rewrite Hl. cbn [Py.bind]. apply IH; [lia|exact Hrest].
      * apply nth_error_None in Hn. lia.
Qed.

Lemma map_fst_combine {A B} (a : list A) :
  forall b : list B, length a <= length b -> map fst (combine a b) = a.
Proof.
  induction a as [|x a IH]; intros [|y b] H; simpl in *; try reflexivity; try lia.
  f_equal. apply IH. lia.
Qed.

Lemma NoDup_clustered_ids (labels : list Z) :
  forall article_ids, NoDup article_ids -> NoDup (clustered_ids labels article_ids).
Proof.
  unfold clustered_ids.
  induction labels as [|l labels IH]; intros [|x ids] H; cbn [combine filter map];
    try constructor.
  inversion H as [|y ys Hnotin Hnd]; subst. cbn [fst].
  assert (Hsub : forall z, In z (map snd (filter (fun p => not_noise (fst p))
                                            (combine labels ids))) -> In z ids).
  { intros z Hz. apply in_map_iff in Hz. destruct Hz as [[a b] [Hb Hz]].
    apply filter_In in Hz. destruct Hz as [Hz _]. apply in_combine_r in Hz.
    cbn [snd] in Hb. subst b. exact Hz. }
  destruct (not_noise l); [|apply IH; exact Hnd].
  cbn [map snd]. constructor; [|apply IH; exact Hnd].
  intros Hin. apply Hnotin, Hsub, Hin.
Qed.

Lemma clustered_ids_length (labels article_ids : list Z) :
  length labels = length article_ids ->
  length (clustered_ids labels article_ids) = length (filter not_noise labels).
Proof.
  unfold clustered_ids. revert article_ids.
  induction labels as [|l labels IH]; intros [|x ids] H; cbn [combine filter map length] in *;
    try reflexivity; try discriminate.
  cbn [fst]. destruct (not_noise l); cbn [map length]; rewrite IH; congruence.
Qed.

(** *** The run *)

Section Libraries.

Variable json_loads : str -> exc pyval.
Variable ndarray : Type.
Variable np_array : pyval -> exc ndarray.
Variable dbscan : Q -> Z -> list ndarray -> exc (list Z).
Variable uuid4 : str.
Variable exn_str : exn -> str.

Local Abbreviation article_embedding :=
  (Clustering.article_embedding json_loads ndarray np_array).
Local Abbreviation get_article_embeddings :=
  (Clustering.get_article_embeddings json_loads ndarray np_array).
Local Abbreviation cluster_articles_body :=
  (Clustering.cluster_articles_body json_loads ndarray np_array dbscan uuid4).
Local Abbreviation cluster_articles :=
  (Clustering.cluster_articles json_loads ndarray np_array dbscan uuid4 exn_str).

(** The article has an embedding that loads. *)
Definition loadable (st : Store) (article : Article) : bool :=
  match article_embedding st article with
  | Ok (Some _) => true
  | _ => false
  end.

Lemma get_article_embeddings_spec (st : Store) (articles : list Article) :
  forall embeddings article_ids,
    get_article_embeddings st articles = Ok (embeddings, article_ids) ->
    length embeddings = length article_ids
    /\ article_ids = map art_id (filter (loadable st) articles).
Proof.
  induction articles as [|a rest IH]; intros embeddings article_ids H;
    cbn [Clustering.get_article_embeddings] in H.
  - apply Ok_inj in H. injection H as <- <-. split; reflexivity.
  - cbn [filter]. unfold loadable at 1.
    destruct (article_embedding st a) as [[e|]|] eqn:E; cbn [Py.bind] in H;
      try discriminate;
      destruct (get_article_embeddings st rest) as [[es ids]|]; cbn [Py.bind] in H;
      try discriminate;
      destruct (IH es ids eq_refl) as [Hlen Hids];
      apply Ok_inj in H; cbn [fst snd] in H; injection H as <- <-.
    + cbn [length map]. split; congruence.
    + split; assumption.
Qed.

(** A decoded value that has a length and is not empty: a list, a
    dictionary or a text with at least one element. *)
Definition sized (v : pyval) : bool :=
  match v with
  | PyList (_ :: _) | PyDict (_ :: _) | PyStr (_ :: _) => true
  | _ => false
  end.

(** [a] is the array of the article: the analysis of the article has an
    embedding text that is not empty and decodes to a value that is not
    empty, and [a] is the array numpy makes of that value. *)
Inductive array_of (st : Store) (article : Article) (a : ndarray) : Prop :=
| array_of_decoded (analysis : ArticleAnalysis) (text : str) (v : pyval) :
    analysis_of st (art_id article) = Some analysis ->
    an_embedding analysis = Some text ->
    text <> [] ->
    json_loads text = Ok v ->
    sized v = true ->
    np_array v = Ok a ->
    array_of st article a.

(** The article has such an array. *)
Definition has_array (st : Store) (article : Article) : bool :=
  match analysis_of st (art_id article) with
  | Some analysis =>
      match an_embedding analysis with
      | Some (c :: text) =>
          match json_loads (c :: text) with
          | Ok v => sized v && match np_array v with Ok _ => true | Raise _ => false end
          | Raise _ => false
          end
      | _ => false
      end
  | None => false
  end.

(** The test [len(embedding) > 0] of line 34 comes after the test of
    [embedding] itself and cannot fail once that has passed: a value
    that has a length is true only when its length is positive. What
    the call of [len] adds is the [TypeError] on a number, which the
    handler of line 37 turns into a skipped article. *)
Lemma length_test_after_truth_test (v : pyval) (n : nat) :
  truthy v = true -> len v = Ok n -> 0 < n.
Proof.
  destruct v as [| b | z | q | s | l | d]; cbn [truthy len]; try discriminate;
    intros Ht Hn; apply Ok_inj in Hn; subst n;
    match goal with
    | |- 0 < length ?x => destruct x; [discriminate|cbn [length]; lia]
    end.
Qed.

Lemma load_embedding_sized (text : str) (v : pyval) :
  json_loads text = Ok v ->
  Clustering.load_embedding json_loads ndarray np_array text
  = if sized v
    then match np_array v with Ok a => Ok (Some a) | Raise e => Raise e end
    else if truthy v
         then match len v with Ok _ => Ok None | Raise e => Raise e end
         else Ok None.
Proof.
  intros Hv. unfold Clustering.load_embedding. rewrite Hv. cbn [Py.bind].
  destruct v as [| b | z | q | [|c t] | [|x l] | [|kv d]];
    cbn [sized truthy len Py.bind length Nat.eqb negb Nat.ltb Nat.leb];
    try reflexivity;
    try (destruct (np_array _); reflexivity);
    match goal with
    | |- (if ?c then _ else _) = _ => destruct c; reflexivity
    end.
Qed.

Lemma article_embedding_array (st : Store) (article : Article) (a : ndarray) :
  article_embedding st article = Ok (Some a) -> array_of st article a.
Proof.
  unfold Clustering.article_embedding.
  destruct (analysis_of st (art_id article)) as [analysis|] eqn:Han; [|discriminate].
  destruct (an_embedding analysis) as [[|c text]|] eqn:Hemb; try discriminate.
  cbn [Analyzer.nonempty].
  destruct (json_loads (c :: text)) as [v|e] eqn:Hv.
  - rewrite (load_embedding_sized _ _ Hv).
    destruct (sized v) eqn:Hs.
    + destruct (np_array v) as [a'|e] eqn:Hnp.
      * intros H. apply Ok_inj in H. injection H as <-.
        eapply array_of_decoded; eauto. discriminate.
      * destruct (handled e); discriminate.
    + destruct (truthy v); [|discriminate].
      destruct (len v) as [n|e]; [discriminate|]. destruct (handled e); discriminate.
  - unfold Clustering.load_embedding. rewrite Hv. cbn [Py.bind].
    destruct (handled e); discriminate.
Qed.

Lemma loadable_has_array (st : Store) (article : Article) :
  loadable st article = has_array st article.
Proof.
  unfold loadable, has_array, Clustering.article_embedding.
  destruct (analysis_of st (art_id article)) as [analysis|]; [|reflexivity].
  destruct (an_embedding analysis) as [[|c text]|]; try reflexivity.
  cbn [Analyzer.nonempty].
  destruct (json_loads (c :: text)) as [v|e] eqn:Hv.
  - rewrite (load_embedding_sized _ _ Hv).
    destruct (sized v) eqn:Hs; cbn [andb].
    + destruct (np_array v) as [a|e]; [reflexivity|]. destruct (handled e); reflexivity.
    + destruct (truthy v); [|reflexivity].
      destruct (len v) as [n|e]; [reflexivity|]. destruct (handled e); reflexivity.
  - unfold Clustering.load_embedding. rewrite Hv. cbn [Py.bind].
    destruct (handled e); reflexivity.
Qed.

Lemma get_article_embeddings_arrays (st : Store) (articles : list Article) :
  forall embeddings article_ids,
    get_article_embeddings st articles = Ok (embeddings, article_ids) ->
    Forall2 (array_of st) (filter (has_array st) articles) embeddings.
Proof.
  induction articles as [|a rest IH]; intros embeddings article_ids H;
    cbn [Clustering.get_article_embeddings] in H.
  - apply Ok_inj in H. injection H as <- <-. constructor.
  - cbn [filter]. rewrite <- loadable_has_array. unfold loadable.
    destruct (article_embedding st a) as [[e|]|] eqn:E; cbn [Py.bind] in H;
      try discriminate;
      destruct (get_article_embeddings st rest) as [[es ids]|]; cbn [Py.bind] in H;
      try discriminate;
      specialize (IH es ids eq_refl);
      apply Ok_inj in H; cbn [fst snd] in H; injection H as <- <-.
    + constructor; [apply article_embedding_array; exact E|exact IH].
    + exact IH.
Qed.

(** X10. The embeddings and the article ids [get_article_embeddings]
    returns are aligned. The articles kept are those whose analysis has
    a non-empty embedding text that decodes to a non-empty list,
    dictionary or text of which numpy makes an array; an article without
    analysis, with a missing or empty text, or whose text decodes to an
    empty value or to a number is left out of both lists. The ids are
    those of the kept articles in the order of the input, and the
    embedding at each position is the array of the article whose id is
    at that position. (An empty value is left out by the first test of
    line 34 already, see [length_test_after_truth_test].) *)
Theorem get_article_embeddings_aligned (st : Store) (articles : list Article)
        (embeddings : list ndarray) (article_ids : list Z) :
  get_article_embeddings st articles = Ok (embeddings, article_ids) ->
  article_ids = map art_id (filter (has_array st) articles)
  /\ Forall2 (array_of st) (filter (has_array st) articles) embeddings
  /\ length embeddings = length article_ids.
Proof.
  intros H.
  pose proof (get_article_embeddings_arrays _ _ _ _ H) as Harrays.
  apply get_article_embeddings_spec in H. destruct H as [Hlen Hids].
  rewrite (filter_ext _ _ (loadable_has_array st)) in Hids.
  split; [exact Hids|]. split; [exact Harrays|exact Hlen].
Qed.

(** The dictionary of a successful run. *)
Definition success_dict (st : Store) (embeddings : list ndarray) (labels : list Z)
  : pyval :=
  PyDict [status_of "success"%string;
          (lit "run_id", PyStr uuid4);
          (lit "article_count", py_nat (length (analyzed_articles st)));
          (lit "valid_embeddings", py_nat (length embeddings));
          (lit "cluster_count",
           py_nat (length (distinct labels)
                   - (if existsb (Z.eqb (-1)) labels then 1 else 0)));
          (lit "noise_count", py_nat (count_occ Z.eq_dec labels (-1)%Z))].

(** What a run that got labels has written. *)
Definition run_effect (st st' : Store) (labels article_ids : list Z) : Prop :=
  exists new_clusters new_rows,
    clusters st' = clusters st ++ new_clusters
    /\ memberships st' = memberships st ++ new_rows
    /\ same_content st st'
    /\ length new_clusters = length (filter not_noise (distinct labels))
    /\ Forall (fun c => cl_run_id c = uuid4) new_clusters
    /\ map cm_article_id new_rows = clustered_ids labels article_ids
    /\ Forall (fun m => In (cm_cluster_id m) (map cl_id new_clusters)) new_rows.

Lemma run_effect_of_memberships (st st2 : Store) (labels article_ids : list Z) :
  create_memberships labels 0 article_ids
    (snd (create_clusters (distinct labels) uuid4 st []))
    (fst (create_clusters (distinct labels) uuid4 st [])) = Ok st2 ->
  run_effect st
    (name_clusters (snd (create_clusters (distinct labels) uuid4 st [])) st2)
    labels article_ids.
Proof.
  intros Hm.
  destruct (create_clusters_spec (distinct labels) uuid4 st [])
    as [news [Hcl [Hmap [Hlen [Hrun [Hfresh [Hmem Hsame]]]]]]].
  cbn [app] in Hmap.
  apply create_memberships_appends in Hm.
  destruct Hm as [Hc2 [Hs2 [new_rows [Hm2 [Hids Hin]]]]].
  destruct (name_clusters_renaming
              (snd (create_clusters (distinct labels) uuid4 st [])) st2)
    as [[f [Hf Rf]] [Hs3 Hm3]].
  assert (Hsnd : forall x, In x (map snd (snd (create_clusters (distinct labels) uuid4 st [])))
                           -> In x (map cl_id news)).
  { rewrite Hmap. intros x Hx. apply in_map_iff in Hx.
    destruct Hx as [[a b] [Hb Hx]]. apply in_combine_r in Hx.
    cbn [snd] in Hb. subst b. exact Hx. }
  assert (Hold : map f (clusters st) = clusters st).
  { rewrite <- (map_id (clusters st)) at 2. apply map_ext_in.
    intros o Ho. apply (Rf o). intros Hx. apply Hsnd in Hx.
    apply in_map_iff in Hx. destruct Hx as [c [Hid Hc]].
    rewrite Forall_forall in Hfresh. specialize (Hfresh c Hc o Ho). lia. }
  assert (Hnewids : map cl_id (map f news) = map cl_id news).
  { rewrite map_map. apply map_ext. intros c. apply (Rf c). }
  exists (map f news), new_rows.
  split; [rewrite Hf, Hc2, Hcl, map_app, Hold; reflexivity|].
  split; [rewrite Hm3, Hm2, Hmem; reflexivity|].
  split; [unfold same_content in *; intuition congruence|].
  split; [rewrite length_map; exact Hlen|].
  split.
  { apply Forall_forall. intros c Hc. apply in_map_iff in Hc.
    destruct Hc as [c0 [<- Hc0]]. rewrite Forall_forall in Hrun.
    destruct (Rf c0) as [_ [-> _]]. apply Hrun. exact Hc0. }
  split; [exact Hids|].
  rewrite Hnewids. eapply Forall_impl; [|exact Hin].
  intros m Hm. apply Hsnd. exact Hm.
Qed.

(** The run either leaves the store alone, or reports success and has
    the effect above. *)
Lemma run_cases (min_articles : Z) (eps : Q) (min_samples : Z) (st : Store) :
  snd (cluster_articles min_articles eps min_samples st) = st
  \/ exists embeddings article_ids labels,
       get_article_embeddings st (analyzed_articles st) = Ok (embeddings, article_ids)
       /\ dbscan eps min_samples embeddings = Ok labels
       /\ fst (cluster_articles min_articles eps min_samples st)
          = success_dict st embeddings labels
       /\ run_effect st (snd (cluster_articles min_articles eps min_samples st))
                     labels article_ids.
Proof.
  unfold Clustering.cluster_articles, Clustering.cluster_articles_body.
  destruct (Z.of_nat (length (analyzed_articles st)) <? min_articles)%Z;
    [left; reflexivity|].
  destruct (get_article_embeddings st (analyzed_articles st))
    as [[embeddings article_ids]|]; cbn [Py.bind snd]; [|left; reflexivity].
  destruct (Z.of_nat (length embeddings) <? min_articles)%Z; [left; reflexivity|].
  destruct (dbscan eps min_samples embeddings) as [labels|] eqn:Hdb;
    cbn [Py.bind snd]; [|left; reflexivity].
  pose proof (fun st2 => run_effect_of_memberships st st2 labels article_ids)
      as Heff.
  destruct (create_clusters (distinct labels) uuid4 st []) as [st1 cluster_map].
  cbn [fst snd] in Heff.
  destruct (create_memberships labels 0 article_ids cluster_map st1) as [st2|] eqn:Hm;
    cbn [Py.bind fst snd]; [|left; reflexivity].
  right. exists embeddings, article_ids, labels.
  split; [reflexivity|]. split; [exact Hdb|]. split; [reflexivity|].
  apply Heff. reflexivity.
Qed.

(** X11. A run is all or nothing: [cluster_articles] returns the store
    it was given unless it reports the status [success]. *)
Theorem run_writes_only_on_success (min_articles : Z) (eps : Q) (min_samples : Z)
        (st : Store) :
  snd (cluster_articles min_articles eps min_samples st) = st
  \/ ClusteringProps.status (fst (cluster_articles min_articles eps min_samples st))
     = PyStr (lit "success").
Proof.
  destruct (run_cases min_articles eps min_samples st)
    as [H|[embeddings [article_ids [labels [_ [_ [H _]]]]]]].
  - left. exact H.
  - right. rewrite H. reflexivity.
Qed.

(** X12. A run does not touch what earlier runs wrote: the clusters and
    memberships of the store are kept as they are, in place, and the
    rows the run adds come after them; every added cluster carries the
    run's id, every added membership points to an added cluster, and
    articles, analyses and briefs are unchanged. *)
Theorem run_keeps_earlier_rows (min_articles : Z) (eps : Q) (min_samples : Z)
        (st : Store) :
  exists new_clusters new_rows,
    clusters (snd (cluster_articles min_articles eps min_samples st))
    = clusters st ++ new_clusters
    /\ memberships (snd (cluster_articles min_articles eps min_samples st))
       = memberships st ++ new_rows
    /\ Forall (fun c => cl_run_id c = uuid4) new_clusters
    /\ Forall (fun m => In (cm_cluster_id m) (map cl_id new_clusters)) new_rows
    /\ same_content st (snd (cluster_articles min_articles eps min_samples st)).
Proof.
  destruct (run_cases min_articles eps min_samples st)
    as [H|[embeddings [article_ids [labels [_ [_ [_ H]]]]]]].
  - rewrite H. exists [], []. rewrite !app_nil_r.
    repeat split; constructor.
  - destruct H as [newc [newm [Hc [Hm [Hs [_ [Hrun [_ Hin]]]]]]]].
    exists newc, newm. repeat split; try assumption; apply Hs.
Qed.

(** X13. No article is put in two clusters by one run: when article ids
    are unique, the memberships a run adds are for pairwise different
    articles. *)
Theorem run_puts_article_in_one_cluster (min_articles : Z) (eps : Q) (min_samples : Z)
        (st : Store) :
  NoDup (map art_id (articles st)) ->
  exists new_rows,
    memberships (snd (cluster_articles min_articles eps min_samples st))
    = memberships st ++ new_rows
    /\ NoDup (map cm_article_id new_rows).
Proof.
  intros Hnd.
  destruct (run_cases min_articles eps min_samples st)
    as [H|[embeddings [article_ids [labels [Hemb [_ [_ H]]]]]]].
  - rewrite H. exists []. rewrite app_nil_r. split; [reflexivity|constructor].
  - destruct H as [newc [newm [_ [Hm [_ [_ [_ [Hids _]]]]]]]].
    exists newm. split; [exact Hm|]. rewrite Hids.
    apply NoDup_clustered_ids.
    apply get_article_embeddings_spec in Hemb. destruct Hemb as [_ ->].
    apply BatchProps.NoDup_map_filter.
    unfold analyzed_articles. apply BatchProps.NoDup_map_filter. exact Hnd.
Qed.

(** X14. When there are enough articles and embeddings and the
    clustering library returns one label for each embedding, the run
    succeeds and its counts add up: it adds [cluster_count] clusters,
    and the memberships it adds together with [noise_count] account for
    every valid embedding. *)
Theorem run_accounts_for_every_embedding (min_articles : Z) (eps : Q) (min_samples : Z)
        (st : Store) (embeddings : list ndarray) (article_ids labels : list Z) :
  (min_articles <= Z.of_nat (length (analyzed_articles st)))%Z ->
  get_article_embeddings st (analyzed_articles st) = Ok (embeddings, article_ids) ->
  (min_articles <= Z.of_nat (length embeddings))%Z ->
  dbscan eps min_samples embeddings = Ok labels ->
  length labels = length embeddings ->
  let result := cluster_articles min_articles eps min_samples st in
  exists clusters_added rows_added noise_count,
    fst result = success_dict st embeddings labels
    /\ AnalyzerProps.field (fst result) "cluster_count" = py_nat clusters_added
    /\ AnalyzerProps.field (fst result) "noise_count" = py_nat noise_count
    /\ AnalyzerProps.field (fst result) "valid_embeddings"
       = py_nat (rows_added + noise_count)
    /\ length (clusters (snd result)) = length (clusters st) + clusters_added
    /\ length (memberships (snd result)) = length (memberships st) + rows_added.
Proof.
  intros Harts Hemb Hembs Hdb Hlen result.
  pose proof (get_article_embeddings_spec _ _ _ _ Hemb) as [Hal _].
  assert (Hrun : fst result = success_dict st embeddings labels
                 /\ run_effect st (snd result) labels article_ids).
  { unfold result, Clustering.cluster_articles, Clustering.cluster_articles_body.
    apply Z.ltb_ge in Harts, Hembs. rewrite Harts, Hemb. cbn [Py.bind].
    rewrite Hembs, Hdb. cbn [Py.bind].
    pose proof (fun st2 => run_effect_of_memberships st st2 labels article_ids)
      as Heff.
    destruct (create_clusters_spec (distinct labels) uuid4 st [])
      as [news [_ [Hmap [Hnews _]]]].
    destruct (create_clusters (distinct labels) uuid4 st []) as [st1 cluster_map].
    cbn [fst snd app] in Heff, Hmap.
    destruct (create_memberships_total labels 0 article_ids cluster_map st1)
      as [st2 Hm].
    - cbn [Nat.add]. lia.
    - intros label Hin Hnn. rewrite Hmap, map_fst_combine.
      + apply filter_In. split; [apply distinct_In; exact Hin|exact Hnn].
      + rewrite length_map. lia.
    - rewrite Hm. cbn [Py.bind fst snd]. split; [reflexivity|].
      apply Heff. exact Hm. }
  destruct Hrun as [Hdict [newc [newm [Hc [Hm [_ [Hnc [_ [Hids _]]]]]]]]].
  exists (length newc), (length newm), (count_occ Z.eq_dec labels (-1)%Z).
  rewrite Hdict, Hc, Hm, !length_app.
  assert (Hrows : length newm = length (filter not_noise labels)).
  { rewrite <- (length_map cm_article_id), Hids.
    apply clustered_ids_length. congruence. }
  repeat split.
  - unfold success_dict. rewrite Hnc.
    rewrite <- (NoDup_filter_length (distinct labels) (distinct_NoDup labels)).
    assert (E : existsb (Z.eqb (-1)) (distinct labels) = existsb (Z.eqb (-1)) labels).
    { destruct (existsb (Z.eqb (-1)) labels) eqn:E1.
      - apply existsb_exists in E1. destruct E1 as [x [Hx E1]].
        apply existsb_exists. exists x. split; [apply distinct_In; exact Hx|exact E1].
      - destruct (existsb (Z.eqb (-1)) (distinct labels)) eqn:E2; [|reflexivity].
        apply existsb_exists in E2. destruct E2 as [x [Hx E2]].
        apply (proj1 (distinct_In _ _)) in Hx.
        assert (existsb (Z.eqb (-1)) labels = true)
          by (apply existsb_exists; exists x; split; assumption).
        congruence. }
    rewrite E. reflexivity.
  - unfold success_dict. rewrite Hrows, filter_count_noise, Hlen. reflexivity.
Qed.

End Libraries.

End RunProps.

(* ===================================================================== *)
(** * Further properties of the view mode *)
(* ===================================================================== *)

Module ViewProps.

Import Clustering RunProps.

(** The number of articles over all clusters, as [generate_news_brief]
    sums it. *)
Definition article_total (clusters : list ViewCluster) : nat :=
  fold_right Nat.add 0 (map (fun c => length (vc_articles c)) clusters).

Lemma insert_sorted_lower (x b : Z) (l : list Z) :
  (b < x)%Z -> Forall (Z.lt b) l -> Forall (Z.lt b) (insert_sorted x l).
Proof.
  intros Hb. induction 1 as [|y l Hy Hl IH]; cbn [insert_sorted].
  - repeat constructor. exact Hb.
  - destruct (x <? y)%Z; [repeat constructor; assumption|].
    destruct (x =? y)%Z; constructor; assumption.
Qed.

Lemma insert_sorted_sorted (x : Z) (l : list Z) :
  StronglySorted Z.lt l -> StronglySorted Z.lt (insert_sorted x l).
Proof.
  induction 1 as [|y l Hs IH Hy]; cbn [insert_sorted].
  - repeat constructor.
  - destruct (x <? y)%Z eqn:E1.
    + apply Z.ltb_lt in E1. constructor; [constructor; assumption|].
      constructor; [exact E1|].
      eapply Forall_impl; [|exact Hy]. intros z Hz. lia.
    + destruct (x =? y)%Z eqn:E2; [constructor; assumption|].
      apply Z.ltb_ge in E1. apply Z.eqb_neq in E2.
      constructor; [exact IH|]. apply insert_sorted_lower; [lia|exact Hy].
Qed.

Lemma sorted_set_sorted (labels : list Z) : StronglySorted Z.lt (sorted_set labels).
Proof.
  unfold sorted_set. induction labels as [|x l IH]; cbn [fold_right].
  - constructor.
  - apply insert_sorted_sorted. exact IH.
Qed.

Lemma sorted_filter (p : Z -> bool) (l : list Z) :
  StronglySorted Z.lt l -> StronglySorted Z.lt (filter p l).
Proof.
  induction 1 as [|y l Hs IH Hy]; cbn [filter]; [constructor|].
  destruct (p y); [|exact IH].
  constructor; [exact IH|].
  apply Forall_forall. intros z Hz. apply filter_In in Hz.
  rewrite Forall_forall in Hy. apply Hy. tauto.
Qed.


Lemma mapM_length {A B} (f : A -> exc B) (l : list A) :
  forall r, mapM f l = Ok r -> length r = length l.
Proof.
  induction l as [|a l IH]; intros r H; cbn [mapM] in H.
  - apply Ok_inj in H. subst r. reflexivity.
  - destruct (f a); cbn [Py.bind] in H; [|discriminate].
    destruct (mapM f l) as [bs|]; cbn [Py.bind] in H; [|discriminate].
    apply Ok_inj in H. subst r. cbn [length]. rewrite (IH bs eq_refl). reflexivity.
Qed.

Lemma indices_of_length (cluster_id : Z) (labels : list Z) :
  forall i, length (indices_of cluster_id labels i)
            = count_occ Z.eq_dec labels cluster_id.
Proof.
  induction labels as [|c rest IH]; intros i; cbn [indices_of count_occ];
    [reflexivity|].
  destruct (Z.eq_dec c cluster_id) as [->|Hne].
  - rewrite Z.eqb_refl. cbn [length]. rewrite IH. reflexivity.
  - assert (E : (c =? cluster_id)%Z = false) by (apply Z.eqb_neq; exact Hne).
    rewrite E. apply IH.
Qed.

(** What [build_clusters] returns when it returns: the ids but the noise
    label, each cluster with as many articles as points of its label. *)
Lemma build_clusters_spec (labels : list Z) (articles_data : list Article)
      (ids : list Z) :
  forall result,
    build_clusters ids labels articles_data = Ok result ->
    map vc_id result = filter not_noise ids
    /\ Forall (fun c => length (vc_articles c)
                        = count_occ Z.eq_dec labels (vc_id c)) result.
Proof.
  induction ids as [|cluster_id rest IH]; intros result H; cbn [build_clusters] in H.
  - apply Ok_inj in H. subst result. split; [reflexivity|constructor].
  - cbn [filter]. unfold not_noise at 1.
    destruct (cluster_id =? -1)%Z; cbn [negb]; [apply IH; exact H|].
    destruct (mapM _ _) as [arts|] eqn:Harts; cbn [Py.bind] in H; [|discriminate].
    destruct (build_clusters rest labels articles_data) as [r|]; cbn [Py.bind] in H;
      [|discriminate].
    apply Ok_inj in H. subst result. destruct (IH r eq_refl) as [Hids Hlen].
    cbn [map vc_id]. split; [congruence|].
    constructor; [|exact Hlen]. cbn [vc_articles vc_id].
    rewrite (mapM_length _ _ _ Harts). apply indices_of_length.
Qed.

Lemma count_occ_pos (labels : list Z) (x : Z) :
  In x labels -> 0 < count_occ Z.eq_dec labels x.
Proof. intros H. apply count_occ_In. exact H. Qed.



Section View.

Variable json_loads : str -> exc pyval.
Variable view_labels : list (list pyval) -> exc (list Z).

Local Abbreviation view_step := (Clustering.view_step json_loads).
Local Abbreviation view_loop := (Clustering.view_loop json_loads).
Local Abbreviation cluster_view := (Clustering.cluster_view view_labels).
Local Abbreviation get_clusters := (Clustering.get_clusters json_loads view_labels).

(** The clusters come from [build_clusters] on some labels, or there is
    none. *)
Lemma get_clusters_built (st : Store) (result : list ViewCluster) :
  get_clusters st = Ok result ->
  result = []
  \/ exists labels articles_data,
       build_clusters (sorted_set labels) labels articles_data = Ok result.
Proof.
  unfold Clustering.get_clusters.
  destruct (analyses st) as [|r rows].
  - intros H. apply Ok_inj in H. left. congruence.
  - destruct (view_loop st (r :: rows) ([], [], None)) as [[[ad ve] dim]|];
      cbn [Py.bind]; [|discriminate].
    unfold Clustering.cluster_view. destruct ve as [|e ve].
    + intros H. apply Ok_inj in H. left. congruence.
    + destruct (view_labels (e :: ve)) as [labels|]; cbn [Py.bind]; [|discriminate].
      destruct (py_max labels) as [m|]; cbn [Py.bind]; [|discriminate].
      intros H. right. eexists; eexists. exact H.
Qed.

(** X15. The clusters [get_clusters] returns are in strictly ascending
    order of their ids, none has the noise id -1, and none is empty. *)
Theorem get_clusters_ascending_nonempty (st : Store) (result : list ViewCluster) :
  get_clusters st = Ok result ->
  StronglySorted Z.lt (map vc_id result)
  /\ ~ In (-1)%Z (map vc_id result)
  /\ Forall (fun c => vc_articles c <> []) result.
Proof.
  intros H. apply get_clusters_built in H.
  destruct H as [->|[labels [ad H]]].
  - repeat split; [constructor|intros []|constructor].
  - apply build_clusters_spec in H. destruct H as [Hids Hlen].
    rewrite Hids. repeat split.
    + apply sorted_filter, sorted_set_sorted.
    + intros Hin. apply filter_In in Hin. destruct Hin as [_ Hin]. discriminate.
    + apply Forall_forall. intros c Hc.
      rewrite Forall_forall in Hlen. specialize (Hlen c Hc).
      assert (Hin : In (vc_id c) (sorted_set labels)).
      { assert (Hm : In (vc_id c) (map vc_id result)) by (apply in_map; exact Hc).
        rewrite Hids in Hm. apply filter_In in Hm. tauto. }
      apply (proj1 (ClusteringProps.sorted_set_In _ _)) in Hin.
      apply count_occ_pos in Hin.
      destruct (vc_articles c); [cbn [length] in Hlen; lia|discriminate].
Qed.

(** X16. When no analysis row has a usable embedding (the article is
    gone, the embedding is missing or its text is empty), [get_clusters]
    returns no cluster, without decoding anything and without calling the
    clustering library. *)
Theorem get_clusters_without_embeddings (st : Store) :
  (forall a, In a (analyses st) ->
             article_by_id st (an_article_id a) = None
             \/ an_embedding a = None \/ an_embedding a = Some []) ->
  get_clusters st = Ok [].
Proof.
  intros Hall. unfold Clustering.get_clusters.
  assert (Hloop : forall rows, (forall a, In a rows -> In a (analyses st)) ->
                               view_loop st rows ([], [], None) = Ok ([], [], None)).
  { induction rows as [|r rows IH]; intros Hsub; cbn [Clustering.view_loop];
      [reflexivity|].
    assert (Hstep : view_step st ([], [], None) r = Ok ([], [], None)).
    { unfold Clustering.view_step.
      destruct (Hall r (Hsub r (or_introl eq_refl))) as [->|[->| ->]];
        try reflexivity;
        destruct (article_by_id st (an_article_id r)); reflexivity. }
    rewrite Hstep. cbn [Py.bind]. apply IH. intros a Ha. apply Hsub. right. exact Ha. }
  destruct (analyses st) as [|r rows] eqn:E; [reflexivity|].
  rewrite Hloop; [reflexivity|]. intros a Ha. exact Ha.
Qed.


(** X18. [cluster_embeddings] never returns labels that are all noise:
    fewer than three embeddings go to cluster 0 without clustering, and
    whatever it returns for a non-empty input has a label that is not
    negative. *)
Theorem cluster_embeddings_never_all_noise (embeddings : list (list pyval)) :
  (length embeddings < 3 ->
   Batch.cluster_embeddings view_labels embeddings
   = Ok (repeat 0%Z (length embeddings)))
  /\ (forall labels,
        Batch.cluster_embeddings view_labels embeddings = Ok labels ->
        embeddings <> [] ->
        exists label, In label labels /\ (0 <= label)%Z).
Proof.
  unfold Batch.cluster_embeddings. split.
  - intros H. apply Nat.ltb_lt in H. rewrite H. reflexivity.
  - intros labels H Hne.
    assert (Hzero : exists label, In label (repeat 0%Z (length embeddings))
                                  /\ (0 <= label)%Z).
    { destruct embeddings as [|e es]; [congruence|].
      exists 0%Z. split; [left; reflexivity|lia]. }
    destruct (length embeddings <? 3).
    + apply Ok_inj in H. subst labels. exact Hzero.
    + destruct (view_labels embeddings) as [ls|]; cbn [Py.bind] in H; [|discriminate].
      destruct (py_max ls) as [m|] eqn:Hmax; cbn [Py.bind] in H; [|discriminate].
      destruct (m <? 0)%Z eqn:Hm; apply Ok_inj in H; subst labels; [exact Hzero|].
      apply ClusteringProps.py_max_spec in Hmax. destruct Hmax as [Hin _].
      exists m. split; [exact Hin|]. apply Z.ltb_ge in Hm. exact Hm.
Qed.

End View.

End ViewProps.

(* ===================================================================== *)
(** * Further properties of naming and of the brief *)
(* ===================================================================== *)

Module NameProps.

Import Clustering.

(** The rows [name_clusters] reads for a cluster, and their topic pieces. *)
Definition member_rows (st : Store) (cluster_id : Z) : list ArticleAnalysis :=
  filter (fun a => existsb (Z.eqb (an_article_id a))
                     (map cm_article_id
                        (filter (fun m => (cm_cluster_id m =? cluster_id)%Z)
                                (memberships st))))
         (analyses st).

Definition member_topics (st : Store) (cluster_id : Z) : list str :=
  collect_topics (member_rows st cluster_id).

Lemma bump_keys (topic : str) (counts : list (str * nat)) :
  map fst (bump topic counts) = map fst counts
  \/ (~ In topic (map fst counts)
      /\ map fst (bump topic counts) = map fst counts ++ [topic]).
Proof.
  induction counts as [|[t n] rest IH]; cbn [bump map fst].
  - right. split; [intros []|reflexivity].
  - destruct (str_eqb t topic) eqn:E; cbn [map fst]; [left; reflexivity|].
    destruct IH as [IH|[Hno IH]].
    + left. rewrite IH. reflexivity.
    + right. split; [|rewrite IH; reflexivity].
      intros [H|H]; [|contradiction].
      subst t. assert (str_eqb topic topic = true) by (apply str_eqb_eq; reflexivity).
      congruence.
Qed.

(** The keys of the counts are pairwise different non-empty topics of
    the list. *)
Lemma count_topics_keys (all_topics : list str) :
  NoDup (map fst (count_topics all_topics))
  /\ forall t, In t (map fst (count_topics all_topics)) -> In t all_topics /\ t <> [].
Proof.
  unfold count_topics.
  assert (H : forall l acc,
             NoDup (map fst acc) ->
             (forall t, In t (map fst acc) -> In t all_topics /\ t <> []) ->
             (forall t, In t l -> In t all_topics) ->
             let r := fold_left
                        (fun topic_counts topic =>
                           if Analyzer.nonempty topic then bump topic topic_counts
                           else topic_counts) l acc in
             NoDup (map fst r)
             /\ forall t, In t (map fst r) -> In t all_topics /\ t <> []).
  { induction l as [|x l IH]; intros acc Hnd Hacc Hl; cbn [fold_left].
    - split; assumption.
    - assert (Hl' : forall t, In t l -> In t all_topics)
        by (intros t Ht; apply Hl; right; exact Ht).
      destruct (Analyzer.nonempty x) eqn:Hx; [|apply IH; assumption].
      destruct (bump_keys x acc) as [Hk|[Hno Hk]]; apply IH; try exact Hl';
        rewrite Hk; try assumption.
      + apply NoDup_app; [exact Hnd|repeat constructor; intros []|].
        intros a Ha [<-|[]]. contradiction.
      + intros t Ht. apply in_app_or in Ht. destruct Ht as [Ht|[<-|[]]].
        * apply Hacc. exact Ht.
        * split; [apply Hl; left; reflexivity|].
          intros ->. discriminate. }
  apply H; [constructor|intros t []|tauto].
Qed.

Lemma insert_desc_perm {A} (key : A -> Q) (x : A) (l : list A) :
  Permutation (insert_desc key x l) (x :: l).
Proof.
  induction l as [|y l IH]; cbn [insert_desc]; [reflexivity|].
  destruct (Qle_bool (key x) (key y)); [|reflexivity].
  rewrite IH. apply perm_swap.
Qed.

Lemma sorted_desc_perm {A} (key : A -> Q) (l : list A) :
  Permutation (sorted_desc key l) l.
Proof.
  unfold sorted_desc.
  assert (H : forall l acc, Permutation (fold_left (fun acc x => insert_desc key x acc) l acc)
                                        (acc ++ l)).
  { clear l. induction l as [|x l IH]; intros acc; cbn [fold_left].
    - rewrite app_nil_r. reflexivity.
    - rewrite IH, insert_desc_perm. apply Permutation_middle. }
  apply (H l []).
Qed.

(** X19. The name [name_clusters] gives a cluster is the default
    [Cluster <label>], or it joins between one and three pieces with
    [" / "]; the pieces are pairwise different, non-empty, and each is a
    comma-separated piece of the topics text of some member. *)
Theorem cluster_name_components (st : Store) (label cluster_id : Z) :
  exists name description,
    clusters (name_cluster st label cluster_id)
    = clusters (rename_cluster st cluster_id name description)
    /\ (name = lit "Cluster " ++ str_of_Z label
        \/ exists top_topics,
             name = join (lit " / ") top_topics
             /\ 0 < length top_topics <= 3
             /\ NoDup top_topics
             /\ forall t, In t top_topics ->
                          t <> [] /\ In t (member_topics st cluster_id)).
Proof.
  unfold name_cluster.
  fold (member_rows st cluster_id). fold (member_topics st cluster_id).
  destruct (count_topics_keys (member_topics st cluster_id)) as [Hnd Hkeys].
  pose proof (sorted_desc_perm (fun x : str * nat => inject_Z (Z.of_nat (snd x)))
                (count_topics (member_topics st cluster_id))) as Hperm.
  unfold sort_desc.
  destruct (sorted_desc _ (count_topics (member_topics st cluster_id)))
    as [|top rest] eqn:Hs.
  - eexists; eexists. split; [reflexivity|]. left. reflexivity.
  - eexists; eexists. split; [reflexivity|]. right.
    exists (map fst (firstn 3 (top :: rest))). split; [reflexivity|].
    assert (Hnd' : NoDup (map fst (top :: rest))).
    { eapply Permutation_NoDup; [|exact Hnd].
      apply Permutation_map, Permutation_sym, Hperm. }
    split; [rewrite length_map, length_firstn; cbn [length]; lia|].
    split.
    + rewrite <- firstn_map. apply BatchProps.NoDup_firstn. exact Hnd'.
    + intros t Ht. rewrite <- firstn_map in Ht. apply BatchProps.In_firstn in Ht.
      assert (Hin : In t (map fst (count_topics (member_topics st cluster_id)))).
      { eapply Permutation_in; [apply Permutation_map; exact Hperm|exact Ht]. }
      apply Hkeys in Hin. tauto.
Qed.

End NameProps.

Module BriefProps.

Import Clustering NewsBrief.

Lemma Forall_prefix {A} (P : A -> Prop) (n : nat) (l : list A) :
  Forall P l -> Forall P (firstn n l).
Proof.
  intros H. revert n. induction H; intros [|n]; cbn [firstn]; constructor; auto.
Qed.

Lemma parse_insights_bounds (insights_text : str) :
  length (parse_insights insights_text) <= 5
  /\ Forall (fun s => s <> []) (parse_insights insights_text).
Proof.
  unfold parse_insights. split; [apply firstn_le_length|].
  apply Forall_prefix.
  match goal with
  | |- Forall _ (match ?l with [] => _ | _ => _ end) =>
      assert (Hl : Forall (fun s : str => s <> []) l)
  end.
  { apply Forall_forall. intros s Hs. apply in_flat_map in Hs.
    destruct Hs as [line [_ Hs]].
    destruct (Analyzer.nonempty (strip line)); cbn [negb] in Hs; [|destruct Hs].
    match type of Hs with
    | In _ (if Analyzer.nonempty ?x then _ else _) =>
        destruct (Analyzer.nonempty x) eqn:E; [|destruct Hs];
        destruct Hs as [<-|[]]; intros Hx; rewrite Hx in E; discriminate
    end. }
  match goal with
  | |- Forall _ (match ?l with [] => _ | _ => _ end) => destruct l; [|exact Hl]
  end.
  apply Forall_forall. intros s Hs. apply in_map_iff in Hs.
  destruct Hs as [i [<- _]]. destruct (strip i); discriminate.
Qed.

Section Services.

Variable json_loads : str -> exc pyval.
Variable view_labels : list (list pyval) -> exc (list Z).
Variable generate_content : str -> list ClusterInfo -> exc str.
Variable date_str : str.
Variable write_file : str -> str -> exc unit.
Variable getenv_output_file : option str.

Local Abbreviation generate_insights :=
  (NewsBrief.generate_insights json_loads generate_content).
Local Abbreviation brief_text :=
  (NewsBrief.brief_text json_loads generate_content date_str).
Local Abbreviation generate_news_brief :=
  (NewsBrief.generate_news_brief json_loads view_labels generate_content
     date_str write_file getenv_output_file).
Local Abbreviation get_clusters := (Clustering.get_clusters json_loads view_labels).

(** The first lines of every brief. *)
Definition heading : str :=
  lit "# Daily News Brief" ++ nl ++ nl ++ lit "**" ++ date_str ++ lit "**" ++ nl ++ nl.

(** X20. [generate_insights] returns at most five insights and never an
    empty one, whatever the clusters, the store and the answer of the
    service are. *)
Theorem generate_insights_at_most_five (clusters : list ViewCluster) (st : Store) :
  length (generate_insights clusters st) <= 5
  /\ Forall (fun s => s <> []) (generate_insights clusters st).
Proof.
  unfold NewsBrief.generate_insights.
  destruct clusters as [|c cs]; [split; [cbn; lia|constructor]|].
  destruct (collect_info json_loads st (c :: cs)) as [info|];
    [|split; [cbn; lia|constructor]].
  destruct (generate_content _ info) as [text|].
  - apply parse_insights_bounds.
  - split; [cbn; lia|].
    unfold fallback_insights. repeat constructor; discriminate.
Qed.

(** Where a brief goes: to the path given; when no path or an empty
    one is given, to the value of the environment variable
    [OUTPUT_FILE], and to [news_brief.md] when that is not set. *)
Inductive goes_to : option str -> str -> Prop :=
| goes_to_given (path : str) :
    path <> [] -> goes_to (Some path) path
| goes_to_variable (output_file : option str) (value : str) :
    output_file = None \/ output_file = Some [] ->
    getenv_output_file = Some value -> goes_to output_file value
| goes_to_default (output_file : option str) :
    output_file = None \/ output_file = Some [] ->
    getenv_output_file = None -> goes_to output_file (lit "news_brief.md").

Lemma resolve_output_file_goes_to (output_file : option str) :
  goes_to output_file (resolve_output_file getenv_output_file output_file).
Proof.
  unfold resolve_output_file. destruct output_file as [[|c path]|].
  - cbn [Analyzer.nonempty]. destruct getenv_output_file as [value|] eqn:E.
    + apply goes_to_variable; [right; reflexivity|exact E].
    + apply goes_to_default; [right; reflexivity|exact E].
  - apply goes_to_given. discriminate.
  - destruct getenv_output_file as [value|] eqn:E.
    + apply goes_to_variable; [left; reflexivity|exact E].
    + apply goes_to_default; [left; reflexivity|exact E].
Qed.

(** The text of a brief starts with the heading. *)
Lemma brief_text_heading (clusters : list ViewCluster) (st : Store) (text : str) :
  brief_text clusters st = Ok text -> exists rest, text = heading ++ rest.
Proof.
  unfold NewsBrief.brief_text.
  destruct (sections json_loads st (length clusters) 0 clusters) as [stories|];
    cbn [Py.bind]; [|discriminate].
  intros H. apply Ok_inj in H. subst text.
  exists (insights_block (generate_insights clusters st)
          ++ lit "## Top Stories" ++ nl ++ nl ++ stories).
  unfold heading. rewrite <- !app_assoc. reflexivity.
Qed.

(** X21. [generate_news_brief] sends the brief to the path it is given
    or, without one, to the value of [OUTPUT_FILE] or [news_brief.md].
    Either the clusters or the text could not be built, and then the
    exception is raised with the store untouched; or exactly one
    [NewsBrief] row is appended and nothing else changes. The row holds
    that path, the text, which starts with the heading, the number of
    clusters of the view and the sum of their sizes. The row is recorded
    before the file is written: the call returns the path when the write
    succeeds, and when the write raises the exception is passed on but
    the row stays. *)
Theorem generate_news_brief_records_one_brief (output_file : option str)
        (result : exc str) (st st' : Store) :
  generate_news_brief output_file st = (result, st') ->
  exists path,
    goes_to output_file path
    /\ ((exists err,
           result = Raise err /\ st' = st
           /\ (get_clusters st = Raise err
               \/ exists clusters, get_clusters st = Ok clusters
                                   /\ brief_text clusters st = Raise err))
        \/ (exists clusters brief rest,
              get_clusters st = Ok clusters
              /\ st' = add_brief st brief
              /\ nb_filename brief = path
              /\ nb_content brief = heading ++ rest
              /\ nb_cluster_count brief = length clusters
              /\ nb_article_count brief = ViewProps.article_total clusters
              /\ ((result = Ok path
                   /\ write_file path (nb_content brief) = Ok tt)
                  \/ (exists err,
                        result = Raise err
                        /\ write_file path (nb_content brief) = Raise err)))).
Proof.
  unfold NewsBrief.generate_news_brief. cbv zeta. intros H.
  exists (resolve_output_file getenv_output_file output_file).
  split; [apply resolve_output_file_goes_to|].
  destruct (get_clusters st) as [clusters|err]; cbn [Py.bind] in H.
  - destruct (brief_text clusters st) as [text|err] eqn:Ht; cbn [Py.bind] in H.
    + right. destruct (brief_text_heading _ _ _ Ht) as [rest Hrest].
      exists clusters,
             {| nb_filename := resolve_output_file getenv_output_file output_file;
                nb_content := text;
                nb_article_count :=
                  fold_right Nat.add 0 (map (fun c => length (vc_articles c)) clusters);
                nb_cluster_count := length clusters |},
             rest.
      cbn [nb_filename nb_content nb_cluster_count nb_article_count].
      destruct (write_file (resolve_output_file getenv_output_file output_file) text)
        as [[]|err] eqn:Hw; inversion H; subst result st'.
      * repeat (split; [reflexivity || exact Hrest|]). left. split; reflexivity.
      * repeat (split; [reflexivity || exact Hrest|]). right. exists err.
        split; reflexivity.
    + left. inversion H; subst. exists err. repeat split; try reflexivity.
      right. exists clusters. split; [reflexivity|exact Ht].
  - left. inversion H; subst. exists err. repeat split; try reflexivity.
    left. reflexivity.
Qed.

(** X22. With no cluster to report, the brief is the heading followed
    by an empty story section: no insight section is written and the
    service is not asked. The row recorded holds this text, the path the
    brief goes to and the counts 0, and the path is returned when the
    file can be written. *)
Theorem brief_without_clusters (output_file : option str) (st : Store) :
  get_clusters st = Ok [] ->
  exists path,
    goes_to output_file path
    /\ snd (generate_news_brief output_file st)
       = add_brief st {| nb_filename := path;
                         nb_content := heading ++ lit "## Top Stories" ++ nl ++ nl;
                         nb_article_count := 0;
                         nb_cluster_count := 0 |}
    /\ (write_file path (heading ++ lit "## Top Stories" ++ nl ++ nl) = Ok tt ->
        fst (generate_news_brief output_file st) = Ok path).
Proof.
  intros Hget. exists (resolve_output_file getenv_output_file output_file).
  split; [apply resolve_output_file_goes_to|].
  unfold NewsBrief.generate_news_brief. cbv zeta.
  rewrite Hget. cbn [Py.bind].
  assert (Ht : brief_text [] st = Ok (heading ++ lit "## Top Stories" ++ nl ++ nl)).
  { unfold NewsBrief.brief_text, heading. cbn [sections Py.bind length].
    cbn [NewsBrief.generate_insights insights_block].
    rewrite <- !app_assoc. cbn [app]. rewrite !app_nil_r. reflexivity. }
  rewrite Ht. cbn [Py.bind].
  destruct (write_file (resolve_output_file getenv_output_file output_file)
              (heading ++ lit "## Top Stories" ++ nl ++ nl)) as [[]|err];
    cbn [fst snd]; split; try reflexivity; intros H; try reflexivity; discriminate.
Qed.

End Services.

End BriefProps.

(* ===================================================================== *)
(** * Further scenarios *)
(* ===================================================================== *)

Module MoreScenarios.

Import Clustering NewsBrief Scenarios.

Ltac nodup := repeat constructor; simpl; intuition discriminate.

(** A response that is plain prose, and one that lists fields without
    being JSON. *)
Definition prose : str := lit "I cannot analyze this article".

Definition listed : str :=
  lit "Summary: Rules tighten" ++ nl ++ lit "Sentiment Score: 0.5" ++ nl
  ++ lit "Topics: a, b, c, d, e, f, g".

Definition answer_with (text : str) (title content : str) : exc str := Ok text.

Definition analyze_content_with (text : str) :=
  Analyzer.analyze_content sample_repr sample_float_of_str sample_loads
    (answer_with text).

(** The fallback stage reads the listed fields. *)
Example listed_fields :
  analyze_content_with listed (lit "First") (lit "Some text.")
  = Some (PyDict [(lit "summary", PyStr (lit "Rules tighten"));
                  (lit "sentiment_score", PyFloat (1 # 2));
                  (lit "topics", PyList (map (fun s => PyStr s)
                                           [lit "a"; lit "b"; lit "c"; lit "d"; lit "e"]));
                  (lit "entities", PyList [])]).
Proof. vm_compute. reflexivity. Qed.

Lemma extract_list_field_at_most_five_witness :
  [lit "a"; lit "b"; lit "c"; lit "d"; lit "e"] = []
  \/ 0 < length [lit "a"; lit "b"; lit "c"; lit "d"; lit "e"] <= 5.
Proof.
  apply (AnalyzerMore.extract_list_field_at_most_five sample_repr sample_loads
           listed Analyzer.topics_pattern []).
  vm_compute. reflexivity.
Defined.

Lemma fieldless_response_witness :
  analyze_content_with prose (lit "First") (lit "Some text.")
  = Some AnalyzerMore.empty_result.
Proof.
  apply (AnalyzerMore.fieldless_response_gives_empty_analysis
           sample_repr sample_float_of_str sample_loads (answer_with prose)
           (lit "First") (lit "Some text.") prose prose).
  - reflexivity.
  - vm_compute. intros H.
    repeat (destruct H as [H|H]; [discriminate|]). exact H.
  - vm_compute. reflexivity.
  - vm_compute. reflexivity.
Defined.

Lemma analyze_content_result_shape_witness :
  exists r,
    analyze_content_with listed (lit "First") (lit "Some text.") = Some r
    /\ AnalyzerProps.well_shaped r
    /\ is_str (AnalyzerProps.field r "summary").
Proof.
  eexists. split; [vm_compute; reflexivity|].
  apply (AnalyzerMore.analyze_content_result_shape
           sample_repr sample_float_of_str sample_loads (answer_with listed)
           (lit "First") (lit "Some text.")).
  vm_compute. reflexivity.
Defined.

(** *** Single articles *)

Definition blank_article : Article :=
  {| art_id := 3; art_title := lit "Blank"; art_summary := Some [];
     art_content := None; art_published_at := None;
     art_analyzed := false; art_feed_name := None |}.

Definition fresh_store : Store := store_of [article 1 "First"] [].

Lemma analyze_article_without_text_witness :
  sample_analyze blank_article two_articles = (false, two_articles).
Proof.
  apply (ArticleProps.analyze_article_without_text
           sample_repr sample_float_of_str sample_loads sample_generate
           sample_embed sample_random blank_article two_articles).
  - reflexivity.
  - left. reflexivity.
  - right. reflexivity.
Defined.

Lemma analyze_article_failure_witness :
  snd (sample_analyze (article 3 "null") two_articles) = two_articles.
Proof.
  apply (ArticleProps.analyze_article_failure_writes_nothing
           sample_repr sample_float_of_str sample_loads sample_generate
           sample_embed sample_random (article 3 "null") two_articles).
  vm_compute. reflexivity.
Defined.

Lemma analyze_article_writes_one_record_witness :
  exists row topics,
    analyses (snd (sample_analyze (article 1 "First") fresh_store))
    = analyses fresh_store ++ [row]
    /\ an_article_id row = 1%Z
    /\ an_topics row = Some (json_of (PyList topics))
    /\ length topics <= 5 /\ Forall is_str topics.
Proof.
  apply (ArticleProps.analyze_article_writes_one_record
           sample_repr sample_float_of_str sample_loads sample_generate
           sample_embed sample_random (article 1 "First") fresh_store
           (snd (sample_analyze (article 1 "First") fresh_store))).
  - reflexivity.
  - vm_compute. reflexivity.
Defined.

Lemma keeps_one_record_per_article_witness :
  NoDup (ArticleProps.analysis_ids
           (snd (sample_analyze (article 3 "Third") two_articles))).
Proof.
  apply (ArticleProps.analyze_article_keeps_one_record_per_article
           sample_repr sample_float_of_str sample_loads sample_generate
           sample_embed sample_random (article 3 "Third") two_articles).
  vm_compute. nodup.
Defined.

(** The third article was analyzed in that run. *)
Example third_article_analyzed :
  ArticleProps.analysis_ids (snd (sample_analyze (article 3 "Third") two_articles))
  = [1; 2; 3]%Z.
Proof. vm_compute. reflexivity. Qed.

Definition embed_down (text : str) : exc (option pyval) := Raise ServiceError.

Lemma get_embedding_witness :
  exists vector,
    Analyzer.get_embedding embed_down sample_random (lit "Some text.") = PyList vector
    /\ length vector = 768 /\ Forall is_float vector.
Proof.
  apply (proj2 (ArticleProps.get_embedding_truncates_and_falls_back
                  embed_down sample_random (lit "Some text.")
                  (repeat_length 0%Q 768))).
  intros v. discriminate.
Defined.

(** *** A batch *)

(** Three unprocessed articles; the service answers the second with a
    [null] score, so that one fails. *)
Definition three_unprocessed : Store :=
  store_of [article 1 "First"; article 2 "null"; article 3 "Third"] [].

Definition table_order (rows : list Article) : list Article := rows.

Definition sample_batch (limit : option nat) (st : Store) : nat * Store :=
  Batch.analyze_batch sample_repr sample_float_of_str sample_loads sample_generate
    sample_embed sample_random table_order limit st.

Example batch_skips_the_failure :
  fst (sample_batch None three_unprocessed) = 2
  /\ ArticleProps.analysis_ids (snd (sample_batch None three_unprocessed)) = [1; 3]%Z
  /\ fst (sample_batch (Some 1) three_unprocessed) = 1
  /\ fst (sample_batch None (snd (sample_batch None three_unprocessed))) = 0.
Proof. vm_compute. repeat split; reflexivity. Qed.

Lemma analyze_batch_counts_records_witness :
  fst (sample_batch None three_unprocessed) = 2
  /\ ArticleProps.analysis_ids (snd (sample_batch None three_unprocessed)) = [1; 3]%Z.
Proof.
  assert (Hids : NoDup (map art_id (articles three_unprocessed)))
    by (vm_compute; nodup).
  pose proof (BatchProps.analyze_batch_counts_records
                sample_repr sample_float_of_str sample_loads sample_generate
                sample_embed sample_random table_order None three_unprocessed
                Hids (Permutation_refl _)) as H.
  cbv zeta in H. destruct H as [Hcount [Hrows _]].
  split.
  - unfold sample_batch. rewrite Hcount. vm_compute. reflexivity.
  - unfold sample_batch. rewrite Hrows. vm_compute. reflexivity.
Defined.

(** *** Runs *)

(** Six analyzed articles: the embedding texts of the second to the
    fifth decode to an empty list, decode to a number, do not decode,
    and are empty. *)
Definition embedding_loads : str -> exc pyval :=
  loads_table [(lit "[1, 0]", PyList [PyInt 1; PyInt 0]);
               (lit "[]", PyList []);
               (lit "7", PyInt 7);
               (lit "[0, 1]", PyList [PyInt 0; PyInt 1])].

Definition mixed_embeddings : Store :=
  store_of [article 1 "First"; article 2 "Second"; article 3 "Third";
            article 4 "Fourth"; article 5 "Fifth"; article 6 "Sixth"]
           [analysis 1 (lit "[1, 0]"); analysis 2 (lit "[]"); analysis 3 (lit "7");
            analysis 4 (lit "[0, 1"); analysis 5 []; analysis 6 (lit "[0, 1]")].

Lemma get_article_embeddings_aligned_witness :
  get_article_embeddings embedding_loads pyval sample_np_array mixed_embeddings
    (articles mixed_embeddings)
  = Ok ([PyList [PyInt 1; PyInt 0]; PyList [PyInt 0; PyInt 1]], [1; 6]%Z)
  /\ map art_id (filter (RunProps.has_array embedding_loads pyval sample_np_array
                           mixed_embeddings)
                        (articles mixed_embeddings))
     = [1; 6]%Z.
Proof.
  assert (H : get_article_embeddings embedding_loads pyval sample_np_array
                mixed_embeddings (articles mixed_embeddings)
              = Ok ([PyList [PyInt 1; PyInt 0]; PyList [PyInt 0; PyInt 1]], [1; 6]%Z))
    by (vm_compute; reflexivity).
  split; [exact H|].
  destruct (RunProps.get_article_embeddings_aligned
              embedding_loads pyval sample_np_array mixed_embeddings
              (articles mixed_embeddings) _ _ H) as [Hids _].
  symmetry. exact Hids.
Defined.

Lemma run_puts_article_in_one_cluster_witness :
  exists new_rows,
    memberships (snd (sample_cluster_articles 2 two_articles))
    = memberships two_articles ++ new_rows
    /\ NoDup (map cm_article_id new_rows).
Proof.
  apply (RunProps.run_puts_article_in_one_cluster
           sample_loads pyval sample_np_array sample_dbscan (lit "run-1")
           sample_exn_str 2 (2 # 10) 3 two_articles).
  vm_compute. nodup.
Defined.

Lemma run_accounts_witness :
  exists clusters_added rows_added noise_count,
    AnalyzerProps.field (fst (sample_cluster_articles 2 two_articles)) "valid_embeddings"
    = py_nat (rows_added + noise_count)
    /\ length (clusters (snd (sample_cluster_articles 2 two_articles)))
       = length (clusters two_articles) + clusters_added
    /\ length (memberships (snd (sample_cluster_articles 2 two_articles)))
       = length (memberships two_articles) + rows_added.
Proof.
  destruct (RunProps.run_accounts_for_every_embedding
              sample_loads pyval sample_np_array sample_dbscan (lit "run-1")
              sample_exn_str 2 (2 # 10) 3 two_articles
              [PyList [PyInt 1; PyInt 0]; PyList [PyInt 0; PyInt 1]]
              [1; 2]%Z [0; 0]%Z)
    as [c [r [n [_ [_ [_ [H1 [H2 H3]]]]]]]].
  - vm_compute. discriminate.
  - vm_compute. reflexivity.
  - vm_compute. discriminate.
  - reflexivity.
  - reflexivity.
  - exists c, r, n. repeat split; assumption.
Defined.

(** A second run on the store the first one left: the rows of the first
    run are still there, unchanged, before those of the second. *)
Example second_run_keeps_first :
  let first := snd (sample_cluster_articles 2 two_articles) in
  let second := snd (sample_cluster_articles 2 first) in
  firstn 1 (clusters second) = clusters first
  /\ firstn 2 (memberships second) = memberships first
  /\ length (clusters second) = 2 /\ length (memberships second) = 4
  /\ map cm_cluster_id (memberships second) = [1; 1; 2; 2]%Z.
Proof. vm_compute. repeat split; reflexivity. Qed.

(** *** The view *)


Lemma get_clusters_ascending_witness :
  StronglySorted Z.lt (map vc_id both_articles)
  /\ ~ In (-1)%Z (map vc_id both_articles)
  /\ Forall (fun c => vc_articles c <> []) both_articles.
Proof.
  apply (ViewProps.get_clusters_ascending_nonempty
           sample_loads all_zero two_articles both_articles).
  vm_compute. reflexivity.
Defined.

(** Two analysis rows without a usable embedding. *)
Definition no_embeddings : Store :=
  store_of [article 1 "First"; article 2 "Second"]
           [analysis 1 []; analysis 5 (lit "[1, 0]")].

Lemma get_clusters_without_embeddings_witness :
  get_clusters sample_loads all_zero no_embeddings = Ok [].
Proof.
  apply (ViewProps.get_clusters_without_embeddings sample_loads all_zero no_embeddings).
  intros a [<-|[<-|[]]].
  - right. right. reflexivity.
  - left. reflexivity.
Defined.


(** *** The brief *)

Definition disk_full (path text : str) : exc unit := Raise ServiceError.

(** The brief with the given way of writing, path and value of
    [OUTPUT_FILE]. *)
Definition brief_to (write_file : str -> str -> exc unit)
           (output_file variable : option str) (st : Store) : exc str * Store :=
  generate_news_brief sample_loads all_zero service_down (lit "2024-05-01")
    write_file variable output_file st.

(** Where the brief goes, and what is left when the disk is full. *)
Example brief_paths :
  fst (brief_to disk None None two_articles) = Ok (lit "news_brief.md")
  /\ fst (brief_to disk (Some []) None two_articles) = Ok (lit "news_brief.md")
  /\ fst (brief_to disk None (Some (lit "daily.md")) two_articles) = Ok (lit "daily.md")
  /\ fst (brief_to disk (Some (lit "out.md")) (Some (lit "daily.md")) two_articles)
     = Ok (lit "out.md")
  /\ map nb_filename (briefs (snd (brief_to disk None (Some (lit "daily.md")) two_articles)))
     = [lit "daily.md"]
  /\ fst (brief_to disk_full None None two_articles) = Raise ServiceError
  /\ map nb_filename (briefs (snd (brief_to disk_full None None two_articles)))
     = [lit "news_brief.md"].
Proof. vm_compute. repeat split; reflexivity. Qed.

Lemma generate_news_brief_records_witness :
  exists path,
    BriefProps.goes_to (Some (lit "daily.md")) None path
    /\ length (briefs (snd (brief_to disk_full None (Some (lit "daily.md")) two_articles)))
       = 1.
Proof.
  destruct (BriefProps.generate_news_brief_records_one_brief
              sample_loads all_zero service_down (lit "2024-05-01") disk_full
              (Some (lit "daily.md")) None
              (fst (brief_to disk_full None (Some (lit "daily.md")) two_articles))
              two_articles
              (snd (brief_to disk_full None (Some (lit "daily.md")) two_articles)))
    as [path [Hpath [[err [_ [Hsame _]]]|[cs [b [rest [_ [Hst _]]]]]]]].
  - vm_compute. reflexivity.
  - vm_compute in Hsame. discriminate.
  - exists path. split; [exact Hpath|]. rewrite Hst. reflexivity.
Defined.

Definition empty_store : Store := store_of [] [].

Lemma brief_without_clusters_witness :
  exists path,
    BriefProps.goes_to None None path
    /\ map nb_content (briefs (snd (sample_brief empty_store)))
       = [BriefProps.heading (lit "2024-05-01") ++ lit "## Top Stories" ++ nl ++ nl].
Proof.
  destruct (BriefProps.brief_without_clusters
              sample_loads all_zero service_down (lit "2024-05-01") disk None
              None empty_store) as [path [Hpath [Hst _]]].
  - reflexivity.
  - exists path. split; [exact Hpath|].
    unfold sample_brief. rewrite Hst. reflexivity.
Defined.

End MoreScenarios.
